(** * The Pulsar API type declarations, as data

    The repository is a set of TypeScript declaration files ([.d.ts]) that
    describe the plugin API of the Pulsar editor.  A declaration file has no
    run-time behaviour: what it _is_ is its syntax tree.  This development
    therefore embeds the files as syntax trees, declaration by declaration and
    signature by signature, and proves properties of those trees.

    The syntax below is the fragment of TypeScript needed to read the files,
    together with the value-level forms (initialisers, bodies, statements) a
    TypeScript source file may contain, so that "this file holds declarations
    only" is a property a file can fail to have. *)

From Stdlib Require Import String List Bool.
Import ListNotations.
Local Open Scope string_scope.

#[local] Set Warnings "-register-all".

(** ** Syntax *)

Module TS.

(** Value-level syntax: expressions and the statements of a body. *)
Inductive Expr : Type :=
| EIdent (x : string)
| EStr (s : string)
| EMember (e : Expr) (x : string)
| ECall (f : Expr) (args : list Expr)
| ENew (c : Expr) (args : list Expr).

Inductive BodyStmt : Type :=
| BExpr (e : Expr)
| BReturn (e : option Expr)
| BThrow (e : Expr).

Definition Body := list BodyStmt.

(** Types.  [TKw] is a keyword type ([string], [void], [null], [false], ...),
    [TRef] a reference to a named type with its type arguments, [TLit] a
    string-literal type.  [Member] is a member of an interface or of an object
    type literal: a signature, which has no body by construction of the
    language.  A parenthesised type is represented by the type inside. *)
Inductive TsType : Type :=
| TKw (k : string)
| TRef (name : string) (args : list TsType)
| TLit (s : string)
| TUnion (alts : list TsType)
| TInter (parts : list TsType)
| TArray (elt : TsType)
| TTuple (elts : list TsType)
| TFun (tps : list TParam) (ps : list Param) (ret : TsType)
| TObj (ms : list Member)
| TIndexed (obj idx : TsType)
| TKeyof (t : TsType)
| TReadonly (t : TsType)
with TParam : Type :=
| TP (name : string) (constraint default : option TsType)
with Param : Type :=
| Prm (name : string) (optional rest : bool) (ty : option TsType)
with Member : Type :=
| MProp (readonly optional : bool) (name : string) (ty : TsType)
| MMethod (optional : bool) (name : string) (tps : list TParam) (ps : list Param)
          (ret : option TsType)
| MNew (ps : list Param) (ret : option TsType)
| MIndex (key : string) (kty vty : TsType).

(** Members of a class.  Unlike a signature, a class member can carry an
    initialiser or a body. *)
Inductive ClassMember : Type :=
| CProp (static readonly optional : bool) (name : string) (ty : option TsType)
        (init : option Expr)
| CMethod (static optional : bool) (name : string) (tps : list TParam) (ps : list Param)
          (ret : option TsType) (body : option Body)
| CCtor (ps : list Param) (body : option Body).

(** [import { name as alias }] *)
Inductive ImportName : Type :=
| IName (name : string) (alias : option string).

(** Statements of a source file.  The [bool] of a declaration is its [export]
    modifier; [SImport]'s and [SExportFrom]'s is the [type] modifier. *)
Inductive Stmt : Type :=
| SImport (type_only : bool) (names : list ImportName) (from : string)
| SImportBare (from : string)
| SExportStar (from : string)
| SExportFrom (type_only : bool) (names : list ImportName) (from : string)
| SInterface (exported : bool) (name : string) (tps : list TParam) (extends : list TsType)
             (ms : list Member)
| STypeAlias (exported : bool) (name : string) (tps : list TParam) (ty : TsType)
| SClass (exported : bool) (name : string) (tps : list TParam) (extends : option Expr)
         (implements : list TsType) (ms : list ClassMember)
| SVar (exported : bool) (kind name : string) (ty : option TsType) (init : option Expr)
| SFunction (exported : bool) (name : string) (tps : list TParam) (ps : list Param)
            (ret : option TsType) (body : option Body)
| SModule (name : string) (body : list Stmt)
| SGlobal (body : list Stmt)
| SEmpty
| SExec (b : BodyStmt).

(** What a file holds at its top level: statements, and between them comments
    and [/// <reference ... />] directives.  The text of a documentation block
    is not part of the declared surface and is not recorded; comments inside a
    declaration are likewise left out.  [IProse] is the running text of a
    Markdown document. *)
Inductive Item : Type :=
| IDoc
| ILine (text : string)
| IRef (attr path : string)
| IStmt (s : Stmt)
| IProse.

Inductive FileKind : Type := Declarations | Markdown.

(** One document of the repository.  Several files of the source tree hold more
    than one document; [sf_part] numbers them within the file [sf_path]. *)
Record SourceFile : Type :=
  { sf_path : string; sf_part : nat; sf_kind : FileKind; sf_items : list Item }.

(** Shorthands for the common shapes. *)
Definition TName (n : string) : TsType := TRef n [].
Definition fn (ps : list Param) (ret : TsType) : TsType := TFun [] ps ret.

Definition req (n : string) (t : TsType) : Param := Prm n false false (Some t).
Definition opt (n : string) (t : TsType) : Param := Prm n true false (Some t).
Definition rest (n : string) (t : TsType) : Param := Prm n false true (Some t).
Definition untyped (n : string) : Param := Prm n false false None.

Definition prop (n : string) (t : TsType) : Member := MProp false false n t.
Definition prop_opt (n : string) (t : TsType) : Member := MProp false true n t.
Definition ro_prop (n : string) (t : TsType) : Member := MProp true false n t.
Definition ro_prop_opt (n : string) (t : TsType) : Member := MProp true true n t.
Definition method (n : string) (ps : list Param) (r : TsType) : Member :=
  MMethod false n [] ps (Some r).
Definition method_opt (n : string) (ps : list Param) (r : TsType) : Member :=
  MMethod true n [] ps (Some r).
Definition gmethod (n : string) (tps : list TParam) (ps : list Param) (r : TsType) : Member :=
  MMethod false n tps ps (Some r).

Definition field (n : string) (t : TsType) : ClassMember :=
  CProp false false false n (Some t) None.
Definition ro_field (n : string) (t : TsType) : ClassMember :=
  CProp false true false n (Some t) None.
Definition c_ctor (ps : list Param) : ClassMember := CCtor ps None.
Definition c_method (n : string) (ps : list Param) (r : TsType) : ClassMember :=
  CMethod false false n [] ps (Some r) None.
Definition c_method_opt (n : string) (ps : list Param) (r : TsType) : ClassMember :=
  CMethod false true n [] ps (Some r) None.
Definition c_static_method (n : string) (ps : list Param) (r : TsType) : ClassMember :=
  CMethod true false n [] ps (Some r) None.
Definition c_gmethod (n : string) (tps : list TParam) (ps : list Param) (r : TsType)
  : ClassMember :=
  CMethod false false n tps ps (Some r) None.

End TS.

Import TS.

(** ** The files

    One definition per document.  Paths are relative to the root of the source
    tree; a file whose name is not known is called [unnamed/part_NNN], and a
    file that holds several documents gives one definition per document
    ([_doc1], [_doc2]).  Each member is written as in the source: name,
    parameters, declared result, in source order.  README.md and its copies are
    Markdown: prose for package authors, with no declaration of their own. *)

Definition README_md_doc1 : SourceFile :=
  {| sf_path := "README.md"; sf_part := 1;
     sf_kind := Markdown;
     sf_items := [IProse] |}.

Definition README_md_doc2 : SourceFile :=
  {| sf_path := "README.md"; sf_part := 2;
     sf_kind := Markdown;
     sf_items := [IProse] |}.

Definition event_kit_index_d_ts_doc1 : SourceFile :=
  {| sf_path := "dependencies/event-kit/index.d.ts"; sf_part := 1;
     sf_kind := Declarations;
     sf_items :=
     [IStmt (SInterface true "DisposableLike" [] [] [method "dispose" [] (TKw "void")]);
      IDoc;
      IStmt
        (SClass true "Disposable" [] None [TName "DisposableLike"]
           [c_static_method "isDisposable" [req "object" (TKw "object")] (TKw "boolean");
            c_ctor [opt "disposableAction" (fn [] (TKw "void"))];
            c_method_opt "disposalAction" [] (TKw "void");
            c_method "dispose" [] (TKw "void")]);
      IDoc;
      IStmt
        (SClass true "CompositeDisposable" [] None [TName "DisposableLike"]
           [c_ctor [rest "disposables" (TArray (TName "DisposableLike"))];
            c_method "dispose" [] (TKw "void");
            c_method "add" [rest "disposables" (TArray (TName "DisposableLike"))] (TKw "void");
            c_method "remove" [req "disposable" (TName "DisposableLike")] (TKw "void");
            c_method "delete" [req "disposable" (TName "DisposableLike")] (TKw "void");
            c_method "clear" [] (TKw "void")]);
      IDoc;
      IStmt
        (SClass true "Emitter"
           [TP "OptionalEmissions" None (Some (TObj [MIndex "key" (TKw "string") (TKw "any")]));
            TP "RequiredEmissions" None (Some (TObj []))] None [TName "DisposableLike"]
           [c_ctor [];
            c_method "clear" [] (TKw "void");
            c_method "dispose" [] (TKw "boolean");
            c_gmethod "on" [TP "T" (Some (TKeyof (TName "OptionalEmissions"))) None]
              [req "eventName" (TName "T");
               req "handler"
                 (fn [opt "value" (TIndexed (TName "OptionalEmissions") (TName "T"))] (TKw "void"))]
              (TName "Disposable");
            c_gmethod "on" [TP "T" (Some (TKeyof (TName "RequiredEmissions"))) None]
              [req "eventName" (TName "T");
               req "handler"
                 (fn [req "value" (TIndexed (TName "RequiredEmissions") (TName "T"))] (TKw "void"))]
              (TName "Disposable");
            c_gmethod "once" [TP "T" (Some (TKeyof (TName "OptionalEmissions"))) None]
              [req "eventName" (TName "T");
               req "handler"
                 (fn [opt "value" (TIndexed (TName "OptionalEmissions") (TName "T"))] (TKw "void"))]
              (TName "Disposable");
            c_gmethod "once" [TP "T" (Some (TKeyof (TName "RequiredEmissions"))) None]
              [req "eventName" (TName "T");
               req "handler"
                 (fn [req "value" (TIndexed (TName "RequiredEmissions") (TName "T"))] (TKw "void"))]
              (TName "Disposable");
            c_gmethod "preempt" [TP "T" (Some (TKeyof (TName "OptionalEmissions"))) None]
              [req "eventName" (TName "T");
               req "handler"
                 (fn [opt "value" (TIndexed (TName "OptionalEmissions") (TName "T"))] (TKw "void"))]
              (TName "Disposable");
            c_gmethod "preempt" [TP "T" (Some (TKeyof (TName "RequiredEmissions"))) None]
              [req "eventName" (TName "T");
               req "handler"
                 (fn [req "value" (TIndexed (TName "RequiredEmissions") (TName "T"))] (TKw "void"))]
              (TName "Disposable");
            c_gmethod "emit" [TP "T" (Some (TKeyof (TName "OptionalEmissions"))) None]
              [req "eventName" (TName "T");
               opt "value" (TIndexed (TName "OptionalEmissions") (TName "T"))]
              (TKw "void");
            c_gmethod "emit" [TP "T" (Some (TKeyof (TName "RequiredEmissions"))) None]
              [req "eventName" (TName "T");
               req "value" (TIndexed (TName "RequiredEmissions") (TName "T"))]
              (TKw "void")])] |}.

Definition event_kit_index_d_ts_doc2 : SourceFile :=
  {| sf_path := "dependencies/event-kit/index.d.ts"; sf_part := 2;
     sf_kind := Markdown;
     sf_items := [IProse] |}.

Definition service_hub_consumer_d_ts : SourceFile :=
  {| sf_path := "dependencies/service-hub/src/consumer.d.ts"; sf_part := 1;
     sf_kind := Declarations;
     sf_items :=
     [IStmt (SImport false [IName "Range" None] "semver");
      IStmt (SImport false [IName "Service" None] "./util");
      IStmt
        (SInterface true "Consumer" [] []
           [prop "keyPath" (TKw "string");
            prop "callback" (fn [req "service" (TName "Service")] (TKw "void"));
            prop "versionRange" (TName "Range")])] |}.

Definition service_hub_provider_d_ts : SourceFile :=
  {| sf_path := "dependencies/service-hub/src/provider.d.ts"; sf_part := 1;
     sf_kind := Declarations;
     sf_items :=
     [IStmt
        (SImport false [IName "CompositeDisposable" None; IName "Disposable" None] "../../event-kit");
      IStmt (SImport false [IName "SemVer" None] "semver");
      IStmt (SImport false [IName "Service" None] "./util");
      IStmt (SImport false [IName "Consumer" None] "./consumer");
      IStmt
        (SInterface true "Provider" [] []
           [prop "consumersDisposable" (TName "CompositeDisposable");
            prop "servicesByVersion"
              (TRef "Record"
                 [TKw "string";
                  TUnion [TName "Service"; TRef "Record" [TKw "string"; TName "Service"]]]);
            prop "versions" (TArray (TName "SemVer"));
            method "provide" [req "consumer" (TName "Consumer")] (TKw "void");
            method "destroy" [] (TKw "void")])] |}.

Definition service_hub_service_hub_d_ts : SourceFile :=
  {| sf_path := "dependencies/service-hub/src/service-hub.d.ts"; sf_part := 1;
     sf_kind := Declarations;
     sf_items :=
     [IStmt (SImport false [IName "Disposable" None] "atom");
      IStmt (SImport false [IName "Consumer" None] "./consumer");
      IStmt (SImport false [IName "Provider" None] "./provider");
      IStmt (SImport false [IName "Service" None] "./util");
      IStmt
        (SInterface true "ServiceHub" [] []
           [prop "providers" (TArray (TName "Provider"));
            prop "consumers" (TArray (TName "Consumer"));
            method "provide"
              [req "keyPath" (TKw "string");
               req "version" (TKw "string");
               req "service" (TName "Service")] (TName "Disposable");
            method "consume"
              [req "keyPath" (TKw "string");
               req "version" (TKw "string");
               req "callback" (fn [req "providedService" (TName "Service")] (TKw "unknown"))]
              (TName "Disposable");
            method "clear" [] (TKw "void")])] |}.

Definition command_registry_d_ts_doc1 : SourceFile :=
  {| sf_path := "src/command-registry.d.ts"; sf_part := 1;
     sf_kind := Declarations;
     sf_items :=
     [IStmt
        (SImport false
           [IName "CommandEvent" None; IName "CompositeDisposable" None; IName "Disposable" None]
           "../index");
      IStmt
        (SInterface true "CommandRegistryTargetMap" [] [TName "HTMLElementTagNameMap"]
           [MIndex "key" (TKw "string") (TName "EventTarget")]);
      IDoc;
      IStmt
        (STypeAlias true "CommandRegistryListener"
           [TP "TargetType" (Some (TName "EventTarget")) (Some (TName "EventTarget"))]
           (TUnion
              [TObj
                 [method "didDispatch" [req "event" (TRef "CommandEvent" [TName "TargetType"])]
                    (TUnion [TKw "unknown"; TRef "Promise" [TKw "unknown"]]);
                  prop_opt "displayName" (TUnion [TKw "string"; TKw "undefined"]);
                  prop_opt "description" (TUnion [TKw "string"; TKw "undefined"]);
                  prop_opt "hiddenInCommandPalette" (TUnion [TKw "boolean"; TKw "undefined"])];
               fn [req "event" (TRef "CommandEvent" [TName "TargetType"])]
                 (TUnion [TKw "unknown"; TRef "Promise" [TKw "unknown"]])]));
      IDoc;
      IStmt
        (SInterface true "CommandRegistry" [] []
           [gmethod "add" [TP "T" (Some (TKeyof (TName "CommandRegistryTargetMap"))) None]
              [req "target" (TName "T");
               req "commandName" (TKw "string");
               req "listener"
                 (TRef "CommandRegistryListener"
                    [TIndexed (TName "CommandRegistryTargetMap") (TName "T")])]
              (TName "Disposable");
            gmethod "add" [TP "T" (Some (TName "Node")) None]
              [req "target" (TName "T");
               req "commandName" (TKw "string");
               req "listener" (TRef "CommandRegistryListener" [TName "T"])]
              (TName "Disposable");
            gmethod "add" [TP "T" (Some (TKw "string")) None]
              [req "target" (TName "T");
               req "commandName" (TKw "string");
               req "listener" (TName "CommandRegistryListener")] (TName "Disposable");
            gmethod "add" [TP "T" (Some (TKeyof (TName "CommandRegistryTargetMap"))) None]
              [req "target" (TName "T");
               req "commands"
                 (TObj
                    [MIndex "key" (TKw "string")
                       (TRef "CommandRegistryListener"
                          [TIndexed (TName "CommandRegistryTargetMap") (TName "T")])])]
              (TName "CompositeDisposable");
            gmethod "add" [TP "T" (Some (TName "Node")) None]
              [req "target" (TName "T");
               req "commands"
                 (TObj [MIndex "key" (TKw "string") (TRef "CommandRegistryListener" [TName "T"])])]
              (TName "CompositeDisposable");
            gmethod "add" [TP "T" (Some (TKw "string")) None]
              [req "target" (TName "T");
               req "commands" (TObj [MIndex "key" (TKw "string") (TName "CommandRegistryListener")])]
              (TName "CompositeDisposable");
            method "findCommands"
              [req "params" (TObj [prop "target" (TUnion [TKw "string"; TName "Node"])])]
              (TRef "Array"
                 [TObj
                    [prop "name" (TKw "string");
                     prop "displayName" (TKw "string");
                     prop_opt "description" (TUnion [TKw "string"; TKw "undefined"]);
                     prop_opt "tags" (TUnion [TArray (TKw "string"); TKw "undefined"])]]);
            method "dispatch" [req "target" (TName "Node"); req "commandName" (TKw "string")]
              (TUnion [TRef "Promise" [TKw "void"]; TKw "null"]);
            method "onWillDispatch"
              [req "callback" (fn [req "event" (TName "CommandEvent")] (TKw "void"))]
              (TName "Disposable");
            method "onDidDispatch"
              [req "callback" (fn [req "event" (TName "CommandEvent")] (TKw "void"))]
              (TName "Disposable")])] |}.

Definition command_registry_d_ts_doc2 : SourceFile :=
  {| sf_path := "src/command-registry.d.ts"; sf_part := 2;
     sf_kind := Declarations;
     sf_items :=
     [IStmt (SImport false [IName "Disposable" None] "../index");
      IDoc;
      IStmt
        (SClass true "Task" [] None []
           [c_static_method "once" [req "taskPath" (TKw "string"); rest "args" (TArray (TKw "any"))]
              (TName "Task");
            c_ctor [req "taskPath" (TKw "string")];
            c_method "start" [rest "args" (TArray (TKw "any"))] (TKw "void");
            c_method "send"
              [req "message"
                 (TUnion
                    [TKw "string";
                     TKw "number";
                     TKw "boolean";
                     TKw "object";
                     TKw "null";
                     TArray (TKw "any")])] (TKw "void");
            c_method "on"
              [req "eventName" (TKw "string");
               req "callback" (fn [req "param" (TKw "any")] (TKw "void"))]
              (TName "Disposable");
            c_method "terminate" [] (TKw "void");
            c_method "cancel" [] (TKw "boolean")])] |}.

Definition get_window_load_settings_d_ts : SourceFile :=
  {| sf_path := "src/get-window-load-settings.d.ts"; sf_part := 1;
     sf_kind := Declarations;
     sf_items :=
     [IStmt
        (STypeAlias false "LocationToOpen" []
           (TObj
              [prop "exists" (TKw "boolean");
               prop "hasWaitSession" (TKw "boolean");
               prop "initialColumn" (TUnion [TKw "number"; TKw "null"]);
               prop "initialLine" (TUnion [TKw "number"; TKw "null"]);
               prop "isDirectory" (TKw "boolean");
               prop "isFile" (TKw "boolean");
               prop "pathToOpen" (TUnion [TKw "string"; TKw "null"])]));
      IStmt
        (SInterface true "WindowLoadSettings" [] []
           [ro_prop "appName" (TKw "string");
            ro_prop "appVersion" (TKw "string");
            ro_prop "atomHome" (TKw "string");
            ro_prop "clearWindowState" (TKw "boolean");
            ro_prop "devMode" (TKw "boolean");
            ro_prop_opt "env"
              (TUnion
                 [TObj [MIndex "key" (TKw "string") (TUnion [TKw "string"; TKw "undefined"])];
                  TKw "undefined"]);
            ro_prop "hasOpenFiles" (TKw "boolean");
            ro_prop "initialProjectRoots" (TArray (TKw "string"));
            ro_prop "locationsToOpen" (TArray (TName "LocationToOpen"));
            ro_prop "resourcePath" (TKw "string");
            ro_prop "safeMode" (TKw "boolean");
            ro_prop_opt "profileStartup" (TUnion [TKw "boolean"; TKw "undefined"]);
            ro_prop "userSettings" (TKw "object");
            ro_prop "windowInitializationScript" (TKw "string")])] |}.

Definition grammar_registry_d_ts : SourceFile :=
  {| sf_path := "src/grammar-registry.d.ts"; sf_part := 1;
     sf_kind := Declarations;
     sf_items :=
     [IStmt
        (SImport false
           [IName "Disposable" None;
            IName "Grammar" (Some "TextMateGrammar");
            IName "GrammarToken" None;
            IName "TextBuffer" None] "../index");
      IStmt
        (SImport false
           [IName "InjectionPoint" None;
            IName "WASMTreeSitterGrammar" None;
            IName "WASMTreeSitterGrammarParams" None] "./wasm-tree-sitter-grammar");
      IStmt
        (STypeAlias false "GenericGrammar" []
           (TUnion [TName "TextMateGrammar"; TName "WASMTreeSitterGrammar"]));
      IStmt
        (STypeAlias false "GrammarType" [] (TUnion [TLit "modern-tree-sitter"; TLit "textmate"]));
      IStmt
        (STypeAlias false "TextMateGrammarParams" []
           (TObj
              [prop_opt "maxTokensPerLine" (TKw "number");
               prop_opt "maxLineLength" (TKw "number");
               prop_opt "limitLineLength" (TKw "boolean");
               prop "name" (TKw "string");
               prop_opt "fileTypes" (TArray (TKw "string"));
               prop "scopeName" (TKw "string");
               prop_opt "foldingStopMarker" (TKw "string");
               prop_opt "injections" (TArray (TKw "unknown"));
               prop_opt "injectionSelector" (TKw "string");
               prop_opt "patterns" (TArray (TKw "unknown"));
               prop_opt "repository" (TKw "unknown");
               prop_opt "firstLineMatch" (TKw "string");
               prop_opt "contentRegex" (TKw "string")]));
      IStmt
        (STypeAlias false "GrammarConstructorParams" []
           (TUnion [TName "WASMTreeSitterGrammarParams"; TName "TextMateGrammarParams"]));
      IStmt
        (STypeAlias false "CreateGrammarParams" []
           (TUnion
              [TObj
                 [prop "type" (TLit "modern-tree-sitter");
                  prop "params" (TName "GrammarConstructorParams")];
               TObj [prop "params" (TName "TextMateGrammarParams")]]));
      IStmt
        (STypeAlias false "LanguageScopeFunction" []
           (fn
              [req "grammar" (TName "WASMTreeSitterGrammar");
               req "buffer" (TName "TextBuffer");
               req "range" (TName "Range")] (TUnion [TKw "string"; TKw "null"])));
      IDoc;
      IStmt
        (SInterface true "GrammarRegistry" [] []
           [method "onDidAddGrammar"
              [req "callback" (fn [req "grammar" (TName "GenericGrammar")] (TKw "void"))]
              (TName "Disposable");
            method "onDidUpdateGrammar"
              [req "callback" (fn [req "grammar" (TName "GenericGrammar")] (TKw "void"))]
              (TName "Disposable");
            method "onDidRemoveGrammar"
              [req "callback" (fn [req "grammar" (TName "GenericGrammar")] (TKw "void"))]
              (TName "Disposable");
            method "getGrammars"
              [opt "options" (TObj [prop_opt "includeTreeSitterGrammars" (TKw "boolean")])]
              (TArray (TName "GenericGrammar"));
            method "grammarForScopeName"
              [req "scopeName" (TKw "string"); req "parserType" (TName "GrammarType")]
              (TUnion [TName "GenericGrammar"; TKw "undefined"]);
            method "addGrammar" [req "grammar" (TName "GenericGrammar")] (TName "Disposable");
            method "removeGrammar" [req "grammar" (TName "GenericGrammar")] (TKw "void");
            method "createGrammar"
              [req "grammarPath" (TKw "string"); req "params" (TName "CreateGrammarParams")]
              (TName "GenericGrammar");
            method "removeGrammarForScopeName" [req "scopeName" (TKw "string")]
              (TUnion [TName "TextMateGrammar"; TKw "undefined"]);
            method "readGrammarSync" [req "grammarPath" (TKw "string")] (TName "GenericGrammar");
            method "readGrammar"
              [req "grammarPath" (TKw "string");
               req "callback"
                 (fn
                    [req "error" (TUnion [TName "Error"; TKw "null"]);
                     opt "grammar" (TName "GenericGrammar")] (TKw "void"))]
              (TKw "void");
            method "loadGrammarSync" [req "grammarPath" (TKw "string")] (TName "GenericGrammar");
            method "loadGrammar"
              [req "grammarPath" (TKw "string");
               req "callback"
                 (fn
                    [req "error" (TUnion [TName "Error"; TKw "null"]);
                     opt "grammar" (TName "GenericGrammar")] (TKw "void"))]
              (TKw "void");
            method "decodeTokens"
              [req "lineText" (TKw "string");
               req "tags" (TRef "Array" [TUnion [TKw "number"; TKw "string"]])]
              (TArray (TName "GrammarToken"));
            method "maintainLanguageMode" [req "buffer" (TName "TextBuffer")] (TName "Disposable");
            method "assignLanguageMode"
              [req "buffer" (TName "TextBuffer"); req "languageId" (TKw "string")] (TKw "boolean");
            method "autoAssignLanguageMode" [req "buffer" (TName "TextBuffer")] (TKw "void");
            method "selectGrammar"
              [req "filePath" (TKw "string"); req "fileContents" (TKw "string")]
              (TName "GenericGrammar");
            method "getGrammarScore"
              [req "grammar" (TName "GenericGrammar");
               req "filePath" (TKw "string");
               req "contents" (TKw "string")] (TKw "number");
            method "addInjectionPoint"
              [req "scopeName" (TKw "string"); req "injectionPoint" (TName "InjectionPoint")]
              (TName "Disposable")])] |}.

Definition language_mode_d_ts_doc1 : SourceFile :=
  {| sf_path := "src/language-mode.d.ts"; sf_part := 1;
     sf_kind := Declarations;
     sf_items :=
     [IStmt
        (SImport false
           [IName "Disposable" None;
            IName "Grammar" None;
            IName "Point" None;
            IName "PointCompatible" None;
            IName "Range" None;
            IName "ScopeDescriptor" None] "../index");
      IStmt
        (STypeAlias false "CommentStrings" []
           (TObj
              [prop_opt "commentStartString" (TKw "string");
               prop_opt "commentEndString" (TKw "string");
               prop_opt "commentDelimiters"
                 (TObj
                    [prop_opt "line" (TKw "string");
                     prop_opt "block" (TTuple [TKw "string"; TKw "string"])])]));
      IDoc;
      IStmt
        (STypeAlias false "BufferDidChangeEvent" []
           (TObj
              [prop "oldText" (TKw "string");
               prop "newText" (TKw "string");
               prop "oldRange" (TName "Range");
               prop "newRange" (TName "Range")]));
      IDoc;
      IStmt
        (SInterface true "HighlightIterator" [] []
           [method "seek" [req "position" (TName "PointCompatible"); req "endRow" (TKw "number")]
              (TArray (TKw "number"));
            method "moveToSuccessor" [] (TKw "boolean");
            method "getPosition" [] (TName "Point");
            method "getOpenScopeIds" [] (TArray (TKw "number"));
            method "getCloseScopeIds" [] (TArray (TKw "number"))]);
      ILine "NOTE: This interface contains only the methods that are shared between";
      ILine "the two kinds of language mode.";
      IDoc;
      IStmt
        (SInterface true "LanguageMode" [] []
           [method "destroy" [] (TKw "void");
            method "getGrammar" [] (TName "Grammar");
            method "getLanguageId" [] (TKw "string");
            method "suggestedIndentForBufferRow"
              [req "bufferRow" (TKw "number");
               req "tabLength" (TKw "number");
               opt "options" (TKw "object")]
              (TUnion
                 [TKw "number"; TKw "null"; TRef "Promise" [TUnion [TKw "number"; TKw "undefined"]]]);
            method "suggestedIndentForLineAtBufferRow"
              [req "bufferRow" (TKw "number");
               req "line" (TKw "string");
               req "tabLength" (TKw "number")] (TKw "number");
            method "suggestedIndentForEditedBufferRow"
              [req "bufferRow" (TKw "number"); req "tabLength" (TKw "number")] (TKw "number");
            method "bufferDidChange" [req "event" (TName "BufferDidChangeEvent")] (TKw "void");
            method "commentStringsForPosition" [req "position" (TName "PointCompatible")]
              (TName "CommentStrings");
            method "buildHighlightIterator" [] (TName "HighlightIterator");
            method "classNameForScopeId" [req "id" (TKw "number")] (TKw "string");
            method "onDidChangeHighlighting"
              [req "callback" (fn [req "range" (TName "Range")] (TKw "unknown"))]
              (TName "Disposable");
            method "isFoldableAtRow" [req "row" (TKw "number")] (TKw "boolean");
            method "getFoldableRangeContainingPoint"
              [req "point" (TName "Point"); req "tabLength" (TKw "number")]
              (TUnion [TName "Range"; TKw "null"]);
            method "getFoldableRangesAtIndentLevel"
              [req "indentLevel" (TKw "number"); req "tabLength" (TKw "number")]
              (TArray (TName "Range"));
            method "getFoldableRanges" [req "tabLength" (TKw "number")] (TArray (TName "Range"));
            method "scopeDescriptorForPosition" [req "position" (TName "PointCompatible")]
              (TName "ScopeDescriptor");
            method "bufferRangeForScopeAtPosition"
              [req "selector" (TKw "string"); req "position" (TName "PointCompatible")]
              (TUnion [TName "Range"; TKw "null"]);
            method "isRowCommented" [req "row" (TKw "number")] (TKw "boolean")])] |}.

Definition language_mode_d_ts_doc2 : SourceFile :=
  {| sf_path := "src/language-mode.d.ts"; sf_part := 2;
     sf_kind := Declarations;
     sf_items :=
     [IStmt
        (SImport false
           [IName "Disposable" None;
            IName "GrammarRegistry" None;
            IName "GrammarToken" None;
            IName "Range" None;
            IName "TextBuffer" None;
            IName "TokenizeLineResult" None] "../index");
      IStmt
        (SImport true [IName "Language" None; IName "Node" None; IName "Query" None]
           "web-tree-sitter");
      IDoc;
      IStmt
        (STypeAlias true "CommentDelimiterSpec" []
           (TObj
              [prop_opt "line" (TKw "string");
               prop_opt "block" (TTuple [TKw "string"; TKw "string"])]));
      IDoc;
      IStmt
        (STypeAlias false "StandardQueryType" []
           (TUnion
              [TLit "highlightsQuery"; TLit "foldsQuery"; TLit "tagsQuery"; TLit "indentsQuery"]));
      IDoc;
      IStmt (STypeAlias false "CustomQueryType" [] (TKw "string"));
      IStmt
        (STypeAlias false "DidChangeQueryPayload" []
           (TObj
              [prop "filePath" (TKw "string");
               prop "queryType" (TUnion [TName "StandardQueryType"; TName "CustomQueryType"])]));
      IStmt
        (STypeAlias false "LanguageScopeFunction" []
           (fn
              [req "grammar" (TName "WASMTreeSitterGrammar");
               req "buffer" (TName "TextBuffer");
               req "range" (TName "Range")] (TUnion [TKw "string"; TKw "null"])));
      IStmt
        (STypeAlias true "InjectionPoint" []
           (TObj
              [prop "type" (TKw "string");
               method "language" [req "node" (TName "Node")]
                 (TUnion [TKw "string"; TKw "undefined"]);
               method "content" [req "node" (TName "Node")]
                 (TUnion [TName "Node"; TArray (TName "Node"); TKw "undefined"]);
               prop_opt "includeChildren" (TKw "boolean");
               prop_opt "newlinesBetween" (TKw "boolean");
               prop_opt "languageScope"
                 (TUnion [TKw "string"; TKw "null"; TName "LanguageScopeFunction"]);
               prop_opt "coverShallowerScopes" (TKw "boolean");
               prop_opt "includeAdjacentWhitespace" (TKw "boolean")]));
      IStmt
        (STypeAlias false "TreeSitterParams" []
           (TObj
              [prop "grammar" (TKw "string");
               prop_opt "highlightsQuery" (TKw "string");
               prop_opt "foldsQuery" (TKw "string");
               prop_opt "tagsQuery" (TKw "string");
               prop_opt "indentsQuery" (TKw "string");
               prop_opt "languageSegment" (TKw "string")]));
      IStmt
        (STypeAlias false "WASMTreeSitterGrammarParams" []
           (TObj
              [prop "name" (TKw "string");
               prop "scopeName" (TKw "string");
               prop_opt "contentRegex" (TUnion [TKw "string"; TArray (TKw "string")]);
               prop_opt "firstLineRegex" (TUnion [TKw "string"; TArray (TKw "string")]);
               prop "treeSitter" (TName "TreeSitterParams");
               prop_opt "comments"
                 (TObj [prop_opt "start" (TKw "string"); prop_opt "end" (TKw "string")])]));
      IDoc;
      IStmt
        (SClass true "WASMTreeSitterGrammar" [] None []
           [ro_field "name" (TKw "string");
            ro_field "scopeName" (TKw "string");
            c_ctor
              [req "registry" (TName "GrammarRegistry");
               req "grammarPath" (TKw "string");
               req "params" (TName "WASMTreeSitterGrammarParams")];
            c_method "onDidUpdate" [req "callback" (fn [] (TKw "void"))] (TName "Disposable");
            c_method "onDidChangeQuery"
              [req "callback" (fn [req "payload" (TName "DidChangeQueryPayload")] (TKw "void"))]
              (TName "Disposable");
            c_method "onDidChangeQueryFile"
              [req "callback" (fn [req "payload" (TName "DidChangeQueryPayload")] (TKw "void"))]
              (TName "Disposable");
            c_method "onDidLoadQueryFiles" [req "callback" (fn [] (TKw "void"))]
              (TName "Disposable");
            c_method "addInjectionPoint" [req "injectionPoint" (TName "InjectionPoint")]
              (TKw "void");
            c_method "removeInjectionPoint" [req "injectionPoint" (TName "InjectionPoint")]
              (TKw "void");
            c_method "getCommentDelimiters" [] (TName "CommentDelimiterSpec");
            c_method "getLanguage" [] (TRef "Promise" [TName "Language"]);
            c_method "getLanguageSync" [] (TUnion [TName "Language"; TKw "null"]);
            c_method "getQuery"
              [req "queryType" (TUnion [TName "StandardQueryType"; TName "CustomQueryType"])]
              (TRef "Promise" [TName "Query"]);
            c_method "getQuerySync"
              [req "queryType" (TUnion [TName "StandardQueryType"; TName "CustomQueryType"])]
              (TName "Query");
            c_method "createQuery" [req "queryContents" (TKw "string")]
              (TRef "Promise" [TName "Query"]);
            c_method "createQuerySync" [req "queryContents" (TKw "string")] (TName "Query");
            c_method "setQueryForTest"
              [req "queryType" (TUnion [TName "StandardQueryType"; TName "CustomQueryType"]);
               req "contents" (TKw "string")] (TRef "Promise" [TName "Query"]);
            c_method "tokenizeLines" [req "text" (TKw "string")]
              (TArray (TArray (TName "GrammarToken")));
            c_method "tokenizeLine"
              [req "line" (TKw "string");
               opt "ruleStack" (TKw "null");
               opt "firstLine" (TKw "boolean")] (TName "TokenizeLineResult");
            c_method "tokenizeLine"
              [req "line" (TKw "string");
               req "ruleStack" (TArray (TKw "any"));
               opt "firstLine" (TKw "false")] (TName "TokenizeLineResult")])] |}.

Definition layer_decoration_d_ts : SourceFile :=
  {| sf_path := "src/layer-decoration.d.ts"; sf_part := 1;
     sf_kind := Declarations;
     sf_items :=
     [IStmt
        (SImport false
           [IName "DecorationLayerOptions" None;
            IName "DisplayMarker" None;
            IName "Marker" None;
            IName "TextEditor" None] "../index");
      IDoc;
      IStmt
        (SInterface true "LayerDecoration" [] []
           [method "destroy" [] (TKw "void");
            method "isDestroyed" [] (TKw "boolean");
            method "getProperties" [] (TName "DecorationLayerOptions");
            method "setProperties" [req "newProperties" (TName "DecorationLayerOptions")]
              (TKw "void");
            method "setPropertiesForMarker"
              [req "marker" (TUnion [TName "DisplayMarker"; TName "Marker"]);
               req "properties" (TName "DecorationLayerOptions")] (TKw "void")])] |}.

Definition notification_d_ts : SourceFile :=
  {| sf_path := "src/notification.d.ts"; sf_part := 1;
     sf_kind := Declarations;
     sf_items :=
     [IStmt (SImport false [IName "Disposable" None] "../index");
      IDoc;
      IStmt
        (SClass true "Notification" [] None []
           [c_ctor
              [req "type" (TUnion [TLit "warning"; TLit "info"; TLit "success"]);
               req "message" (TKw "string");
               opt "options" (TName "NotificationOptions")];
            c_ctor
              [req "type" (TUnion [TLit "fatal"; TLit "error"]);
               req "message" (TKw "string");
               opt "options" (TName "ErrorNotificationOptions")];
            c_method "onDidDismiss"
              [req "callback" (fn [req "notification" (TName "Notification")] (TKw "void"))]
              (TName "Disposable");
            c_method "onDidDisplay"
              [req "callback" (fn [req "notification" (TName "Notification")] (TKw "void"))]
              (TName "Disposable");
            c_method "getType" [] (TKw "string");
            c_method "getMessage" [] (TKw "string");
            c_method "getTimestamp" [] (TName "Date");
            c_method "getDetail" [] (TUnion [TKw "string"; TKw "undefined"]);
            c_method "isEqual" [req "other" (TName "Notification")] (TKw "boolean");
            c_method "dismiss" [] (TKw "void");
            c_method "isDismissed" [] (TKw "boolean");
            c_method "isDismissable" [] (TKw "boolean");
            c_method "wasDisplayed" [] (TKw "boolean");
            c_method "setDisplayed" [req "displayed" (TKw "boolean")] (TKw "void");
            c_method "getIcon" [] (TKw "string");
            c_method "getOptions" [] (TName "NotificationOptions")]);
      IStmt
        (SInterface true "NotificationOptions" [] []
           [prop_opt "buttons"
              (TUnion
                 [TRef "Array"
                    [TObj
                       [prop_opt "className" (TUnion [TKw "string"; TKw "undefined"]);
                        method_opt "onDidClick" [req "event" (TName "MouseEvent")] (TKw "void");
                        prop_opt "text" (TUnion [TKw "string"; TKw "undefined"])]];
                  TKw "undefined"]);
            prop_opt "description" (TUnion [TKw "string"; TKw "undefined"]);
            prop_opt "detail" (TUnion [TKw "string"; TKw "undefined"]);
            prop_opt "dismissable" (TUnion [TKw "boolean"; TKw "undefined"]);
            prop_opt "icon" (TUnion [TKw "string"; TKw "undefined"])]);
      IStmt
        (SInterface true "ErrorNotificationOptions" [] [TName "NotificationOptions"]
           [prop_opt "stack" (TUnion [TKw "string"; TKw "undefined"])])] |}.

Definition package_d_ts : SourceFile :=
  {| sf_path := "src/package.d.ts"; sf_part := 1;
     sf_kind := Declarations;
     sf_items :=
     [IStmt (SImport false [IName "Disposable" None] "../index");
      IDoc;
      IStmt
        (SInterface true "Package" [] []
           [ro_prop "name" (TKw "string");
            ro_prop "path" (TKw "string");
            method "onDidDeactivate" [req "callback" (fn [] (TKw "void"))] (TName "Disposable");
            method "isCompatible" [] (TKw "boolean");
            method "rebuild" []
              (TRef "Promise"
                 [TObj
                    [prop "code" (TKw "number");
                     prop "stdout" (TKw "string");
                     prop "stderr" (TKw "string")]]);
            method "getBuildFailureOutput" [] (TUnion [TKw "string"; TKw "null"])])] |}.

Definition project_d_ts : SourceFile :=
  {| sf_path := "src/project.d.ts"; sf_part := 1;
     sf_kind := Declarations;
     sf_items :=
     [IStmt
        (SImport false
           [IName "ConfigValues" None;
            IName "Directory" None;
            IName "Disposable" None;
            IName "FilesystemChangeEvent" None;
            IName "GitRepository" None;
            IName "PathWatcher" None;
            IName "TextBuffer" None] "../index");
      IDoc;
      IStmt
        (SInterface true "Project" [] []
           [method "onDidChangePaths"
              [req "callback" (fn [req "projectPaths" (TArray (TKw "string"))] (TKw "void"))]
              (TName "Disposable");
            method "onDidAddBuffer"
              [req "callback" (fn [req "buffer" (TName "TextBuffer")] (TKw "void"))]
              (TName "Disposable");
            method "observeBuffers"
              [req "callback" (fn [req "buffer" (TName "TextBuffer")] (TKw "void"))]
              (TName "Disposable");
            method "onDidChangeFiles"
              [req "callback" (fn [req "events" (TName "FilesystemChangeEvent")] (TKw "void"))]
              (TName "Disposable");
            method "onDidReplace"
              [req "callback"
                 (fn
                    [req "projectSpec"
                       (TUnion [TName "ProjectSpecification"; TKw "null"; TKw "undefined"])]
                    (TKw "void"))] (TName "Disposable");
            method "getRepositories" [] (TArray (TName "GitRepository"));
            method "observeRepositories"
              [req "callback" (fn [req "repository" (TName "GitRepository")] (TKw "void"))]
              (TName "Disposable");
            method "onDidAddRepository"
              [req "callback" (fn [req "repository" (TName "GitRepository")] (TKw "void"))]
              (TName "Disposable");
            method "repositoryForDirectory" [req "directory" (TName "Directory")]
              (TRef "Promise" [TUnion [TName "GitRepository"; TKw "null"]]);
            method "getPaths" [] (TArray (TKw "string"));
            method "setPaths" [req "projectPaths" (TArray (TKw "string"))] (TKw "void");
            method "addPath" [req "projectPath" (TKw "string")] (TKw "void");
            method "getWatcherPromise" [req "projectPath" (TKw "string")]
              (TRef "Promise" [TName "PathWatcher"]);
            method "removePath" [req "projectPath" (TKw "string")] (TKw "void");
            method "getDirectories" [] (TArray (TName "Directory"));
            method "getDirectoryForProjectPath" [req "projectPath" (TKw "string")]
              (TName "Directory");
            method "relativize" [req "fullPath" (TKw "string")] (TKw "string");
            method "relativizePath" [req "fullPath" (TKw "string")]
              (TTuple [TUnion [TKw "string"; TKw "null"]; TKw "string"]);
            method "contains" [req "pathToCheck" (TKw "string")] (TKw "boolean");
            method "replace" [req "projectSpecification" (TName "ProjectSpecification")]
              (TKw "void")]);
      IDoc;
      IStmt
        (SInterface true "ProjectSpecification" [] []
           [prop "paths" (TArray (TKw "string"));
            prop "originPath" (TKw "string");
            prop_opt "config" (TUnion [TName "ConfigValues"; TKw "undefined"])])] |}.

Definition style_manager_d_ts : SourceFile :=
  {| sf_path := "src/style-manager.d.ts"; sf_part := 1;
     sf_kind := Declarations;
     sf_items :=
     [IStmt (SImport false [IName "Disposable" None] "../index");
      IDoc;
      IStmt
        (SInterface true "StyleManager" [] []
           [method "observeStyleElements"
              [req "callback"
                 (fn [req "styleElement" (TName "StyleElementObservedEvent")] (TKw "void"))]
              (TName "Disposable");
            method "onDidAddStyleElement"
              [req "callback"
                 (fn [req "styleElement" (TName "StyleElementObservedEvent")] (TKw "void"))]
              (TName "Disposable");
            method "onDidRemoveStyleElement"
              [req "callback" (fn [req "styleElement" (TName "HTMLStyleElement")] (TKw "void"))]
              (TName "Disposable");
            method "onDidUpdateStyleElement"
              [req "callback"
                 (fn [req "styleElement" (TName "StyleElementObservedEvent")] (TKw "void"))]
              (TName "Disposable");
            method "getStyleElements" [] (TArray (TName "HTMLStyleElement"));
            method "getUserStyleSheetPath" [] (TKw "string");
            method "addStyleSheet"
              [req "source" (TKw "string");
               req "params"
                 (TObj
                    [prop_opt "sourcePath" (TKw "string");
                     prop_opt "context" (TKw "string");
                     prop_opt "priority" (TKw "number");
                     prop_opt "skipDeprecatedSelectorsTransformation" (TKw "boolean");
                     prop_opt "skipDeprecatedMathUsageTransformation" (TKw "boolean")])]
              (TName "Disposable")]);
      IStmt
        (SInterface true "StyleElementObservedEvent" [] [TName "HTMLStyleElement"]
           [prop "sourcePath" (TKw "string"); prop "context" (TKw "string")])] |}.

Definition ui_d_ts : SourceFile :=
  {| sf_path := "src/ui.d.ts"; sf_part := 1;
     sf_kind := Declarations;
     sf_items :=
     [IStmt (SImport false [IName "Grammar" None] "../index");
      IStmt
        (STypeAlias false "MarkdownRenderOptions" []
           (TObj
              [prop_opt "renderMode" (TUnion [TLit "full"; TLit "fragment"]);
               prop_opt "html" (TKw "boolean");
               prop_opt "sanitize" (TKw "boolean");
               prop_opt "sanitizeAllowUnknownProtocols" (TKw "boolean");
               prop_opt "sanitizeAllowSelfClose" (TKw "boolean");
               prop_opt "breaks" (TKw "boolean");
               prop_opt "handleFrontMatter" (TKw "boolean");
               prop_opt "useDefaultEmoji" (TKw "boolean");
               prop_opt "useGitHubHeadings" (TKw "boolean");
               prop_opt "useTaskCheckbox" (TKw "boolean");
               prop_opt "taskCheckboxDisabled" (TKw "boolean");
               prop_opt "taskCheckboxDivWrap" (TKw "boolean");
               prop_opt "transformImageLinks" (TKw "boolean");
               prop_opt "transformAtomLinks" (TKw "boolean");
               prop_opt "transformNonFqdnLinks" (TKw "boolean");
               prop_opt "rootDomain" (TKw "string");
               prop_opt "filePath" (TKw "string");
               prop_opt "disableMode" (TUnion [TLit "none"; TLit "strict"])]));
      IStmt
        (STypeAlias false "ApplySyntaxHighlightingOptions" []
           (TObj
              [prop_opt "syntaxScopeNameFunc" (fn [req "id" (TKw "string")] (TKw "string"));
               prop_opt "renderMode" (TUnion [TLit "full"; TLit "fragment"]);
               prop_opt "grammar" (TName "Grammar")]));
      IStmt
        (STypeAlias false "MatcherOptions" []
           (TObj
              [prop_opt "numThreads" (TKw "number");
               prop_opt "algorithm" (TUnion [TLit "fuzzaldrin"; TLit "command-t"]);
               prop_opt "maxResults" (TKw "number");
               prop_opt "recordMatchIndexes" (TKw "boolean");
               prop "maxGap" (TKw "number")]));
      IStmt
        (STypeAlias false "MatchResult" []
           (TObj
              [prop "id" (TKw "number");
               prop "value" (TKw "string");
               prop "score" (TKw "number");
               prop_opt "matchIndexes" (TArray (TKw "number"))]));
      IStmt
        (SClass false "Matcher" [] None []
           [field "numCpus" (TKw "number");
            c_method "match" [req "query" (TKw "string"); req "options" (TName "MatcherOptions")]
              (TName "MatchResult");
            c_method "setCandidates" [req "candidates" (TArray (TKw "string"))] (TKw "void")]);
      IStmt
        (SInterface true "UI" [] []
           [prop "markdown"
              (TObj
                 [method "render"
                    [req "content" (TKw "string"); opt "options" (TName "MarkdownRenderOptions")]
                    (TKw "string");
                  method "applySyntaxHighlighting"
                    [req "content" (TName "DocumentFragment");
                     opt "options" (TName "ApplySyntaxHighlightingOptions")]
                    (TRef "Promise" [TName "HTMLElement"]);
                  method "convertToDOM" [req "content" (TKw "string")] (TName "DocumentFragment")]);
            prop "fuzzyMatcher"
              (TObj
                 [method "setCandidates" [req "candidates" (TArray (TKw "string"))]
                    (TName "Matcher");
                  method "setCandidates"
                    [req "matcher" (TName "Matcher"); req "candidates" (TArray (TKw "string"))]
                    (TName "Matcher");
                  method "score"
                    [req "candidate" (TKw "string");
                     req "query" (TKw "string");
                     opt "options" (TName "MatcherOptions")] (TKw "number");
                  method "match"
                    [req "candidate" (TKw "string");
                     req "query" (TKw "string");
                     opt "options" (TName "MatcherOptions")]
                    (TName "MatchResult")])]);
      IStmt SEmpty] |}.

Definition part_000 : SourceFile :=
  {| sf_path := "unnamed/part_000"; sf_part := 1;
     sf_kind := Declarations;
     sf_items :=
     [IDoc;
      IStmt
        (SInterface true "Branding" [] []
           [ro_prop "id" (TKw "string");
            ro_prop "name" (TKw "string");
            ro_prop "urlCoreRepo" (TKw "string");
            ro_prop "urlForum" (TKw "string");
            ro_prop "urlGH" (TKw "string");
            ro_prop "urlWeb" (TKw "string")])] |}.

Definition part_001 : SourceFile :=
  {| sf_path := "unnamed/part_001"; sf_part := 1;
     sf_kind := Declarations;
     sf_items :=
     [IStmt
        (SImport false
           [IName "ConfigValues" None; IName "Disposable" None; IName "ScopeDescriptor" None]
           "../index");
      IStmt
        (STypeAlias false "ConfigSchemaType" []
           (TUnion
              [TLit "integer";
               TLit "boolean";
               TLit "array";
               TLit "object";
               TLit "color";
               TLit "string";
               TLit "number"]));
      IStmt
        (STypeAlias true "ConfigSchema" []
           (TUnion
              [TName "ConfigSchemaForInteger";
               TName "ConfigSchemaForNumber";
               TName "ConfigSchemaForBoolean";
               TName "ConfigSchemaForArray";
               TName "ConfigSchemaForString";
               TName "ConfigSchemaForColor";
               TName "ConfigSchemaForObject"]));
      IStmt
        (STypeAlias false "ConfigSchemaBase" []
           (TObj [prop_opt "title" (TKw "string"); prop_opt "description" (TKw "string")]));
      IStmt
        (STypeAlias false "ConfigSchemaForInteger" []
           (TInter
              [TName "ConfigSchemaBase";
               TObj
                 [prop "type" (TLit "integer");
                  prop_opt "default" (TKw "number");
                  prop_opt "minimum" (TKw "number");
                  prop_opt "maximum" (TKw "number")]]));
      IStmt
        (STypeAlias false "ConfigSchemaForNumber" []
           (TInter
              [TName "ConfigSchemaBase";
               TObj
                 [prop "type" (TLit "number");
                  prop_opt "default" (TKw "number");
                  prop_opt "minimum" (TKw "number");
                  prop_opt "maximum" (TKw "number")]]));
      IStmt
        (STypeAlias false "ConfigSchemaForBoolean" []
           (TInter
              [TName "ConfigSchemaBase";
               TObj [prop "type" (TLit "boolean"); prop_opt "default" (TKw "boolean")]]));
      IStmt
        (STypeAlias false "ConfigSchemaForArray" [TP "SubType" None (Some (TKw "unknown"))]
           (TInter
              [TName "ConfigSchemaBase";
               TObj
                 [prop "type" (TLit "array");
                  prop_opt "default" (TArray (TName "SubType"));
                  prop "items" (TName "ConfigSchema")]]));
      IStmt
        (STypeAlias false "ConfigSchemaForObject" []
           (TInter
              [TName "ConfigSchemaBase";
               TObj
                 [prop "type" (TLit "object");
                  prop "properties" (TRef "Record" [TKw "string"; TName "ConfigSchema"])]]));
      IDoc;
      IStmt
        (SInterface true "Config" [] []
           [gmethod "observe" [TP "T" (Some (TKeyof (TName "ConfigValues"))) None]
              [req "keyPath" (TName "T");
               req "callback"
                 (fn [req "value" (TIndexed (TName "ConfigValues") (TName "T"))] (TKw "void"))]
              (TName "Disposable");
            gmethod "observe" [TP "T" (Some (TKeyof (TName "ConfigValues"))) None]
              [req "keyPath" (TName "T");
               req "options"
                 (TObj [prop "scope" (TUnion [TArray (TKw "string"); TName "ScopeDescriptor"])]);
               req "callback"
                 (fn [req "value" (TIndexed (TName "ConfigValues") (TName "T"))] (TKw "void"))]
              (TName "Disposable");
            gmethod "onDidChange" [TP "T" None (Some (TKw "any"))]
              [req "callback"
                 (fn
                    [req "values" (TObj [prop "newValue" (TName "T"); prop "oldValue" (TName "T")])]
                    (TKw "void"))] (TName "Disposable");
            gmethod "onDidChange" [TP "T" (Some (TKeyof (TName "ConfigValues"))) None]
              [req "keyPath" (TName "T");
               req "callback"
                 (fn
                    [req "values"
                       (TObj
                          [prop "newValue" (TIndexed (TName "ConfigValues") (TName "T"));
                           prop_opt "oldValue"
                             (TUnion [TIndexed (TName "ConfigValues") (TName "T"); TKw "undefined"])])]
                    (TKw "void"))] (TName "Disposable");
            gmethod "onDidChange" [TP "T" (Some (TKeyof (TName "ConfigValues"))) None]
              [req "keyPath" (TName "T");
               req "options"
                 (TObj [prop "scope" (TUnion [TArray (TKw "string"); TName "ScopeDescriptor"])]);
               req "callback"
                 (fn
                    [req "values"
                       (TObj
                          [prop "newValue" (TIndexed (TName "ConfigValues") (TName "T"));
                           prop_opt "oldValue"
                             (TUnion [TIndexed (TName "ConfigValues") (TName "T"); TKw "undefined"])])]
                    (TKw "void"))] (TName "Disposable");
            gmethod "get" [TP "T" (Some (TKeyof (TName "ConfigValues"))) None]
              [req "keyPath" (TName "T");
               opt "options"
                 (TObj
                    [prop_opt "sources" (TUnion [TArray (TKw "string"); TKw "undefined"]);
                     prop_opt "excludeSources" (TUnion [TArray (TKw "string"); TKw "undefined"]);
                     prop_opt "scope"
                       (TUnion [TArray (TKw "string"); TName "ScopeDescriptor"; TKw "undefined"])])]
              (TIndexed (TName "ConfigValues") (TName "T"));
            gmethod "set" [TP "T" (Some (TKeyof (TName "ConfigValues"))) None]
              [req "keyPath" (TName "T");
               req "value" (TIndexed (TName "ConfigValues") (TName "T"));
               opt "options"
                 (TObj
                    [prop_opt "scopeSelector" (TUnion [TKw "string"; TKw "undefined"]);
                     prop_opt "source" (TUnion [TKw "string"; TKw "undefined"])])]
              (TKw "void");
            method "unset"
              [req "keyPath" (TKw "string");
               opt "options"
                 (TObj
                    [prop_opt "scopeSelector" (TUnion [TKw "string"; TKw "undefined"]);
                     prop_opt "source" (TUnion [TKw "string"; TKw "undefined"])])]
              (TKw "void");
            gmethod "getAll" [TP "T" (Some (TKeyof (TName "ConfigValues"))) None]
              [req "keyPath" (TName "T");
               opt "options"
                 (TObj
                    [prop_opt "sources" (TUnion [TArray (TKw "string"); TKw "undefined"]);
                     prop_opt "excludeSources" (TUnion [TArray (TKw "string"); TKw "undefined"]);
                     prop_opt "scope" (TUnion [TName "ScopeDescriptor"; TKw "undefined"])])]
              (TRef "Array"
                 [TObj
                    [prop "scopeDescriptor" (TName "ScopeDescriptor");
                     prop "value" (TIndexed (TName "ConfigValues") (TName "T"))]]);
            method "getSources" [] (TArray (TKw "string"));
            method "getSchema" [req "keyPath" (TKw "string")]
              (TUnion [TName "ConfigSchema"; TKw "null"]);
            method "getUserConfigPath" [] (TKw "string");
            method "transact" [req "callback" (fn [] (TKw "void"))] (TKw "void")])] |}.

Definition part_002 : SourceFile :=
  {| sf_path := "unnamed/part_002"; sf_part := 1;
     sf_kind := Declarations;
     sf_items :=
     [IStmt
        (SImport false
           [IName "DecorationPropsChangedEvent" None;
            IName "DisplayMarker" None;
            IName "Disposable" None] "../index");
      IDoc;
      IStmt
        (SInterface true "Decoration" [] []
           [ro_prop "id" (TKw "number");
            method "destroy" [] (TKw "void");
            method "onDidChangeProperties"
              [req "callback" (fn [req "event" (TName "DecorationPropsChangedEvent")] (TKw "void"))]
              (TName "Disposable");
            method "onDidDestroy" [req "callback" (fn [] (TKw "void"))] (TName "Disposable");
            method "getId" [] (TKw "number");
            method "getMarker" [] (TName "DisplayMarker");
            method "isType" [req "type" (TUnion [TKw "string"; TArray (TKw "string")])]
              (TKw "boolean");
            method "getProperties" [] (TName "DecorationOptions");
            method "setProperties" [req "newProperties" (TName "DecorationOptions")] (TKw "void")]);
      IStmt
        (SInterface true "SharedDecorationOptions" [] []
           [prop_opt "class" (TUnion [TKw "string"; TKw "undefined"]);
            prop_opt "style" (TUnion [TKw "object"; TKw "undefined"]);
            prop_opt "item" (TUnion [TKw "object"; TKw "undefined"]);
            prop_opt "onlyHead" (TUnion [TKw "boolean"; TKw "undefined"]);
            prop_opt "onlyEmpty" (TUnion [TKw "boolean"; TKw "undefined"]);
            prop_opt "onlyNonEmpty" (TUnion [TKw "boolean"; TKw "undefined"]);
            prop_opt "omitEmptyLastRow" (TUnion [TKw "boolean"; TKw "undefined"]);
            prop_opt "position"
              (TUnion [TLit "head"; TLit "tail"; TLit "before"; TLit "after"; TKw "undefined"]);
            prop_opt "order" (TUnion [TKw "number"; TKw "undefined"]);
            prop_opt "avoidOverflow" (TUnion [TKw "boolean"; TKw "undefined"])]);
      IStmt
        (SInterface true "DecorationLayerOptions" [] [TName "SharedDecorationOptions"]
           [prop_opt "type"
              (TUnion
                 [TLit "line";
                  TLit "line-number";
                  TLit "text";
                  TLit "highlight";
                  TLit "block";
                  TLit "cursor";
                  TKw "undefined"])]);
      IStmt
        (SInterface true "DecorationOptions" [] [TName "SharedDecorationOptions"]
           [prop_opt "type"
              (TUnion
                 [TLit "line";
                  TLit "line-number";
                  TLit "text";
                  TLit "highlight";
                  TLit "overlay";
                  TLit "gutter";
                  TLit "block";
                  TLit "cursor";
                  TKw "undefined"]);
            prop_opt "gutterName" (TUnion [TKw "string"; TKw "undefined"])])] |}.

Definition part_003 : SourceFile :=
  {| sf_path := "unnamed/part_003"; sf_part := 1;
     sf_kind := Declarations;
     sf_items :=
     [IStmt
        (SImport false
           [IName "Config" None;
            IName "Grammar" None;
            IName "GrammarRegistry" None;
            IName "PointCompatible" None;
            IName "Range" None;
            IName "ScopeDescriptor" None;
            IName "TextBuffer" None] "../index");
      IStmt
        (SImport false [IName "CommentDelimiterSpec" None; IName "WASMTreeSitterGrammar" None]
           "./wasm-tree-sitter-grammar");
      IStmt
        (STypeAlias false "TransactionMetadata" []
           (TObj
              [prop "changeCount" (TKw "number");
               prop "range" (TUnion [TName "Range"; TKw "null"]);
               prop "autoIndentRequests" (TKw "number")]));
      IStmt
        (STypeAlias false "SuggestedIndentForBufferRowOptions" []
           (TObj
              [prop_opt "skipEvent" (TKw "boolean");
               prop_opt "skipBlankLines" (TKw "boolean");
               prop_opt "skipDedentCheck" (TKw "boolean");
               prop "preserveLeadingWhitespace" (TKw "boolean");
               prop_opt "indentationLevels"
                 (TUnion [TRef "Map" [TKw "number"; TKw "number"]; TKw "null"]);
               prop_opt "forceTreeParse" (TKw "boolean")]));
      IStmt
        (SClass true "WASMTreeSitterLanguageMode" [] None []
           [field "id" (TKw "number");
            field "buffer" (TName "TextBuffer");
            field "grammar" (TName "WASMTreeSitterGrammar");
            field "grammarRegistry" (TName "GrammarRegistry");
            field "config" (TName "Config");
            field "useAsyncParsing" (TKw "boolean");
            field "useAsyncIndent" (TKw "boolean");
            field "rootScopeDescriptor" (TName "ScopeDescriptor");
            c_method "destroy" [] (TKw "void");
            c_method "getGrammar" [] (TName "Grammar");
            c_method "getLanguageId" [] (TKw "string");
            c_method "getNonWordCharacters" [req "pos" (TName "PointCompatible")] (TKw "string");
            c_method "atTransactionEnd" []
              (TRef "Promise" [TUnion [TName "TransactionMetadata"; TKw "void"]]);
            c_method "parseCompletePromise" []
              (TRef "Promise" [TUnion [TName "TransactionMetadata"; TKw "void"]]);
            c_method "grammarForLanguageString" [req "languageString" (TKw "string")]
              (TUnion [TName "WASMTreeSitterGrammar"; TKw "null"]);
            c_method "onDidTokenize" [req "callback" (fn [] (TKw "void"))] (TName "Disposable");
            c_method "onDidChangeHighlighting"
              [req "callback" (fn [req "range" (TName "Range")] (TKw "void"))] (TName "Disposable");
            c_method "syntaxTreeScopeDescriptorForPosition" [req "point" (TName "PointCompatible")]
              (TArray (TKw "string"));
            c_method "bufferRangeForScopeAtPosition"
              [req "scopeSelector" (TKw "string"); req "point" (TName "PointCompatible")]
              (TUnion [TName "Range"; TKw "undefined"]);
            c_method "scopeDescriptorForPosition" [req "point" (TName "PointCompatible")]
              (TName "ScopeDescriptor");
            c_method "getSyntaxNodeContainingRange"
              [req "range" (TName "Range");
               opt "where"
                 (fn [req "node" (TName "Node"); req "grammar" (TName "WASMTreeSitterGrammar")]
                    (TKw "boolean"))] (TUnion [TName "Node"; TKw "undefined"]);
            c_method "getSyntaxNodeAndGrammarContainingRange"
              [req "range" (TName "Range");
               opt "where"
                 (fn [req "node" (TName "Node"); req "grammar" (TName "WASMTreeSitterGrammar")]
                    (TKw "boolean"))]
              (TUnion
                 [TObj [prop "node" (TName "Node"); prop "grammar" (TName "WASMTreeSitterGrammar")];
                  TObj [prop "node" (TKw "null"); prop "grammar" (TKw "null")]]);
            c_method "getRangeForSyntaxNodeContainingRange"
              [req "range" (TName "Range");
               opt "where"
                 (fn [req "node" (TName "Node"); req "grammar" (TName "WASMTreeSitterGrammar")]
                    (TKw "boolean"))] (TUnion [TName "Range"; TKw "undefined"]);
            c_method "getSyntaxNodeAtPosition"
              [req "position" (TName "PointCompatible");
               opt "where"
                 (fn [req "node" (TName "Node"); req "grammar" (TName "WASMTreeSitterGrammar")]
                    (TKw "boolean"))] (TUnion [TName "Node"; TKw "undefined"]);
            c_method "getFoldableRangeContainingPoint" [req "point" (TName "PointCompatible")]
              (TUnion [TName "Range"; TKw "null"]);
            c_method "getFoldableRanges" [] (TArray (TName "Range"));
            c_method "getFoldableRangesAtIndentLevel" [req "desiredLevel" (TKw "number")]
              (TArray (TName "Range"));
            c_method "isFoldableAtRow" [req "row" (TKw "number")] (TKw "boolean");
            c_method "getFoldRangeForRow" [req "row" (TKw "number")]
              (TUnion [TName "Range"; TKw "null"]);
            c_method "commentStringsForPosition" [req "position" (TName "PointCompatible")]
              (TObj
                 [prop "commentStartString" (TKw "string");
                  prop_opt "commentEndString" (TKw "string");
                  prop "commentDelimiters" (TName "CommentDelimiterSpec")]);
            c_method "isRowCommented" [req "row" (TKw "number")] (TKw "boolean");
            c_method "suggestedIndentForBufferRow"
              [req "row" (TKw "number");
               req "tabLength" (TKw "number");
               req "options" (TName "SuggestedIndentForBufferRowOptions")]
              (TUnion
                 [TKw "number"; TKw "null"; TRef "Promise" [TUnion [TKw "number"; TKw "undefined"]]]);
            c_method "suggestedIndentForBufferRows"
              [req "startRow" (TKw "number");
               req "endRow" (TKw "number");
               req "tabLength" (TKw "number");
               req "options"
                 (TInter
                    [TName "SuggestedIndentForBufferRowOptions";
                     TObj [prop_opt "isPastedText" (TKw "boolean")]])]
              (TRef "Map" [TKw "number"; TUnion [TKw "number"; TKw "null"]]);
            c_method "suggestedIndentForEditedBufferRow"
              [req "row" (TKw "number");
               req "tabLength" (TKw "number");
               req "options" (TName "SuggestedIndentForBufferRowOptions")]
              (TUnion
                 [TKw "number"; TKw "null"; TRef "Promise" [TUnion [TKw "number"; TKw "undefined"]]]);
            c_method "suggestedIndentForLineAtBufferRow"
              [req "row" (TKw "number");
               req "lineText" (TKw "string");
               req "tabLength" (TKw "number")]
              (TUnion
                 [TKw "number"; TKw "null"; TRef "Promise" [TUnion [TKw "number"; TKw "undefined"]]])])] |}.

Definition part_004_doc1 : SourceFile :=
  {| sf_path := "unnamed/part_004"; sf_part := 1;
     sf_kind := Declarations;
     sf_items :=
     [IDoc;
      IStmt
        (SInterface true "ScopeDescriptor" [] []
           [method "getScopesArray" [] (TReadonly (TArray (TKw "string")))])] |}.

Definition part_004_doc2 : SourceFile :=
  {| sf_path := "unnamed/part_004"; sf_part := 2;
     sf_kind := Declarations;
     sf_items :=
     [IStmt
        (SImport false
           [IName "Disposable" None; IName "TextEditor" None; IName "TextEditorElement" None]
           "../index");
      IDoc;
      IStmt
        (SInterface true "ViewRegistry" [] []
           [method "addViewProvider"
              [req "createView"
                 (fn [req "model" (TKw "object")] (TUnion [TName "HTMLElement"; TKw "undefined"]))]
              (TName "Disposable");
            gmethod "addViewProvider" [TP "T" None None]
              [req "modelConstructor"
                 (TObj [MNew [rest "args" (TArray (TKw "any"))] (Some (TName "T"))]);
               req "createView"
                 (fn [req "instance" (TName "T")] (TUnion [TName "HTMLElement"; TKw "undefined"]))]
              (TName "Disposable");
            method "getView" [req "obj" (TName "TextEditor")] (TName "TextEditorElement");
            method "getView" [req "obj" (TKw "object")] (TName "HTMLElement")]);
      IStmt (SInterface true "ViewModel" [] [] [prop "getTitle" (fn [] (TKw "string"))])] |}.

Definition part_005 : SourceFile :=
  {| sf_path := "unnamed/part_005"; sf_part := 1;
     sf_kind := Declarations;
     sf_items :=
     [IStmt
        (SImport false
           [IName "Disposable" None;
            IName "TextEditor" None;
            IName "ViewModel" None;
            IName "Workspace" None] "../index");
      IDoc;
      IStmt (STypeAlias true "PaneItem" [] (TUnion [TName "AbstractPaneItem"; TName "HTMLElement"]));
      IStmt
        (STypeAlias false "PaneItemLocation" []
           (TUnion [TLit "left"; TLit "right"; TLit "bottom"; TLit "center"]));
      IStmt
        (STypeAlias false "PaneItemSerializer" []
           (TInter
              [TObj [prop "deserializer" (TKw "string")];
               TRef "Record" [TKw "string"; TKw "unknown"]]));
      IStmt
        (STypeAlias false "PaneItemFileFilter" []
           (TObj [prop "name" (TKw "string"); prop "extensions" (TArray (TKw "string"))]));
      IDoc;
      IStmt
        (STypeAlias false "PaneItemSaveDialogProperty" []
           (TUnion
              [TLit "showHiddenFiles";
               TLit "createDirectory";
               TLit "treatPackageAsDirectory";
               TLit "showOverwriteConfirmation";
               TLit "dontAddToRecent"]));
      IDoc;
      IStmt
        (STypeAlias false "PaneItemSaveDialogOptions" []
           (TObj
              [prop_opt "title" (TKw "string");
               prop_opt "defaultPath" (TKw "string");
               prop_opt "buttonLabel" (TKw "string");
               prop_opt "filters" (TArray (TName "PaneItemFileFilter"));
               prop_opt "message" (TKw "string");
               prop_opt "nameFieldLabel" (TKw "string");
               prop_opt "showsTagField" (TKw "boolean");
               prop_opt "properties" (TArray (TName "PaneItemSaveDialogProperty"))]));
      IDoc;
      IStmt
        (SInterface false "AbstractPaneItem" [] [TName "ViewModel"]
           [method "getTitle" [] (TKw "string");
            method "getElement" [] (TName "HTMLElement");
            method_opt "getURI" [] (TKw "string");
            method_opt "destroy" [] (TKw "unknown");
            method_opt "onDidDestroy" [untyped "callback"] (TName "Disposable");
            method_opt "isDestroyed" [] (TKw "boolean");
            method_opt "serialize" [] (TName "PaneItemSerializer");
            method_opt "onDidChangeTitle"
              [req "callback" (fn [req "newTitle" (TKw "string")] (TKw "unknown"))]
              (TName "Disposable");
            method_opt "getLongTitle" [] (TKw "string");
            method_opt "getIconName" [] (TKw "string");
            method_opt "onDidChangeIcon"
              [req "callback" (fn [req "newIcon" (TKw "string")] (TKw "unknown"))]
              (TName "Disposable");
            method_opt "getDefaultLocation" [] (TName "PaneItemLocation");
            method_opt "getAllowedLocations" [] (TArray (TName "PaneItemLocation"));
            method_opt "isPermanentDockItem" [] (TKw "boolean");
            method_opt "save" [] (TUnion [TKw "void"; TRef "Promise" [TKw "void"]]);
            method_opt "save" [req "filePath" (TKw "string")]
              (TUnion [TKw "void"; TRef "Promise" [TKw "void"]]);
            method_opt "getPath" [] (TKw "string");
            method_opt "getSaveDialogOptions" [] (TName "PaneItemSaveDialogOptions");
            method_opt "isModified" [] (TKw "boolean");
            method_opt "onDidChangeModified"
              [req "callback" (fn [req "newModified" (TKw "boolean")] (TKw "unknown"))]
              (TName "Disposable");
            method_opt "copy" [] (TName "AbstractPaneItem");
            method_opt "getPreferredHeight" [] (TKw "number");
            method_opt "getPreferredWidth" [] (TKw "number");
            method_opt "onDidTerminatePendingState" [req "callback" (fn [] (TKw "unknown"))]
              (TName "Disposable");
            method_opt "shouldPromptToSave" [] (TKw "boolean");
            method_opt "observeEmbeddedTextEditor"
              [req "callback" (fn [req "editor" (TName "TextEditor")] (TKw "unknown"))]
              (TName "Disposable")]);
      IDoc;
      IStmt
        (SInterface true "Pane" [] []
           [method "onDidChangeFlexScale"
              [req "callback" (fn [req "flexScale" (TKw "number")] (TKw "void"))]
              (TName "Disposable");
            method "observeFlexScale"
              [req "callback" (fn [req "flexScale" (TKw "number")] (TKw "void"))]
              (TName "Disposable");
            method "onDidActivate" [req "callback" (fn [] (TKw "void"))] (TName "Disposable");
            method "onWillDestroy" [req "callback" (fn [] (TKw "void"))] (TName "Disposable");
            method "onDidDestroy" [req "callback" (fn [] (TKw "void"))] (TName "Disposable");
            method "onDidChangeActive"
              [req "callback" (fn [req "active" (TKw "boolean")] (TKw "void"))] (TName "Disposable");
            method "observeActive" [req "callback" (fn [req "active" (TKw "boolean")] (TKw "void"))]
              (TName "Disposable");
            method "onDidAddItem"
              [req "callback" (fn [req "event" (TName "PaneListItemShiftedEvent")] (TKw "void"))]
              (TName "Disposable");
            method "onDidRemoveItem"
              [req "callback" (fn [req "event" (TName "PaneListItemShiftedEvent")] (TKw "void"))]
              (TName "Disposable");
            method "onWillRemoveItem"
              [req "callback" (fn [req "event" (TName "PaneListItemShiftedEvent")] (TKw "void"))]
              (TName "Disposable");
            method "onDidMoveItem"
              [req "callback" (fn [req "event" (TName "PaneItemMovedEvent")] (TKw "void"))]
              (TName "Disposable");
            method "observeItems" [req "callback" (fn [req "item" (TName "PaneItem")] (TKw "void"))]
              (TName "Disposable");
            method "onDidChangeActiveItem"
              [req "callback" (fn [req "activeItem" (TName "PaneItem")] (TKw "void"))]
              (TName "Disposable");
            method "onChooseNextMRUItem"
              [req "callback" (fn [req "nextRecentlyUsedItem" (TName "PaneItem")] (TKw "void"))]
              (TName "Disposable");
            method "onChooseLastMRUItem"
              [req "callback" (fn [req "previousRecentlyUsedItem" (TName "PaneItem")] (TKw "void"))]
              (TName "Disposable");
            method "onDoneChoosingMRUItem" [req "callback" (fn [] (TKw "void"))]
              (TName "Disposable");
            method "observeActiveItem"
              [req "callback" (fn [req "activeItem" (TName "PaneItem")] (TKw "void"))]
              (TName "Disposable");
            method "onWillDestroyItem"
              [req "callback" (fn [req "event" (TName "PaneListItemShiftedEvent")] (TKw "void"))]
              (TName "Disposable");
            method "getItems" [] (TArray (TName "PaneItem"));
            method "getActiveItem" [] (TName "PaneItem");
            method "itemAtIndex" [req "index" (TKw "number")]
              (TUnion [TName "PaneItem"; TKw "undefined"]);
            method "activateNextItem" [] (TKw "void");
            method "activatePreviousItem" [] (TKw "void");
            method "moveItemRight" [] (TKw "void");
            method "moveItemLeft" [] (TKw "void");
            method "getActiveItemIndex" [] (TKw "number");
            method "activateItemAtIndex" [req "index" (TKw "number")] (TKw "void");
            method "activateItem"
              [req "item" (TName "PaneItem"); opt "options" (TObj [prop "pending" (TKw "boolean")])]
              (TKw "void");
            method "addItem"
              [req "item" (TName "PaneItem");
               opt "options"
                 (TObj
                    [prop_opt "index" (TUnion [TKw "number"; TKw "undefined"]);
                     prop_opt "pending" (TUnion [TKw "boolean"; TKw "undefined"])])]
              (TName "PaneItem");
            method "addItems" [req "items" (TArray (TName "PaneItem")); opt "index" (TKw "number")]
              (TArray (TName "PaneItem"));
            method "moveItem" [req "item" (TName "PaneItem"); req "index" (TKw "number")]
              (TKw "void");
            method "moveItemToPane"
              [req "item" (TName "PaneItem"); req "pane" (TName "Pane"); req "index" (TKw "number")]
              (TKw "void");
            method "destroyActiveItem" [] (TRef "Promise" [TKw "boolean"]);
            method "destroyItem" [req "item" (TName "PaneItem"); opt "force" (TKw "boolean")]
              (TRef "Promise" [TKw "boolean"]);
            method "destroyItems" [] (TRef "Promise" [TArray (TKw "boolean")]);
            method "destroyInactiveItems" [] (TRef "Promise" [TArray (TKw "boolean")]);
            gmethod "saveActiveItem" [TP "T" None (Some (TKw "void"))]
              [opt "nextAction" (fn [opt "error" (TName "Error")] (TName "T"))]
              (TUnion [TRef "Promise" [TName "T"]; TKw "undefined"]);
            gmethod "saveActiveItemAs" [TP "T" None (Some (TKw "void"))]
              [opt "nextAction" (fn [opt "error" (TName "Error")] (TName "T"))]
              (TUnion [TRef "Promise" [TName "T"]; TKw "undefined"]);
            gmethod "saveItem" [TP "T" None (Some (TKw "void"))]
              [req "item" (TName "PaneItem");
               opt "nextAction" (fn [opt "error" (TName "Error")] (TName "T"))]
              (TUnion [TRef "Promise" [TName "T"]; TKw "undefined"]);
            gmethod "saveItemAs" [TP "T" None (Some (TKw "void"))]
              [req "item" (TName "PaneItem");
               opt "nextAction" (fn [opt "error" (TName "Error")] (TName "T"))]
              (TUnion [TRef "Promise" [TName "T"]; TKw "undefined"]);
            method "saveItems" [] (TKw "void");
            method "itemForURI" [req "uri" (TKw "string")]
              (TUnion [TName "PaneItem"; TKw "undefined"]);
            method "activateItemForURI" [req "uri" (TKw "string")] (TKw "boolean");
            method "isActive" [] (TKw "boolean");
            method "activate" [] (TKw "void");
            method "destroy" [] (TKw "void");
            method "isDestroyed" [] (TKw "boolean");
            method "splitLeft"
              [opt "params"
                 (TObj
                    [prop_opt "items" (TUnion [TArray (TName "PaneItem"); TKw "undefined"]);
                     prop_opt "copyActiveItem" (TUnion [TKw "boolean"; TKw "undefined"])])]
              (TName "Pane");
            method "splitRight"
              [opt "params"
                 (TObj
                    [prop_opt "items" (TUnion [TArray (TName "PaneItem"); TKw "undefined"]);
                     prop_opt "copyActiveItem" (TUnion [TKw "boolean"; TKw "undefined"])])]
              (TName "Pane");
            method "splitUp"
              [opt "params"
                 (TObj
                    [prop_opt "items" (TUnion [TArray (TName "PaneItem"); TKw "undefined"]);
                     prop_opt "copyActiveItem" (TUnion [TKw "boolean"; TKw "undefined"])])]
              (TName "Pane");
            method "splitDown"
              [opt "params"
                 (TObj
                    [prop_opt "items" (TUnion [TArray (TName "PaneItem"); TKw "undefined"]);
                     prop_opt "copyActiveItem" (TUnion [TKw "boolean"; TKw "undefined"])])]
              (TName "Pane");
            method "getPendingItem" [] (TUnion [TName "PaneItem"; TKw "null"]);
            method "setPendingItem" [req "item" (TUnion [TName "PaneItem"; TKw "null"])]
              (TKw "void");
            method "clearPendingItem" [] (TKw "void")]);
      IStmt
        (SInterface true "PaneListItemShiftedEvent" [] []
           [prop "item" (TName "PaneItem"); prop "index" (TKw "number")]);
      IStmt
        (SInterface true "PaneItemMovedEvent" [] []
           [prop "item" (TName "PaneItem");
            prop "oldIndex" (TKw "number");
            prop "newIndex" (TKw "number")]);
      IStmt
        (SInterface true "PaneItemObservedEvent" [] []
           [prop "item" (TName "PaneItem"); prop "pane" (TName "Pane"); prop "index" (TKw "number")]);
      IStmt
        (SInterface true "PaneItemOpenedEvent" [] [TName "PaneItemObservedEvent"]
           [prop "uri" (TKw "string")])] |}.

Definition part_006_doc1 : SourceFile :=
  {| sf_path := "unnamed/part_006"; sf_part := 1;
     sf_kind := Declarations;
     sf_items :=
     [IStmt (SModule "atom" [SExportStar "@pulsar-edit/types"]);
      IStmt (SModule "atom/autocomplete-plus" [SExportStar "@pulsar-edit/types/autocomplete-plus"]);
      IStmt (SModule "atom/linter" [SExportStar "@pulsar-edit/types/linter"]);
      IStmt (SModule "atom/status-bar" [SExportStar "@pulsar-edit/types/status-bar"]);
      IStmt (SModule "atom/tool-bar" [SExportStar "@pulsar-edit/types/tool-bar"])] |}.

Definition part_006_doc2 : SourceFile :=
  {| sf_path := "unnamed/part_006"; sf_part := 2;
     sf_kind := Declarations;
     sf_items :=
     [IStmt (SModule "atom" [SExportStar "@pulsar-edit/types"]);
      IStmt (SModule "atom/autocomplete-plus" [SExportStar "./autocomplete-plus"]);
      IStmt (SModule "atom/linter" [SExportStar "./linter"]);
      IStmt (SModule "atom/status-bar" [SExportStar "./status-bar"]);
      IStmt (SModule "atom/tool-bar" [SExportStar "./tool-bar"])] |}.

Definition part_007 : SourceFile :=
  {| sf_path := "unnamed/part_007"; sf_part := 1;
     sf_kind := Declarations;
     sf_items :=
     [ILine "NOTE: Only those classes exported within this file should retain that status";
      ILine "below.";
      ILine "https://github.com/pulsar-edit/pulsar/blob/v1.128.0/exports/atom.js";
      IRef "types" "node";
      IRef "path" "./atom.d.ts";
      IStmt (SImport false [IName "AtomEnvironment" None] "./src/atom-environment");
      IStmt (SImport false [IName "TextEditorElement" None] "./src/text-editor-element");
      ILine "Imports ======================================================";
      IStmt
        (SGlobal
           [SVar false "const" "atom" (Some (TName "AtomEnvironment")) None;
            SInterface false "HTMLElementTagNameMap" [] []
              [prop "atom-text-editor" (TName "TextEditorElement")]]);
      IStmt (SExportStar "./dependencies/event-kit");
      IStmt (SExportStar "./dependencies/first-mate");
      IStmt (SExportStar "./dependencies/pathwatcher");
      IStmt (SExportStar "./dependencies/text-buffer");
      IStmt (SExportStar "./src/atom-environment");
      IStmt (SExportStar "./src/buffered-node-process");
      IStmt (SExportStar "./src/buffered-process");
      IStmt (SExportStar "./src/clipboard");
      IStmt (SExportStar "./src/color");
      IStmt (SExportStar "./src/command-registry");
      IStmt (SExportStar "./src/config");
      IStmt (SExportStar "./src/config-schema");
      IStmt (SExportStar "./src/context-menu-manager");
      IStmt (SExportStar "./src/cursor");
      IStmt (SExportStar "./src/decoration");
      IStmt (SExportStar "./src/deserializer-manager");
      IStmt (SExportStar "./src/dock");
      IStmt (SExportStar "./src/get-window-load-settings");
      IStmt (SExportStar "./src/git-repository");
      IStmt (SExportStar "./src/grammar-registry");
      IStmt (SExportStar "./src/gutter");
      IStmt (SExportStar "./src/history-manager");
      IStmt (SExportStar "./src/keymap-extensions");
      IStmt (SExportStar "./src/layer-decoration");
      IStmt (SExportStar "./src/menu-manager");
      IStmt (SExportStar "./src/notification");
      IStmt (SExportStar "./src/notification-manager");
      IStmt (SExportStar "./src/other-types");
      IStmt (SExportStar "./src/package");
      IStmt (SExportStar "./src/package-manager");
      IStmt (SExportStar "./src/pane");
      IStmt (SExportStar "./src/panel");
      IStmt (SExportStar "./src/path-watcher");
      IStmt (SExportStar "./src/project");
      IStmt (SExportStar "./src/scope-descriptor");
      IStmt (SExportStar "./src/selection");
      IStmt (SExportStar "./src/style-manager");
      IStmt (SExportStar "./src/task");
      IStmt (SExportStar "./src/text-editor");
      IStmt (SExportStar "./src/text-editor-component");
      IStmt (SExportStar "./src/text-editor-element");
      IStmt (SExportStar "./src/text-editor-registry");
      IStmt (SExportStar "./src/theme-manager");
      IStmt (SExportStar "./src/tooltip");
      IStmt (SExportStar "./src/tooltip-manager");
      IStmt (SExportStar "./src/view-registry");
      IStmt (SExportStar "./src/ui");
      IStmt
        (SExportFrom false [IName "WASMTreeSitterGrammar" None] "./src/wasm-tree-sitter-grammar");
      IStmt
        (SExportFrom false [IName "WASMTreeSitterLanguageMode" None]
           "./src/wasm-tree-sitter-language-mode");
      IStmt (SExportStar "./src/workspace");
      IStmt (SExportStar "./src/workspace-center")] |}.

Definition part_008 : SourceFile :=
  {| sf_path := "unnamed/part_008"; sf_part := 1;
     sf_kind := Declarations;
     sf_items :=
     [IStmt (SImport false [IName "Disposable" None] "../../../index");
      IStmt
        (SImport false
           [IName "DisplayMarker" None;
            IName "Marker" None;
            IName "PointCompatible" None;
            IName "RangeCompatible" None] "./text-buffer");
      IDoc;
      IStmt
        (SInterface true "DisplayMarkerLayer" [] []
           [ro_prop "id" (TKw "string");
            method "destroy" [] (TKw "void");
            method "clear" [] (TKw "void");
            method "isDestroyed" [] (TKw "boolean");
            method "onDidDestroy" [req "callback" (fn [] (TKw "void"))] (TName "Disposable");
            method "onDidUpdate" [req "callback" (fn [] (TKw "void"))] (TName "Disposable");
            method "onDidCreateMarker"
              [req "callback"
                 (fn [req "marker" (TUnion [TName "DisplayMarker"; TName "Marker"])] (TKw "void"))]
              (TName "Disposable");
            method "markScreenRange"
              [req "range" (TName "RangeCompatible");
               opt "options"
                 (TObj
                    [prop_opt "reversed" (TUnion [TKw "boolean"; TKw "undefined"]);
                     prop_opt "invalidate"
                       (TUnion
                          [TLit "never";
                           TLit "surround";
                           TLit "overlap";
                           TLit "inside";
                           TLit "touch";
                           TKw "undefined"]);
                     prop_opt "exclusive" (TUnion [TKw "boolean"; TKw "undefined"]);
                     prop_opt "clipDirection"
                       (TUnion [TLit "backward"; TLit "forward"; TLit "closest"; TKw "undefined"])])]
              (TName "DisplayMarker");
            method "markScreenPosition"
              [req "screenPosition" (TName "PointCompatible");
               opt "options"
                 (TObj
                    [prop_opt "invalidate"
                       (TUnion
                          [TLit "never";
                           TLit "surround";
                           TLit "overlap";
                           TLit "inside";
                           TLit "touch";
                           TKw "undefined"]);
                     prop_opt "exclusive" (TUnion [TKw "boolean"; TKw "undefined"]);
                     prop_opt "clipDirection"
                       (TUnion [TLit "backward"; TLit "forward"; TLit "closest"; TKw "undefined"])])]
              (TName "DisplayMarker");
            method "markBufferRange"
              [req "range" (TName "RangeCompatible");
               opt "options"
                 (TObj
                    [prop_opt "reversed" (TUnion [TKw "boolean"; TKw "undefined"]);
                     prop_opt "invalidate"
                       (TUnion
                          [TLit "never";
                           TLit "surround";
                           TLit "overlap";
                           TLit "inside";
                           TLit "touch";
                           TKw "undefined"]);
                     prop_opt "exclusive" (TUnion [TKw "boolean"; TKw "undefined"])])]
              (TName "DisplayMarker");
            method "markBufferPosition"
              [req "bufferPosition" (TName "PointCompatible");
               opt "options"
                 (TObj
                    [prop_opt "invalidate"
                       (TUnion
                          [TLit "never";
                           TLit "surround";
                           TLit "overlap";
                           TLit "inside";
                           TLit "touch";
                           TKw "undefined"]);
                     prop_opt "exclusive" (TUnion [TKw "boolean"; TKw "undefined"])])]
              (TName "DisplayMarker");
            method "getMarker" [req "id" (TKw "number")] (TName "DisplayMarker");
            method "getMarkers" [] (TArray (TName "DisplayMarker"));
            method "getMarkerCount" [] (TKw "number");
            method "findMarkers" [req "properties" (TName "FindDisplayMarkerOptions")]
              (TArray (TName "DisplayMarker"))]);
      IStmt
        (SInterface true "FindDisplayMarkerOptions" [] []
           [prop_opt "startBufferPosition" (TUnion [TName "PointCompatible"; TKw "undefined"]);
            prop_opt "endBufferPosition" (TUnion [TName "PointCompatible"; TKw "undefined"]);
            prop_opt "startScreenPosition" (TUnion [TName "PointCompatible"; TKw "undefined"]);
            prop_opt "endScreenPosition" (TUnion [TName "PointCompatible"; TKw "undefined"]);
            prop_opt "startsInBufferRange" (TUnion [TName "RangeCompatible"; TKw "undefined"]);
            prop_opt "endsInBufferRange" (TUnion [TName "RangeCompatible"; TKw "undefined"]);
            prop_opt "startsInScreenRange" (TUnion [TName "RangeCompatible"; TKw "undefined"]);
            prop_opt "endsInScreenRange" (TUnion [TName "RangeCompatible"; TKw "undefined"]);
            prop_opt "startBufferRow" (TUnion [TKw "number"; TKw "undefined"]);
            prop_opt "endBufferRow" (TUnion [TKw "number"; TKw "undefined"]);
            prop_opt "startScreenRow" (TUnion [TKw "number"; TKw "undefined"]);
            prop_opt "endScreenRow" (TUnion [TKw "number"; TKw "undefined"]);
            prop_opt "intersectsBufferRowRange"
              (TUnion [TTuple [TKw "number"; TKw "number"]; TKw "undefined"]);
            prop_opt "intersectsScreenRowRange"
              (TUnion [TTuple [TKw "number"; TKw "number"]; TKw "undefined"]);
            prop_opt "containsBufferRange" (TUnion [TName "RangeCompatible"; TKw "undefined"]);
            prop_opt "containsBufferPosition" (TUnion [TName "PointCompatible"; TKw "undefined"]);
            prop_opt "containedInBufferRange" (TUnion [TName "RangeCompatible"; TKw "undefined"]);
            prop_opt "containedInScreenRange" (TUnion [TName "RangeCompatible"; TKw "undefined"]);
            prop_opt "intersectsBufferRange" (TUnion [TName "RangeCompatible"; TKw "undefined"]);
            prop_opt "intersectsScreenRange" (TUnion [TName "RangeCompatible"; TKw "undefined"])])] |}.

Definition part_009 : SourceFile :=
  {| sf_path := "unnamed/part_009"; sf_part := 1;
     sf_kind := Declarations;
     sf_items :=
     [IStmt (SImport false [IName "Disposable" None] "../../../index");
      IDoc;
      IStmt
        (SInterface true "Grammar" [] []
           [ro_prop "name" (TKw "string");
            ro_prop "scopeName" (TKw "string");
            method "onDidUpdate" [req "callback" (fn [] (TKw "void"))] (TName "Disposable");
            method "tokenizeLines" [req "text" (TKw "string")]
              (TArray (TArray (TName "GrammarToken")));
            method "tokenizeLine"
              [req "line" (TKw "string");
               opt "ruleStack" (TKw "null");
               opt "firstLine" (TKw "boolean")] (TName "TokenizeLineResult");
            method "tokenizeLine"
              [req "line" (TKw "string");
               req "ruleStack" (TArray (TName "GrammarRule"));
               opt "firstLine" (TKw "false")] (TName "TokenizeLineResult")]);
      IStmt
        (SInterface true "GrammarToken" [] []
           [prop "value" (TKw "string"); prop "scopes" (TArray (TKw "string"))]);
      IStmt
        (SInterface true "GrammarRule" [] []
           [prop "rule" (TKw "object");
            prop "scopeName" (TKw "string");
            prop "contentScopeName" (TKw "string")]);
      IDoc;
      IStmt
        (SInterface true "TokenizeLineResult" [] []
           [prop "line" (TKw "string");
            prop "tags" (TRef "Array" [TUnion [TKw "number"; TKw "string"]]);
            prop "tokens" (TArray (TName "GrammarToken"));
            prop "ruleStack" (TArray (TName "GrammarRule"))])] |}.

Definition part_010 : SourceFile :=
  {| sf_path := "unnamed/part_010"; sf_part := 1;
     sf_kind := Declarations;
     sf_items :=
     [ILine "Autocomplete Plus 2.x";
      ILine "https://web.pulsar-edit.dev/packages/autocomplete-plus";
      IRef "path" "./config.d.ts";
      IStmt
        (SImport false [IName "Point" None; IName "ScopeDescriptor" None; IName "TextEditor" None]
           "../index");
      IDoc;
      IStmt
        (SInterface true "SuggestionsRequestedEvent" [] []
           [prop "editor" (TName "TextEditor");
            prop "bufferPosition" (TName "Point");
            prop "scopeDescriptor" (TName "ScopeDescriptor");
            prop "prefix" (TKw "string");
            prop "activatedManually" (TKw "boolean")]);
      IDoc;
      IStmt
        (SInterface true "SuggestionInsertedEvent" [] []
           [prop "editor" (TName "TextEditor");
            prop "triggerPosition" (TName "Point");
            prop "suggestion" (TUnion [TName "TextSuggestion"; TName "SnippetSuggestion"])]);
      IDoc;
      IStmt
        (SInterface true "SuggestionBase" [] []
           [prop_opt "displayText" (TKw "string");
            prop_opt "replacementPrefix" (TKw "string");
            prop_opt "type" (TKw "string");
            prop_opt "leftLabel" (TKw "string");
            prop_opt "leftLabelHTML" (TKw "string");
            prop_opt "rightLabel" (TKw "string");
            prop_opt "rightLabelHTML" (TKw "string");
            prop_opt "className" (TKw "string");
            prop_opt "iconHTML" (TKw "string");
            prop_opt "description" (TKw "string");
            prop_opt "descriptionMoreURL" (TKw "string");
            prop_opt "descriptionMarkdown" (TKw "string")]);
      IStmt
        (SInterface true "TextSuggestion" [] [TName "SuggestionBase"] [prop "text" (TKw "string")]);
      IStmt
        (SInterface true "SnippetSuggestion" [] [TName "SuggestionBase"]
           [prop "snippet" (TKw "string")]);
      IStmt
        (STypeAlias true "AnySuggestion" []
           (TUnion [TName "TextSuggestion"; TName "SnippetSuggestion"]));
      IStmt (STypeAlias true "Suggestion" [] (TName "AnySuggestion"));
      IStmt (STypeAlias true "Suggestions" [] (TArray (TName "AnySuggestion")));
      IDoc;
      IStmt
        (SInterface true "AutocompleteProvider" [] []
           [prop "selector" (TKw "string");
            prop_opt "disableForSelector" (TKw "string");
            prop_opt "inclusionPriority" (TKw "number");
            prop_opt "excludeLowerPriority" (TKw "boolean");
            prop_opt "suggestionPriority" (TKw "number");
            prop_opt "filterSuggestions" (TKw "boolean");
            method "getSuggestions" [req "params" (TName "SuggestionsRequestedEvent")]
              (TUnion [TName "Suggestions"; TRef "Promise" [TName "Suggestions"]]);
            method_opt "getSuggestionDetailsOnSelect" [req "suggestion" (TName "AnySuggestion")]
              (TUnion
                 [TRef "Promise" [TUnion [TName "AnySuggestion"; TKw "null"]];
                  TName "AnySuggestion";
                  TKw "null"]);
            method_opt "onDidInsertSuggestion" [req "params" (TName "SuggestionInsertedEvent")]
              (TKw "void");
            method_opt "dispose" [] (TKw "void")])] |}.

Definition corpus : list SourceFile :=
  [README_md_doc1;
   README_md_doc2;
   event_kit_index_d_ts_doc1;
   event_kit_index_d_ts_doc2;
   service_hub_consumer_d_ts;
   service_hub_provider_d_ts;
   service_hub_service_hub_d_ts;
   command_registry_d_ts_doc1;
   command_registry_d_ts_doc2;
   get_window_load_settings_d_ts;
   grammar_registry_d_ts;
   language_mode_d_ts_doc1;
   language_mode_d_ts_doc2;
   layer_decoration_d_ts;
   notification_d_ts;
   package_d_ts;
   project_d_ts;
   style_manager_d_ts;
   ui_d_ts;
   part_000;
   part_001;
   part_002;
   part_003;
   part_004_doc1;
   part_004_doc2;
   part_005;
   part_006_doc1;
   part_006_doc2;
   part_007;
   part_008;
   part_009;
   part_010].

(** ** Reading the trees *)

Definition mem (x : string) (l : list string) : bool := existsb (String.eqb x) l.

Definition opt_list {A : Type} (o : option A) : list A :=
  match o with Some a => [a] | None => [] end.

Definition is_none {A : Type} (o : option A) : bool :=
  match o with Some _ => false | None => true end.

(** *** Statements of a file *)

Definition file_stmts (f : SourceFile) : list Stmt :=
  flat_map (fun it => match it with IStmt s => [s] | _ => [] end) (sf_items f).

(** A statement together with the statements nested in its module blocks. *)
Fixpoint stmt_flatten (s : Stmt) : list Stmt :=
  s :: match s with
       | SModule _ b | SGlobal b => flat_map stmt_flatten b
       | _ => []
       end.

Definition all_stmts (f : SourceFile) : list Stmt :=
  flat_map stmt_flatten (file_stmts f).

(** *** Code

    Everything in a file that would be evaluated at run time: a statement, a
    body, an initialiser, a module loaded for its effect. *)
Inductive Code : Type :=
| CodeStmt (b : BodyStmt)
| CodeBody (owner : string) (b : Body)
| CodeInit (owner : string) (e : Expr)
| CodeLoad (from : string).

Definition cmember_code (m : ClassMember) : list Code :=
  match m with
  | CProp _ _ _ n _ init => map (CodeInit n) (opt_list init)
  | CMethod _ _ n _ _ _ body => map (CodeBody n) (opt_list body)
  | CCtor _ body => map (CodeBody "constructor") (opt_list body)
  end.

Definition own_code (s : Stmt) : list Code :=
  match s with
  | SClass _ _ _ _ _ ms => flat_map cmember_code ms
  | SVar _ _ n _ init => map (CodeInit n) (opt_list init)
  | SFunction _ n _ _ _ body => map (CodeBody n) (opt_list body)
  | SExec b => [CodeStmt b]
  | SImportBare from => [CodeLoad from]
  | _ => []
  end.

Definition file_code (f : SourceFile) : list Code := flat_map own_code (all_stmts f).

(** The bodies among the code: implementations of functions, methods and
    constructors. *)
Definition code_body (c : Code) : list (string * Body) :=
  match c with CodeBody n b => [(n, b)] | _ => [] end.

Definition file_bodies (f : SourceFile) : list (string * Body) :=
  flat_map code_body (file_code f).

(** Statements executed when the file is loaded. *)
Definition code_toplevel (c : Code) : list Code :=
  match c with CodeStmt _ | CodeInit _ _ | CodeLoad _ => [c] | CodeBody _ _ => [] end.

Definition file_toplevel_code (f : SourceFile) : list Code :=
  flat_map code_toplevel (file_code f).

(** *** Expressions: the value positions of a file *)

Fixpoint expr_subterms (e : Expr) : list Expr :=
  e :: match e with
       | EIdent _ | EStr _ => []
       | EMember e' _ => expr_subterms e'
       | ECall g args | ENew g args => expr_subterms g ++ flat_map expr_subterms args
       end.

Definition bodystmt_exprs (b : BodyStmt) : list Expr :=
  match b with
  | BExpr e | BThrow e => [e]
  | BReturn e => opt_list e
  end.

Definition code_stmts (c : Code) : list BodyStmt :=
  match c with
  | CodeStmt b => [b]
  | CodeBody _ b => b
  | CodeInit _ _ | CodeLoad _ => []
  end.

Definition code_exprs (c : Code) : list Expr :=
  match c with
  | CodeInit _ e => [e]
  | _ => flat_map bodystmt_exprs (code_stmts c)
  end.

(** The expression that names the superclass of a class is a value position
    even when the class has no body. *)
Definition heritage (s : Stmt) : list Expr :=
  match s with SClass _ _ _ ext _ _ => opt_list ext | _ => [] end.

Definition value_positions (f : SourceFile) : list Expr :=
  flat_map heritage (all_stmts f) ++ flat_map code_exprs (file_code f).

Definition expr_ident (e : Expr) : list string :=
  match e with EIdent x => [x] | _ => [] end.

(** Identifiers used as values. *)
Definition value_idents (f : SourceFile) : list string :=
  flat_map expr_ident (flat_map expr_subterms (value_positions f)).

(** *** Errors raised *)

Definition file_throws (f : SourceFile) : list Expr :=
  flat_map (fun b => match b with BThrow e => [e] | _ => [] end)
           (flat_map code_stmts (file_code f)).

(** Constructor calls [new C(...)]; an error is produced by one of these. *)
Definition file_constructions (f : SourceFile) : list Expr :=
  flat_map (fun e => match e with ENew _ _ => [e] | _ => [] end)
           (flat_map expr_subterms (value_positions f)).

(** *** Ambient statements

    A statement is ambient when it declares without implementing: no body,
    no initialiser, nothing to execute. *)
Definition cmember_ambient (m : ClassMember) : bool :=
  match m with
  | CProp _ _ _ _ _ init => is_none init
  | CMethod _ _ _ _ _ _ body => is_none body
  | CCtor _ body => is_none body
  end.

Definition stmt_ambient (s : Stmt) : bool :=
  match s with
  | SImport _ _ _ | SExportStar _ | SExportFrom _ _ _
  | SInterface _ _ _ _ _ | STypeAlias _ _ _ _
  | SModule _ _ | SGlobal _ | SEmpty => true
  | SClass _ _ _ _ _ ms => forallb cmember_ambient ms
  | SVar _ _ _ _ init => is_none init
  | SFunction _ _ _ _ _ body => is_none body
  | SImportBare _ | SExec _ => false
  end.

Definition file_ambient (f : SourceFile) : bool := forallb stmt_ambient (all_stmts f).

(** *** Kinds of construct *)

Inductive Construct : Type :=
| KInterface | KTypeAlias
| KAmbientClass | KAmbientModule | KAmbientGlobal | KAmbientVariable | KAmbientFunction
| KImport | KExport
| KDocComment | KComment | KReference | KProse
| KEmptyStatement
| KImplementation
| KStatement.

Definition construct_eqb (a b : Construct) : bool :=
  match a, b with
  | KInterface, KInterface | KTypeAlias, KTypeAlias | KAmbientClass, KAmbientClass
  | KAmbientModule, KAmbientModule | KAmbientGlobal, KAmbientGlobal
  | KAmbientVariable, KAmbientVariable | KAmbientFunction, KAmbientFunction
  | KImport, KImport | KExport, KExport | KDocComment, KDocComment | KComment, KComment
  | KReference, KReference | KProse, KProse | KEmptyStatement, KEmptyStatement
  | KImplementation, KImplementation | KStatement, KStatement => true
  | _, _ => false
  end.

Definition classify (s : Stmt) : Construct :=
  match s with
  | SImport _ _ _ => KImport
  | SImportBare _ => KStatement
  | SExportStar _ | SExportFrom _ _ _ => KExport
  | SInterface _ _ _ _ _ => KInterface
  | STypeAlias _ _ _ _ => KTypeAlias
  | SClass _ _ _ _ _ ms => if forallb cmember_ambient ms then KAmbientClass else KImplementation
  | SVar _ _ _ _ init => if is_none init then KAmbientVariable else KImplementation
  | SFunction _ _ _ _ _ body => if is_none body then KAmbientFunction else KImplementation
  | SModule _ _ => KAmbientModule
  | SGlobal _ => KAmbientGlobal
  | SEmpty => KEmptyStatement
  | SExec _ => KStatement
  end.

Definition item_constructs (it : Item) : list Construct :=
  match it with
  | IDoc => [KDocComment]
  | ILine _ => [KComment]
  | IRef _ _ => [KReference]
  | IStmt s => map classify (stmt_flatten s)
  | IProse => [KProse]
  end.

(** Every construct of a file: its comments and directives, its statements and
    the statements inside its module blocks. *)
Definition file_constructs (f : SourceFile) : list Construct :=
  flat_map item_constructs (sf_items f).

(** *** Named declarations *)

Definition stmt_name (s : Stmt) : option string :=
  match s with
  | SInterface _ n _ _ _ | STypeAlias _ n _ _ | SClass _ n _ _ _ _
  | SVar _ _ n _ _ | SFunction _ n _ _ _ _ | SModule n _ => Some n
  | SGlobal _ => Some "global"
  | _ => None
  end.

Record Decl : Type := { d_path : string; d_name : string; d_kind : Construct }.

Definition stmt_decl (path : string) (s : Stmt) : list Decl :=
  match stmt_name s with
  | Some n => [{| d_path := path; d_name := n; d_kind := classify s |}]
  | None => []
  end.

Definition file_decls (f : SourceFile) : list Decl :=
  flat_map (stmt_decl (sf_path f)) (all_stmts f).

Definition decls_named (n : string) (fs : list SourceFile) : list Decl :=
  filter (fun d => String.eqb (d_name d) n) (flat_map file_decls fs).

Definition is_type_shape (k : Construct) : bool :=
  match k with KInterface | KTypeAlias => true | _ => false end.

(** *** References between files *)

Definition local_name (n : ImportName) : string :=
  match n with IName x None => x | IName _ (Some a) => a end.

Inductive CrossRef : Type :=
| RImport (type_only : bool) (locals : list string) (from : string)
| RLoad (from : string)
| RReexport (from : string)
| RDirective (attr path : string).

Definition stmt_refs (s : Stmt) : list CrossRef :=
  match s with
  | SImport t ns from => [RImport t (map local_name ns) from]
  | SImportBare from => [RLoad from]
  | SExportStar from | SExportFrom _ _ from => [RReexport from]
  | _ => []
  end.

Definition item_refs (it : Item) : list CrossRef :=
  match it with
  | IRef a p => [RDirective a p]
  | IStmt s => flat_map stmt_refs (stmt_flatten s)
  | _ => []
  end.

Definition cross_refs (f : SourceFile) : list CrossRef := flat_map item_refs (sf_items f).

Definition ref_target (r : CrossRef) : string :=
  match r with
  | RImport _ _ from | RLoad from | RReexport from => from
  | RDirective _ p => p
  end.

Definition imported_locals (f : SourceFile) : list string :=
  flat_map (fun r => match r with RImport _ ls _ => ls | _ => [] end) (cross_refs f).

(** Imported bindings that flow into a value position. *)
Definition inbound_values (f : SourceFile) : list string :=
  filter (fun x => mem x (value_idents f)) (imported_locals f).

(** *** What a file offers to others

    Declarations marked [export], declarations placed in the global scope by
    [declare global], and re-exports.  [ex_value] says whether the export
    carries a value of its own: an initialiser or an implementation. *)
Record Export : Type := { ex_name : string; ex_kind : Construct; ex_value : bool }.

Definition is_exported (s : Stmt) : bool :=
  match s with
  | SInterface e _ _ _ _ | STypeAlias e _ _ _ | SClass e _ _ _ _ _
  | SVar e _ _ _ _ | SFunction e _ _ _ _ _ => e
  | _ => false
  end.

Definition export_of (s : Stmt) : list Export :=
  match stmt_name s with
  | Some n => [{| ex_name := n; ex_kind := classify s; ex_value := negb (stmt_ambient s) |}]
  | None => []
  end.

Definition stmt_exports (s : Stmt) : list Export :=
  match s with
  | SExportStar from => [{| ex_name := from; ex_kind := KExport; ex_value := false |}]
  | SExportFrom _ ns from =>
      map (fun n => {| ex_name := local_name n; ex_kind := KExport; ex_value := false |}) ns
  | SGlobal b => flat_map export_of b
  | _ => if is_exported s then export_of s else []
  end.

Definition file_exports (f : SourceFile) : list Export := flat_map stmt_exports (all_stmts f).

Definition outbound_values (f : SourceFile) : list Export :=
  filter ex_value (file_exports f).

(** Run-time entry points: code run on load, and functions with a body. *)
Definition entry_points (f : SourceFile) : list Code :=
  file_toplevel_code f
  ++ flat_map (fun s => match s with
                        | SFunction _ n _ _ _ (Some b) => [CodeBody n b]
                        | _ => []
                        end) (all_stmts f).

(** *** Signatures, at any depth

    Object type literals nest: a method may be declared inside the type of a
    property, of a parameter or of a result.  [type_members] lists every
    signature found in a type, however deep. *)
Fixpoint type_members (t : TsType) : list Member :=
  match t with
  | TKw _ | TLit _ => []
  | TRef _ ts | TUnion ts | TInter ts | TTuple ts => flat_map type_members ts
  | TArray t' | TKeyof t' | TReadonly t' => type_members t'
  | TFun tps ps ret =>
      flat_map tparam_members tps ++ flat_map param_members ps ++ type_members ret
  | TObj ms => flat_map member_members ms
  | TIndexed o i => type_members o ++ type_members i
  end
with tparam_members (p : TParam) : list Member :=
  match p with
  | TP _ c d =>
      match c with Some t => type_members t | None => [] end
      ++ match d with Some t => type_members t | None => [] end
  end
with param_members (p : Param) : list Member :=
  match p with
  | Prm _ _ _ ty => match ty with Some t => type_members t | None => [] end
  end
with member_members (m : Member) : list Member :=
  m :: match m with
       | MProp _ _ _ t => type_members t
       | MMethod _ _ tps ps ret =>
           flat_map tparam_members tps ++ flat_map param_members ps
           ++ match ret with Some t => type_members t | None => [] end
       | MNew ps ret =>
           flat_map param_members ps
           ++ match ret with Some t => type_members t | None => [] end
       | MIndex _ k v => type_members k ++ type_members v
       end.

Definition opt_type_members (o : option TsType) : list Member :=
  match o with Some t => type_members t | None => [] end.

(** Signatures nested in the types a class member mentions. *)
Definition cmember_nested (m : ClassMember) : list Member :=
  match m with
  | CProp _ _ _ _ ty _ => opt_type_members ty
  | CMethod _ _ _ tps ps ret _ =>
      flat_map tparam_members tps ++ flat_map param_members ps ++ opt_type_members ret
  | CCtor ps _ => flat_map param_members ps
  end.

(** Every signature a statement contains, in source order. *)
Definition stmt_members (s : Stmt) : list Member :=
  match s with
  | SInterface _ _ tps ext ms =>
      flat_map tparam_members tps ++ flat_map type_members ext ++ flat_map member_members ms
  | STypeAlias _ _ tps t => flat_map tparam_members tps ++ type_members t
  | SClass _ _ tps _ impl ms =>
      flat_map tparam_members tps ++ flat_map type_members impl ++ flat_map cmember_nested ms
  | SVar _ _ _ ty _ => opt_type_members ty
  | SFunction _ _ tps ps ret _ =>
      flat_map tparam_members tps ++ flat_map param_members ps ++ opt_type_members ret
  | _ => []
  end.

(** *** Methods

    A method as the corpus declares it: the declaration it belongs to, its
    name, modifiers, parameters and declared result.  Methods of classes and
    method signatures of interfaces and object types are read alike. *)
Record Method : Type :=
  { m_owner : string; m_name : string; m_static : bool; m_optional : bool;
    m_params : list Param; m_ret : option TsType }.

Definition member_method (owner : string) (m : Member) : list Method :=
  match m with
  | MMethod o n _ ps r =>
      [{| m_owner := owner; m_name := n; m_static := false; m_optional := o;
          m_params := ps; m_ret := r |}]
  | _ => []
  end.

Definition cmember_method (owner : string) (m : ClassMember) : list Method :=
  match m with
  | CMethod st o n _ ps r _ =>
      [{| m_owner := owner; m_name := n; m_static := st; m_optional := o;
          m_params := ps; m_ret := r |}]
  | _ => []
  end.

Definition owner_name (s : Stmt) : string :=
  match stmt_name s with Some n => n | None => "" end.

Definition stmt_methods (s : Stmt) : list Method :=
  match s with
  | SClass _ n _ _ _ ms => flat_map (cmember_method n) ms
  | _ => []
  end
  ++ flat_map (member_method (owner_name s)) (stmt_members s).

Definition file_methods (f : SourceFile) : list Method :=
  flat_map stmt_methods (all_stmts f).

(** The declared result, when it is a plain name or keyword. *)
Definition type_name (t : TsType) : option string :=
  match t with
  | TRef n [] => Some n
  | TKw k => Some k
  | _ => None
  end.

Definition returns (n : string) (m : Method) : bool :=
  match m_ret m with
  | Some t => match type_name t with Some x => String.eqb x n | None => false end
  | None => false
  end.

Definition param_name (p : Param) : string := match p with Prm n _ _ _ => n end.

Definition has_param (n : string) (m : Method) : bool :=
  existsb (fun p => String.eqb (param_name p) n) (m_params m).

(** Event subscription, by the naming convention of the API. *)
Definition subscription_name (n : string) : bool :=
  String.prefix "onDid" n || String.prefix "onWill" n || String.prefix "observe" n.

Definition emitter_subscription (m : Method) : bool :=
  String.eqb (m_owner m) "Emitter" && mem (m_name m) ["on"; "once"; "preempt"].

Definition is_subscription (m : Method) : bool :=
  subscription_name (m_name m) || emitter_subscription m.

Definition methods_named (n : string) (fs : list SourceFile) : list Method :=
  filter (fun m => String.eqb (m_name m) n) (flat_map file_methods fs).

(** *** Classes and interfaces by name *)

Definition class_named (n : string) (s : Stmt) : bool :=
  match s with SClass _ x _ _ _ _ => String.eqb x n | _ => false end.

Definition interface_named (n : string) (s : Stmt) : bool :=
  match s with SInterface _ x _ _ _ => String.eqb x n | _ => false end.

Definition find_stmt (p : Stmt -> bool) (fs : list SourceFile) : option Stmt :=
  find p (flat_map all_stmts fs).

Definition class_implements (s : Stmt) : list TsType :=
  match s with SClass _ _ _ _ impl _ => impl | _ => [] end.

Definition interface_extends (s : Stmt) : list TsType :=
  match s with SInterface _ _ _ ext _ => ext | _ => [] end.

Definition interface_members (s : Stmt) : list Member :=
  match s with SInterface _ _ _ _ ms => ms | _ => [] end.

Definition class_ctors (s : Stmt) : list (list Param) :=
  match s with
  | SClass _ _ _ _ _ ms =>
      flat_map (fun m => match m with CCtor ps _ => [ps] | _ => [] end) ms
  | _ => []
  end.

(** *** Constructor overloads of [Notification] *)

(** The strings a parameter admits when its type is a string literal or a union
    of string literals, and nothing when it admits anything else. *)
Definition literal_of (t : TsType) : option string :=
  match t with TLit s => Some s | _ => None end.

Fixpoint all_some {A : Type} (l : list (option A)) : option (list A) :=
  match l with
  | [] => Some []
  | Some a :: l' => match all_some l' with Some r => Some (a :: r) | None => None end
  | None :: _ => None
  end.

Definition literal_alternatives (t : TsType) : option (list string) :=
  match t with
  | TLit s => Some [s]
  | TUnion ts => all_some (map literal_of ts)
  | _ => None
  end.

Definition find_param (n : string) (ps : list Param) : option Param :=
  find (fun p => String.eqb (param_name p) n) ps.

(** The type strings an overload accepts: the alternatives of its [type]
    parameter. *)
Definition overload_types (ps : list Param) : list string :=
  match find_param "type" ps with
  | Some (Prm _ false false (Some t)) =>
      match literal_alternatives t with Some l => l | None => [] end
  | _ => []
  end.

(** The declared type of an overload's [options] parameter. *)
Definition overload_options (ps : list Param) : option string :=
  match find_param "options" ps with
  | Some (Prm _ _ _ (Some t)) => type_name t
  | _ => None
  end.

Definition accepts (s : string) (ps : list Param) : bool := mem s (overload_types ps).

Definition notification_class : option Stmt :=
  find_stmt (class_named "Notification") corpus.

Definition notification_ctors : list (list Param) :=
  match notification_class with Some s => class_ctors s | None => [] end.

(** The options types offered to a caller who passes the type string [s]. *)
Definition options_for (s : string) : list (option string) :=
  map overload_options (filter (accepts s) notification_ctors).

(** *** Consumer code quoted by the README

    README.md shows package authors what their own code looks like once the
    types are installed.  The snippet is consumer code quoted in prose, not part
    of the declarations; it serves here as a file that is _not_ ambient. *)
Definition readme_consumer_snippet : SourceFile :=
  {| sf_path := "README.md#visibility"; sf_part := 1;
     sf_kind := Markdown;
     sf_items :=
     [IStmt (SImport false [IName "TextEditor" None] "atom");
      IStmt
        (SFunction false "activate" [] [] None
           (Some [BExpr (ECall (EMember (EIdent "atom") "beep") [])]))] |}.

(** *** Definitions used by the statements below *)

(** No class of the file names a superclass. *)
Definition no_heritage (f : SourceFile) : bool :=
  match flat_map heritage (all_stmts f) with [] => true | _ => false end.

(** The named declarations that are neither interface nor type alias. *)
Definition ambient_classes : list string :=
  ["Disposable"; "CompositeDisposable"; "Emitter"; "Task"; "WASMTreeSitterGrammar";
   "Notification"; "Matcher"; "WASMTreeSitterLanguageMode"].

(** The module names given to [declare module] blocks. *)
Definition ambient_modules : list string :=
  ["atom"; "atom/autocomplete-plus"; "atom/linter"; "atom/status-bar"; "atom/tool-bar"].

(** A named declaration is a type shape or one of the ambient declarations
    listed above. *)
Definition decl_shape (d : Decl) : bool :=
  match d_kind d with
  | KInterface | KTypeAlias => true
  | KAmbientClass => mem (d_name d) ambient_classes
  | KAmbientModule => mem (d_name d) ambient_modules
  | KAmbientGlobal => true
  | KAmbientVariable => String.eqb (d_name d) "atom"
  | _ => false
  end.

(** The kinds of construct the specification lists for a declaration file:
    interface, type alias, ambient class, ambient module or global declaration,
    import, export, documentation comment. *)
Definition listed_kinds : list Construct :=
  [KInterface; KTypeAlias; KAmbientClass; KAmbientModule; KAmbientGlobal;
   KImport; KExport; KDocComment].

(** What the files hold besides: the ambient constant [atom] that the global
    block of the index declares, [//] comments, [/// <reference ... />]
    directives, and the prose of a Markdown document. *)
Definition documented_kind (f : SourceFile) (c : Construct) : bool :=
  match c with
  | KAmbientVariable => String.eqb (sf_path f) "unnamed/part_007"
  | KComment | KReference => true
  | KProse => match sf_kind f with Markdown => true | Declarations => false end
  | _ => false
  end.

(** A construct is accounted for when it is of a listed kind or of one of the
    kinds above.  The empty statement is set apart: it is neither. *)
Definition construct_accounted (f : SourceFile) (c : Construct) : bool :=
  construct_eqb c KEmptyStatement
  || existsb (construct_eqb c) listed_kinds
  || documented_kind f c.

(** Every method declared in the corpus, at any depth. *)
Definition corpus_methods : list Method := flat_map file_methods corpus.

(** Methods that follow the naming of a subscription but are hooks the package
    author implements: they receive the event itself, not a callback. *)
Definition hook_methods : list (string * string) :=
  [("NotificationOptions", "onDidClick"); ("AutocompleteProvider", "onDidInsertSuggestion")].

Definition is_hook (m : Method) : bool :=
  existsb (fun p => String.eqb (fst p) (m_owner m) && String.eqb (snd p) (m_name m))
          hook_methods.

(** What the corpus declares for a method with a subscription's name. *)
Definition subscription_shape (m : Method) : bool :=
  if has_param "callback" m || emitter_subscription m
  then returns "Disposable" m
  else m_optional m && returns "void" m && is_hook m.

(** [onDidInsertSuggestion?(params: SuggestionInsertedEvent): void] of
    [AutocompleteProvider]. *)
Definition onDidInsertSuggestion_hook : Method :=
  {| m_owner := "AutocompleteProvider"; m_name := "onDidInsertSuggestion";
     m_static := false; m_optional := true;
     m_params := [req "params" (TName "SuggestionInsertedEvent")];
     m_ret := Some (TKw "void") |}.

(** [onDidDeactivate(callback: () => void): Disposable] of [Package]. *)
Definition package_onDidDeactivate : Method :=
  {| m_owner := "Package"; m_name := "onDidDeactivate";
     m_static := false; m_optional := false;
     m_params := [req "callback" (fn [] (TKw "void"))];
     m_ret := Some (TName "Disposable") |}.

(** The type strings of the two constructor overloads of [Notification]. *)
Definition plain_types : list string := ["warning"; "info"; "success"].

Definition error_types : list string := ["fatal"; "error"].

(** ** More of the declared surface

    The definitions below read further properties off the same trees: how names
    resolve, what a class declares of an interface, how overloads pair up. *)

(** *** Type names and their scope *)

Definition tparam_name (p : TParam) : string := match p with TP n _ _ => n end.

(** The type names a type refers to, leaving out those bound by a type
    parameter in scope.  A function type and a method signature bring their own
    type parameters into scope for their parameters and result. *)
Fixpoint type_refs (bound : list string) (t : TsType) : list string :=
  match t with
  | TKw _ | TLit _ => []
  | TRef n args => (if mem n bound then [] else [n]) ++ flat_map (type_refs bound) args
  | TUnion ts | TInter ts | TTuple ts => flat_map (type_refs bound) ts
  | TArray t' | TKeyof t' | TReadonly t' => type_refs bound t'
  | TFun tps ps ret =>
      let b := (map tparam_name tps ++ bound)%list in
      flat_map (tparam_refs b) tps ++ flat_map (param_refs b) ps ++ type_refs b ret
  | TObj ms => flat_map (member_refs bound) ms
  | TIndexed o i => type_refs bound o ++ type_refs bound i
  end
with tparam_refs (bound : list string) (p : TParam) : list string :=
  match p with
  | TP _ c d =>
      match c with Some t => type_refs bound t | None => [] end
      ++ match d with Some t => type_refs bound t | None => [] end
  end
with param_refs (bound : list string) (p : Param) : list string :=
  match p with
  | Prm _ _ _ ty => match ty with Some t => type_refs bound t | None => [] end
  end
with member_refs (bound : list string) (m : Member) : list string :=
  match m with
  | MProp _ _ _ t => type_refs bound t
  | MMethod _ _ tps ps ret =>
      let b := (map tparam_name tps ++ bound)%list in
      flat_map (tparam_refs b) tps ++ flat_map (param_refs b) ps
      ++ match ret with Some t => type_refs b t | None => [] end
  | MNew ps ret =>
      flat_map (param_refs bound) ps
      ++ match ret with Some t => type_refs bound t | None => [] end
  | MIndex _ k v => type_refs bound k ++ type_refs bound v
  end.

Definition opt_type_refs (bound : list string) (o : option TsType) : list string :=
  match o with Some t => type_refs bound t | None => [] end.

Definition cmember_refs (bound : list string) (m : ClassMember) : list string :=
  match m with
  | CProp _ _ _ _ ty _ => opt_type_refs bound ty
  | CMethod _ _ _ tps ps ret _ =>
      let b := (map tparam_name tps ++ bound)%list in
      flat_map (tparam_refs b) tps ++ flat_map (param_refs b) ps ++ opt_type_refs b ret
  | CCtor ps _ => flat_map (param_refs bound) ps
  end.

(** The type names a statement refers to from outside itself. *)
Definition stmt_type_refs (s : Stmt) : list string :=
  match s with
  | SInterface _ _ tps ext ms =>
      let b := map tparam_name tps in
      flat_map (tparam_refs b) tps ++ flat_map (type_refs b) ext ++ flat_map (member_refs b) ms
  | STypeAlias _ _ tps t =>
      let b := map tparam_name tps in
      flat_map (tparam_refs b) tps ++ type_refs b t
  | SClass _ _ tps _ impl ms =>
      let b := map tparam_name tps in
      flat_map (tparam_refs b) tps ++ flat_map (type_refs b) impl ++ flat_map (cmember_refs b) ms
  | SVar _ _ _ ty _ => opt_type_refs [] ty
  | SFunction _ _ tps ps ret _ =>
      let b := map tparam_name tps in
      flat_map (tparam_refs b) tps ++ flat_map (param_refs b) ps ++ opt_type_refs b ret
  | _ => []
  end.

Definition file_type_refs (f : SourceFile) : list string :=
  flat_map stmt_type_refs (all_stmts f).

(** The type names a file declares itself: its interfaces, type aliases and
    classes, at top level or inside a module block. *)
Definition declares_type (s : Stmt) : list string :=
  match s with
  | SInterface _ n _ _ _ | STypeAlias _ n _ _ | SClass _ n _ _ _ _ => [n]
  | _ => []
  end.

Definition declared_types (f : SourceFile) : list string :=
  flat_map declares_type (all_stmts f).

(** Names a file uses that it neither declares nor imports: they have to come
    from the ambient libraries. *)
Definition unresolved (f : SourceFile) : list string :=
  filter (fun n => negb (mem n (declared_types f ++ imported_locals f)))
         (file_type_refs f).

(** Names that some file of the corpus declares at module level (not inside a
    [declare global] or [declare module] block). *)
Definition module_types : list string :=
  flat_map (fun f => flat_map declares_type (file_stmts f)) corpus.

(** The names the files take from outside: neither declared, nor imported, nor
    bound by a type parameter where they are used. *)
Definition outside_names : list string :=
  ["Array"; "Promise"; "Record"; "Map"; "Date"; "Error";
   "HTMLElement"; "HTMLStyleElement"; "HTMLElementTagNameMap"; "EventTarget"; "Node";
   "MouseEvent"; "DocumentFragment"; "Range";
   "Disposable"; "ConfigSchemaForString"; "ConfigSchemaForColor"].

(** A use of a module-level type of the corpus is bound in the using file when
    the file declares or imports the name. *)
Definition bound_in (f : SourceFile) (n : string) : bool :=
  mem n (declared_types f) || mem n (imported_locals f).

Definition import_complete (f : SourceFile) : bool :=
  forallb (fun n => implb (mem n module_types)
                      (bound_in f n
                       || (String.eqb (sf_path f) "unnamed/part_003"
                           && String.eqb n "Disposable")))
          (file_type_refs f).

(** *** Exported names *)

Definition exported_names (f : SourceFile) : list string :=
  flat_map (fun s => if is_exported s then opt_list (stmt_name s) else []) (all_stmts f).

Fixpoint distinct (l : list string) : bool :=
  match l with
  | [] => true
  | x :: r => negb (mem x r) && distinct r
  end.

Definition reexport_targets (f : SourceFile) : list string :=
  flat_map (fun r => match r with RReexport t => [t] | _ => [] end) (cross_refs f).

(** *** Members by name *)

Definition class_members (s : Stmt) : list ClassMember :=
  match s with SClass _ _ _ _ _ ms => ms | _ => [] end.

Definition members_of_interface (n : string) : list Member :=
  match find_stmt (interface_named n) corpus with
  | Some s => interface_members s
  | None => []
  end.

Definition members_of_class (n : string) : list ClassMember :=
  match find_stmt (class_named n) corpus with
  | Some s => class_members s
  | None => []
  end.

Definition member_name (m : Member) : string :=
  match m with
  | MProp _ _ n _ | MMethod _ n _ _ _ => n
  | MNew _ _ => "new"
  | MIndex k _ _ => k
  end.

Definition cmember_name (m : ClassMember) : string :=
  match m with
  | CProp _ _ _ n _ _ | CMethod _ _ n _ _ _ _ => n
  | CCtor _ _ => "constructor"
  end.

(** The interfaces of the corpus: name, bases, members. *)
Definition interface_entry (s : Stmt) : list (string * list TsType * list Member) :=
  match s with SInterface _ n _ ext ms => [(n, ext, ms)] | _ => [] end.

Definition corpus_interfaces : list (string * list TsType * list Member) :=
  flat_map interface_entry (flat_map all_stmts corpus).

Definition ends_with (suffix s : string) : bool :=
  let n := String.length s in
  let k := String.length suffix in
  Nat.leb k n && String.eqb (substring (n - k) k s) suffix.

(** *** Shapes of members *)

(** The string literals among the alternatives of a type. *)
Definition string_literals (t : TsType) : list string :=
  match t with
  | TLit s => [s]
  | TUnion ts => flat_map (fun a => match a with TLit s => [s] | _ => [] end) ts
  | _ => []
  end.

Definition prop_type (n : string) (ms : list Member) : option TsType :=
  match find (fun m => match m with MProp _ _ x _ => String.eqb x n | _ => false end) ms with
  | Some (MProp _ _ _ t) => Some t
  | _ => None
  end.

(** The decoration types an options interface admits in its [type] property. *)
Definition decoration_types (iface : string) : list string :=
  match prop_type "type" (members_of_interface iface) with
  | Some t => string_literals t
  | None => []
  end.

(** The members of the object type of a method's [options] parameter. *)
Definition options_members (m : Method) : list Member :=
  match find_param "options" (m_params m) with
  | Some (Prm _ _ _ (Some (TObj ms))) => ms
  | _ => []
  end.

Definition has_prop (n : string) (ms : list Member) : bool :=
  match prop_type n ms with Some _ => true | None => false end.

Definition invalidation_strategies : list string :=
  ["never"; "surround"; "overlap"; "inside"; "touch"].

(** *** Callbacks *)

Definition void_or_unknown (t : TsType) : bool :=
  match t with TKw k => mem k ["void"; "unknown"] | _ => false end.

(** The [callback] parameter of a method is a required function type that
    returns [void] or [unknown]; [arity] bounds its parameters. *)
Definition callback_ok (arity : nat) (m : Method) : bool :=
  match find_param "callback" (m_params m) with
  | Some (Prm _ false false (Some (TFun [] ps r))) =>
      Nat.leb (length ps) arity && void_or_unknown r
  | _ => false
  end.

Definition callback_untyped (m : Method) : bool :=
  match find_param "callback" (m_params m) with
  | Some (Prm _ false false None) => true
  | _ => false
  end.

Definition untyped_params (m : Method) : list string :=
  flat_map (fun p => match p with Prm n _ _ None => [n] | _ => [] end) (m_params m).

(** *** Overloads keyed by an emission map *)

Definition keyed_by (tps : list TParam) : option string :=
  match tps with
  | [TP "T" (Some (TKeyof (TRef e []))) None] => Some e
  | _ => None
  end.

(** The [value] an emitter method passes on: its own [value] parameter, or the
    single parameter of its [handler]. *)
Definition value_param (ps : list Param) : option Param :=
  match find_param "value" ps with
  | Some p => Some p
  | None =>
      match find_param "handler" ps with
      | Some (Prm _ false false (Some (TFun [] [p] (TKw "void")))) => Some p
      | _ => None
      end
  end.

(** *** An interface and the class that goes with it *)

(** A signature written as a class member. *)
Definition as_class_member (m : Member) : option ClassMember :=
  match m with
  | MProp ro o n t => Some (CProp false ro o n (Some t) None)
  | MMethod o n tps ps r => Some (CMethod false o n tps ps r None)
  | _ => None
  end.

Definition param_shape (p : Param) : string * bool * bool :=
  match p with Prm n o r _ => (n, o, r) end.

(** Name, optionality, parameter names and modifiers, and result of a method. *)
Definition method_shape (m : ClassMember)
  : option (string * bool * list (string * bool * bool) * option TsType) :=
  match m with
  | CMethod _ o n _ ps r _ => Some (n, o, map param_shape ps, r)
  | _ => None
  end.

(** [tokenizeLine(line: string, ruleStack: GrammarRule[], firstLine?: false)] of
    [Grammar]. *)
Definition tokenizeLine_with_stack : Member :=
  method "tokenizeLine"
    [req "line" (TKw "string"); req "ruleStack" (TArray (TName "GrammarRule"));
     opt "firstLine" (TKw "false")]
    (TName "TokenizeLineResult").

(** The methods of [LanguageMode] that [WASMTreeSitterLanguageMode] does not
    declare. *)
Definition text_mate_only : list string :=
  ["bufferDidChange"; "buildHighlightIterator"; "classNameForScopeId"].

(** *** [CommandRegistry.add] *)

(** *** Ambient modules *)

Definition ambient_module_entry (s : Stmt) : list (string * list Stmt) :=
  match s with SModule n b => [(n, b)] | _ => [] end.

Definition corpus_ambient_modules : list (string * list Stmt) :=
  flat_map ambient_module_entry (flat_map all_stmts corpus).

(** [tokenizeLine(line: string, ruleStack: any[], firstLine?: false)] of
    [WASMTreeSitterGrammar]. *)
Definition tokenizeLine_with_any_stack : ClassMember :=
  c_method "tokenizeLine"
    [req "line" (TKw "string"); req "ruleStack" (TArray (TKw "any"));
     opt "firstLine" (TKw "false")]
    (TName "TokenizeLineResult").

(** The methods of [DisplayMarkerLayer] that create a marker. *)
Definition creates_marker (m : Method) : bool :=
  String.eqb (m_owner m) "DisplayMarkerLayer" && String.prefix "mark" (m_name m).

Definition is_add_overload (m : Method) : bool :=
  String.eqb (m_owner m) "CommandRegistry" && String.eqb (m_name m) "add".

Definition has_untyped_param (m : Method) : bool :=
  match untyped_params m with [] => false | _ => true end.

Definition named_options (e : string * list TsType * list Member) : bool :=
  ends_with "Options" (fst (fst e)).

Definition named_event (e : string * list TsType * list Member) : bool :=
  ends_with "Event" (fst (fst e)).

(** The key map and method name of each keyed method of [Emitter]. *)
Definition emitter_keys : list (string * string) :=
  flat_map (fun m => match m with
                     | CMethod _ _ n tps _ _ _ =>
                         match keyed_by tps with Some e => [(n, e)] | None => [] end
                     | _ => []
                     end)
           (members_of_class "Emitter").

(** The callback of a subscription takes at most one argument; a callback in
    general takes at most two. *)
Definition callback_shape (m : Method) : bool :=
  callback_ok 2 m && implb (subscription_name (m_name m)) (callback_ok 1 m).

Definition callback_check (m : Method) : bool :=
  implb (has_param "callback" m)
        (callback_shape m
         || (callback_untyped m
             && String.eqb (m_owner m) "AbstractPaneItem"
             && String.eqb (m_name m) "onDidDestroy")).

Definition declares_result (m : Method) : bool := negb (is_none (m_ret m)).

(** *** Naming conventions *)

Definition is_upper (c : Ascii.ascii) : bool :=
  let n := Ascii.nat_of_ascii c in Nat.leb 65 n && Nat.leb n 90.

(** [p] followed by a capital: [isActive] for [is], but not [isolate]. *)
Definition camel_prefix (p s : string) : bool :=
  String.prefix p s
  && match String.get (String.length p) s with Some c => is_upper c | None => false end.

(** A method that asks a yes-or-no question, by its name. *)
Definition predicate_name (n : string) : bool :=
  camel_prefix "is" n || camel_prefix "was" n || camel_prefix "should" n.

Definition asks (m : Method) : bool := predicate_name (m_name m).

(** The elements of a list, each once, in the order of first occurrence. *)
Fixpoint dedup (seen l : list string) : list string :=
  match l with
  | [] => []
  | x :: r => if mem x seen then dedup seen r else x :: dedup (x :: seen) r
  end.

(** The declarations that hold a method so named. *)
Definition predicate_owners : list string :=
  dedup [] (map m_owner (filter asks corpus_methods)).

Definition is_sync (m : Method) : bool := ends_with "Sync" (m_name m).

(** The method of the same declaration whose name is that of [m] without its
    suffix [Sync]. *)
Definition async_counterpart (m : Method) : option Method :=
  find (fun a => String.eqb (m_owner a) (m_owner m)
                 && String.eqb (m_name a ++ "Sync") (m_name m))
       corpus_methods.

Definition import_targets (f : SourceFile) : list string :=
  flat_map (fun r => match r with RImport _ _ t => [t] | _ => [] end) (cross_refs f).

(** *** References between files, as written

    The statements that name another module, the form they are written in, and
    what becomes of the names they bring in. *)
Definition is_reference (s : Stmt) : bool :=
  match s with
  | SImport _ _ _ | SImportBare _ | SExportStar _ | SExportFrom _ _ _ => true
  | _ => false
  end.

Definition reference_stmts (f : SourceFile) : list Stmt :=
  filter is_reference (all_stmts f).

(** A reference written in the type-only form: [import type { ... }] or
    [export type { ... }]. *)
Definition type_only_form (s : Stmt) : bool :=
  match s with
  | SImport t _ _ | SExportFrom t _ _ => t
  | _ => false
  end.

Definition directives (f : SourceFile) : list (string * string) :=
  flat_map (fun r => match r with RDirective a p => [(a, p)] | _ => [] end) (cross_refs f).

(** [import type { Language, Node, Query } from 'web-tree-sitter'] of
    language-mode.d.ts. *)
Definition web_tree_sitter_import : Stmt :=
  SImport true [IName "Language" None; IName "Node" None; IName "Query" None]
          "web-tree-sitter".

(** [import { Disposable } from "../index"] of notification.d.ts. *)
Definition notification_import : Stmt :=
  SImport false [IName "Disposable" None] "../index".

(** Imported names that the importing file uses nowhere. *)
Definition unused_imports : list (string * string) :=
  [("dependencies/service-hub/src/provider.d.ts", "Disposable");
   ("src/layer-decoration.d.ts", "TextEditor");
   ("unnamed/part_005", "Workspace")].

Definition is_unused_import (f : SourceFile) (x : string) : bool :=
  existsb (fun p => String.eqb (fst p) (sf_path f) && String.eqb (snd p) x) unused_imports.

(** The imported names of a file that none of its declarations mentions. *)
Definition unused_in (f : SourceFile) : list (string * string) :=
  map (fun x => (sf_path f, x))
      (filter (fun x => negb (mem x (file_type_refs f))) (imported_locals f)).

(** An imported name is never used as a value; it is used in a type position
    unless it is one of the unused ones. *)
Definition import_use (f : SourceFile) (x : string) : bool :=
  negb (mem x (value_idents f))
  && (if is_unused_import f x
      then negb (mem x (file_type_refs f))
      else mem x (file_type_refs f)).

Definition no_bare_import (f : SourceFile) : bool :=
  forallb (fun s => match s with SImportBare _ => false | _ => true end) (all_stmts f).

(** * Properties *)

(** ** General facts about files

    These hold of any source file, not only of the ones above. *)

Ltac in_list := solve [ simpl; repeat (first [ left; reflexivity | right ]) ].

Lemma mem_In (x : string) (l : list string) : mem x l = true -> In x l.
Proof.
  unfold mem. rewrite existsb_exists. intros [y [Hy E]].
  apply String.eqb_eq in E. subst y. exact Hy.
Qed.

Lemma In_mem (x : string) (l : list string) : In x l -> mem x l = true.
Proof.
  intros H. unfold mem. rewrite existsb_exists. exists x. split; [exact H|].
  apply String.eqb_refl.
Qed.

Lemma flat_map_nil {A B : Type} (g : A -> list B) (l : list A) :
  (forall a, In a l -> g a = []) -> flat_map g l = [].
Proof.
  induction l as [|a l IH]; simpl; intros H; [reflexivity|].
  rewrite (H a (or_introl eq_refl)). simpl. apply IH.
  intros b Hb. apply H. right. exact Hb.
Qed.

Lemma is_none_true {A : Type} (o : option A) : is_none o = true -> o = None.
Proof. destruct o; simpl; [discriminate | reflexivity]. Qed.

Section AnyFile.

Variable f : SourceFile.

Lemma cmember_ambient_no_code (m : ClassMember) :
  cmember_ambient m = true -> cmember_code m = [].
Proof.
  destruct m; simpl; intros H; apply is_none_true in H; subst; reflexivity.
Qed.

Lemma stmt_ambient_no_code (s : Stmt) : stmt_ambient s = true -> own_code s = [].
Proof.
  destruct s; simpl; intros H; try reflexivity; try discriminate.
  - apply flat_map_nil. intros m Hm. apply cmember_ambient_no_code.
    rewrite forallb_forall in H. apply H. exact Hm.
  - apply is_none_true in H. subst. reflexivity.
  - apply is_none_true in H. subst. reflexivity.
Qed.

(** An ambient file holds no code ... *)
Lemma file_ambient_no_code : file_ambient f = true -> file_code f = [].
Proof.
  unfold file_ambient, file_code. intros H. apply flat_map_nil.
  intros s Hs. apply stmt_ambient_no_code.
  rewrite forallb_forall in H. apply H. exact Hs.
Qed.

(** ... hence no body, nothing run on load, nothing thrown. *)
Lemma no_code_no_bodies : file_code f = [] -> file_bodies f = [].
Proof. unfold file_bodies. intros ->. reflexivity. Qed.

Lemma no_code_no_toplevel : file_code f = [] -> file_toplevel_code f = [].
Proof. unfold file_toplevel_code. intros ->. reflexivity. Qed.

Lemma no_code_no_throws : file_code f = [] -> file_throws f = [].
Proof. unfold file_throws. intros ->. reflexivity. Qed.

Lemma ambient_function_no_entry (s : Stmt) :
  stmt_ambient s = true ->
  match s with SFunction _ n _ _ _ (Some b) => [CodeBody n b] | _ => [] end = [].
Proof. destruct s; try reflexivity. destruct body; simpl; [discriminate | reflexivity]. Qed.

Lemma file_ambient_no_entry : file_ambient f = true -> entry_points f = [].
Proof.
  intros H. unfold entry_points.
  rewrite (no_code_no_toplevel (file_ambient_no_code H)). simpl.
  apply flat_map_nil. intros s Hs. apply ambient_function_no_entry.
  unfold file_ambient in H. rewrite forallb_forall in H. apply H. exact Hs.
Qed.

(** With no code and no superclass expression there is no value position,
    so no identifier is used as a value and nothing is constructed. *)
Lemma no_value_positions :
  file_code f = [] -> flat_map heritage (all_stmts f) = [] -> value_positions f = [].
Proof. unfold value_positions. intros -> ->. reflexivity. Qed.

Lemma no_positions_no_idents : value_positions f = [] -> value_idents f = [].
Proof. unfold value_idents. intros ->. reflexivity. Qed.

Lemma no_positions_no_constructions : value_positions f = [] -> file_constructions f = [].
Proof. unfold file_constructions. intros ->. reflexivity. Qed.

Lemma no_idents_no_inbound : value_idents f = [] -> inbound_values f = [].
Proof.
  unfold inbound_values. intros ->.
  induction (imported_locals f) as [|x l IH]; simpl; [reflexivity | exact IH].
Qed.

(** An ambient statement is never classified as an implementation or as an
    executable statement. *)
Lemma stmt_ambient_not_code (s : Stmt) :
  stmt_ambient s = true -> classify s <> KImplementation /\ classify s <> KStatement.
Proof.
  destruct s; simpl; intros H; try discriminate H;
    try rewrite H; split; discriminate.
Qed.

Lemma in_all_stmts (s s' : Stmt) :
  In (IStmt s) (sf_items f) -> In s' (stmt_flatten s) -> In s' (all_stmts f).
Proof.
  intros Hs Hs'. unfold all_stmts, file_stmts.
  apply in_flat_map. exists s. split; [|exact Hs'].
  apply in_flat_map. exists (IStmt s). split; [exact Hs | left; reflexivity].
Qed.

(** A construct of a file is a comment, a directive, prose, or the kind of
    one of its statements. *)
Lemma file_constructs_cases (c : Construct) :
  In c (file_constructs f) ->
  In c [KDocComment; KComment; KReference; KProse]
  \/ exists s, In s (all_stmts f) /\ c = classify s.
Proof.
  unfold file_constructs. intros H. apply in_flat_map in H.
  destruct H as [it [Hit Hc]]. destruct it; simpl in Hc.
  - left. destruct Hc as [<-|[]]. in_list.
  - left. destruct Hc as [<-|[]]. in_list.
  - left. destruct Hc as [<-|[]]. in_list.
  - right. apply in_map_iff in Hc. destruct Hc as [s' [E Hs']].
    exists s'. split; [|symmetry; exact E].
    eapply in_all_stmts; eassumption.
  - left. destruct Hc as [<-|[]]. in_list.
Qed.

Lemma file_ambient_constructs (c : Construct) :
  file_ambient f = true -> In c (file_constructs f) ->
  c <> KImplementation /\ c <> KStatement.
Proof.
  intros H Hc. destruct (file_constructs_cases c Hc) as [Hk | [s [Hs ->]]].
  - simpl in Hk. decompose [or] Hk; subst; try contradiction; split; discriminate.
  - apply stmt_ambient_not_code.
    unfold file_ambient in H. rewrite forallb_forall in H. apply H. exact Hs.
Qed.

End AnyFile.

(** ** The corpus is ambient

    Checked once, by evaluation; the claims below draw on it through the
    general facts above. *)

Lemma corpus_ambient : forallb file_ambient corpus = true.
Proof. vm_compute. reflexivity. Qed.

Lemma corpus_no_heritage : forallb no_heritage corpus = true.
Proof. vm_compute. reflexivity. Qed.

Lemma in_corpus_ambient (f : SourceFile) : In f corpus -> file_ambient f = true.
Proof. intros H. exact (proj1 (forallb_forall file_ambient corpus) corpus_ambient f H). Qed.

Lemma in_corpus_no_code (f : SourceFile) : In f corpus -> file_code f = [].
Proof. intros H. apply file_ambient_no_code, in_corpus_ambient, H. Qed.

Lemma in_corpus_no_value_positions (f : SourceFile) : In f corpus -> value_positions f = [].
Proof.
  intros H. apply no_value_positions; [apply in_corpus_no_code, H|].
  pose proof (proj1 (forallb_forall no_heritage corpus) corpus_no_heritage f H) as E.
  unfold no_heritage in E. destruct (flat_map heritage (all_stmts f)); [reflexivity | discriminate].
Qed.

(** The predicates do tell files apart: the consumer code quoted by the README
    has a body, an entry point and a value use. *)
Example consumer_snippet_is_code :
  file_ambient readme_consumer_snippet = false
  /\ file_constructs readme_consumer_snippet = [KImport; KImplementation]
  /\ value_idents readme_consumer_snippet = ["atom"]
  /\ length (entry_points readme_consumer_snippet) = 1.
Proof. repeat split. Qed.

(** Reading a file: what notification.d.ts refers to, declares and exports. *)
Example notification_refs :
  map ref_target (cross_refs notification_d_ts) = ["../index"]
  /\ map d_name (file_decls notification_d_ts)
     = ["Notification"; "NotificationOptions"; "ErrorNotificationOptions"]
  /\ map ex_kind (file_exports notification_d_ts) = [KAmbientClass; KInterface; KInterface].
Proof. repeat split. Qed.

(** The index re-exports and augments the global scope; it imports two names
    and uses both in types only. *)
Example index_refs :
  length (cross_refs part_007) = 55
  /\ imported_locals part_007 = ["AtomEnvironment"; "TextEditorElement"]
  /\ map ex_name (filter (fun e => negb (construct_eqb (ex_kind e) KExport))
                         (file_exports part_007))
     = ["atom"; "HTMLElementTagNameMap"].
Proof. repeat split. Qed.

(** The naming convention of subscriptions. *)
Example subscription_names :
  subscription_name "onDidChangeActiveItem" = true
  /\ subscription_name "onWillDestroy" = true
  /\ subscription_name "observe" = true
  /\ subscription_name "onChooseNextMRUItem" = false
  /\ subscription_name "getTitle" = false.
Proof. repeat split. Qed.

(** Of the 318 methods the corpus declares, 66 are subscriptions by name or are
    [Emitter]'s, and 64 of these return [Disposable]. *)
Example subscription_census :
  length corpus_methods = 318
  /\ length (filter is_subscription corpus_methods) = 66
  /\ length (filter (fun m => is_subscription m && returns "Disposable" m) corpus_methods) = 64.
Proof. repeat split; vm_compute; reflexivity. Qed.

(** The one empty statement of the corpus closes [interface UI] in ui.d.ts. *)
Example empty_statement_census :
  map sf_path (filter (fun f => existsb (construct_eqb KEmptyStatement) (file_constructs f)) corpus)
  = ["src/ui.d.ts"].
Proof. vm_compute. reflexivity. Qed.

(** ** C1 *)

Lemma construct_eqb_eq (a b : Construct) : construct_eqb a b = true -> a = b.
Proof. destruct a, b; simpl; intros H; first [reflexivity | discriminate H]. Qed.

Lemma corpus_constructs_accounted :
  forallb (fun f => forallb (construct_accounted f) (file_constructs f)) corpus = true.
Proof. vm_compute. reflexivity. Qed.

(** C1, as stated, fails: the index holds the directive
    [/// <reference types="node" />], which is none of the kinds the
    specification lists.  So does ui.d.ts, by a slip: a [;] follows the closing
    brace of [interface UI], an empty statement that declares nothing. *)
Lemma not_every_construct_is_a_listed_declaration :
  (In part_007 corpus
   /\ In (IRef "types" "node") (sf_items part_007)
   /\ In KReference (file_constructs part_007)
   /\ ~ In KReference listed_kinds)
  /\ (In ui_d_ts corpus
      /\ last (sf_items ui_d_ts) IDoc = IStmt SEmpty
      /\ In KEmptyStatement (file_constructs ui_d_ts)
      /\ ~ In KEmptyStatement listed_kinds).
Proof.
  split.
  - split; [in_list|]. split; [vm_compute; tauto|]. split; [vm_compute; tauto|].
    simpl. intuition discriminate.
  - split; [in_list|]. split; [vm_compute; reflexivity|]. split; [vm_compute; tauto|].
    simpl. intuition discriminate.
Qed.

(** C1, amended. In every file of the corpus every construct other than an
    empty statement is a declaration or documentation: one of the listed kinds
    (interface, type alias, ambient class, ambient module or global block,
    import, export, documentation comment), the ambient constant [atom] of the
    index's global block, a [//] comment, a reference directive, or, in a
    Markdown document, prose.  No function, method or constructor has a body,
    and no file holds any code. *)
Theorem corpus_declarations_only :
  forall f, In f corpus ->
    (forall c, In c (file_constructs f) -> c <> KEmptyStatement ->
       In c listed_kinds
       \/ (c = KAmbientVariable /\ sf_path f = "unnamed/part_007")
       \/ c = KComment
       \/ c = KReference
       \/ (c = KProse /\ sf_kind f = Markdown))
    /\ file_bodies f = []
    /\ file_code f = [].
Proof.
  intros f Hf. pose proof (in_corpus_ambient f Hf) as Ha.
  pose proof (file_ambient_no_code f Ha) as Hc.
  split; [|split; [exact (no_code_no_bodies f Hc) | exact Hc]].
  intros c Hin Hne.
  pose proof (proj1 (forallb_forall _ corpus) corpus_constructs_accounted f Hf) as Hall.
  simpl in Hall.
  pose proof (proj1 (forallb_forall _ _) Hall c Hin) as H.
  unfold construct_accounted in H.
  apply orb_prop in H. destruct H as [H | H].
  - apply orb_prop in H. destruct H as [H | H].
    + apply construct_eqb_eq in H. contradiction.
    + left. apply existsb_exists in H. destruct H as [k [Hk E]].
      apply construct_eqb_eq in E. rewrite E. exact Hk.
  - right. unfold documented_kind in H. destruct c; try discriminate H.
    + left. split; [reflexivity | apply String.eqb_eq, H].
    + right. left. reflexivity.
    + right. right. left. reflexivity.
    + right. right. right. split; [reflexivity|].
      destruct (sf_kind f); [discriminate H | reflexivity].
Qed.

Lemma corpus_declarations_only_witness :
  In part_007 corpus
  /\ (forall c, In c (file_constructs part_007) -> c <> KEmptyStatement ->
       In c listed_kinds
       \/ (c = KAmbientVariable /\ sf_path part_007 = "unnamed/part_007")
       \/ c = KComment
       \/ c = KReference
       \/ (c = KProse /\ sf_kind part_007 = Markdown))
  /\ file_bodies part_007 = []
  /\ file_code part_007 = [].
Proof.
  assert (H : In part_007 corpus) by in_list.
  split; [exact H | exact (corpus_declarations_only part_007 H)].
Defined.

(** ** C2 *)

Lemma corpus_decl_shapes : forallb (fun f => forallb decl_shape (file_decls f)) corpus = true.
Proof. vm_compute. reflexivity. Qed.

(** C2, as stated, fails: event-kit declares [Disposable] as a class, which is
    neither an interface nor a type alias. *)
Lemma not_every_declaration_is_a_type_shape :
  ~ (forall f d, In f corpus -> In d (file_decls f) -> is_type_shape (d_kind d) = true).
Proof.
  intros H.
  assert (Hf : In event_kit_index_d_ts_doc1 corpus) by in_list.
  assert (Hd : In {| d_path := "dependencies/event-kit/index.d.ts";
                     d_name := "Disposable"; d_kind := KAmbientClass |}
                  (file_decls event_kit_index_d_ts_doc1)) by (vm_compute; tauto).
  specialize (H _ _ Hf Hd). discriminate H.
Qed.

(** C2, amended. Every named declaration of every file is an interface or a
    type alias, or else one of the eight ambient classes, one of the five
    ambient module blocks, the global block, or the ambient variable [atom];
    and a file that is not a declaration file is a Markdown document holding
    prose only. *)
Theorem declarations_are_shapes_or_ambient :
  forall f, In f corpus ->
    (forall d, In d (file_decls f) ->
       is_type_shape (d_kind d) = true
       \/ (d_kind d = KAmbientClass /\ In (d_name d) ambient_classes)
       \/ (d_kind d = KAmbientModule /\ In (d_name d) ambient_modules)
       \/ d_kind d = KAmbientGlobal
       \/ (d_kind d = KAmbientVariable /\ d_name d = "atom"))
    /\ (sf_kind f = Markdown -> sf_items f = [IProse]).
Proof.
  intros f Hf. split.
  - intros d Hd.
    pose proof (proj1 (forallb_forall _ corpus) corpus_decl_shapes f Hf) as Hall.
    simpl in Hall.
    pose proof (proj1 (forallb_forall _ _) Hall d Hd) as Hs.
    unfold decl_shape in Hs. destruct (d_kind d) eqn:K; try discriminate Hs.
    + left. reflexivity.
    + left. reflexivity.
    + right. left. split; [reflexivity | apply mem_In, Hs].
    + right. right. left. split; [reflexivity | apply mem_In, Hs].
    + right. right. right. left. reflexivity.
    + right. right. right. right. split; [reflexivity | apply String.eqb_eq, Hs].
  - assert (HF : Forall (fun g => sf_kind g = Markdown -> sf_items g = [IProse]) corpus).
    { unfold corpus.
      repeat (constructor;
              [ first [ intros _; reflexivity | intros E; vm_compute in E; discriminate E ] | ]).
      constructor. }
    exact (proj1 (Forall_forall _ _) HF f Hf).
Qed.

Lemma declarations_are_shapes_or_ambient_witness :
  In notification_d_ts corpus
  /\ (forall d, In d (file_decls notification_d_ts) ->
       is_type_shape (d_kind d) = true
       \/ (d_kind d = KAmbientClass /\ In (d_name d) ambient_classes)
       \/ (d_kind d = KAmbientModule /\ In (d_name d) ambient_modules)
       \/ d_kind d = KAmbientGlobal
       \/ (d_kind d = KAmbientVariable /\ d_name d = "atom"))
  /\ (sf_kind notification_d_ts = Markdown -> sf_items notification_d_ts = [IProse]).
Proof.
  assert (H : In notification_d_ts corpus) by in_list.
  split; [exact H | exact (declarations_are_shapes_or_ambient notification_d_ts H)].
Defined.

(** ** C3 *)

Lemma corpus_no_bare_import : forallb no_bare_import corpus = true.
Proof. vm_compute. reflexivity. Qed.

Lemma corpus_import_use :
  forallb (fun f => forallb (import_use f) (imported_locals f)) corpus = true.
Proof. vm_compute. reflexivity. Qed.

Lemma is_unused_import_In (f : SourceFile) (x : string) :
  is_unused_import f x = true -> In (sf_path f, x) unused_imports.
Proof.
  unfold is_unused_import. rewrite existsb_exists. intros [[p n] [Hin E]].
  simpl in E. apply andb_prop in E. destruct E as [Ep En].
  apply String.eqb_eq in Ep. apply String.eqb_eq in En. subst. exact Hin.
Qed.

(** C3, as stated, fails: notification.d.ts brings in [Disposable], which
    event-kit declares as a class, with a plain [import { ... }]; the
    reference is not written in the type-only form. *)
Lemma notification_imports_a_class_plainly :
  In notification_d_ts corpus
  /\ In notification_import (reference_stmts notification_d_ts)
  /\ type_only_form notification_import = false
  /\ map d_kind (decls_named "Disposable" corpus) = [KAmbientClass].
Proof.
  split; [in_list|]. split; [vm_compute; tauto|]. split; reflexivity.
Qed.

(** C3, amended. No file uses an imported name, or any identifier, as a value:
    no file has a value position, none imports a module for its effect, and
    every imported name is used in a type position of the importing file,
    except three that no declaration of their file mentions.  The references
    are plain ones: of the 35 imports one alone is an [import type], the 61
    re-exports are [export * from] or [export { ... } from] without [type],
    and there are three reference directives. *)
Theorem references_are_type_level :
  (forall f, In f corpus ->
     value_positions f = []
     /\ (forall from, ~ In (SImportBare from) (all_stmts f))
     /\ (forall x, In x (imported_locals f) ->
           ~ In x (value_idents f)
           /\ (In x (file_type_refs f) \/ In (sf_path f, x) unused_imports)))
  /\ flat_map unused_in corpus = unused_imports
  /\ length (flat_map import_targets corpus) = 35
  /\ length (flat_map reexport_targets corpus) = 61
  /\ length (flat_map directives corpus) = 3
  /\ filter type_only_form (flat_map reference_stmts corpus) = [web_tree_sitter_import].
Proof.
  split; [|repeat split; vm_compute; reflexivity].
  intros f Hf. split; [apply in_corpus_no_value_positions, Hf|]. split.
  - intros from Hin.
    pose proof (proj1 (forallb_forall _ corpus) corpus_no_bare_import f Hf) as H.
    unfold no_bare_import in H.
    pose proof (proj1 (forallb_forall _ _) H _ Hin) as E. discriminate E.
  - intros x Hx.
    pose proof (proj1 (forallb_forall _ corpus) corpus_import_use f Hf) as Hall.
    simpl in Hall.
    pose proof (proj1 (forallb_forall _ _) Hall x Hx) as H.
    unfold import_use in H. apply andb_prop in H. destruct H as [Hv Hu]. split.
    + intros Hin. apply In_mem in Hin. rewrite Hin in Hv. discriminate Hv.
    + destruct (is_unused_import f x) eqn:U;
        [right; apply is_unused_import_In, U | left; apply mem_In, Hu].
Qed.

Lemma references_are_type_level_witness :
  In notification_d_ts corpus
  /\ value_positions notification_d_ts = []
  /\ ~ In "Disposable" (value_idents notification_d_ts)
  /\ (In "Disposable" (file_type_refs notification_d_ts)
      \/ In (sf_path notification_d_ts, "Disposable") unused_imports).
Proof.
  assert (H : In notification_d_ts corpus) by in_list.
  destruct (proj1 references_are_type_level notification_d_ts H) as [Hv [_ Hu]].
  assert (Hx : In "Disposable" (imported_locals notification_d_ts))
    by (vm_compute; tauto).
  split; [exact H | split; [exact Hv | exact (Hu "Disposable" Hx)]].
Defined.

(** ** C5 *)

Lemma corpus_no_outbound :
  forallb (fun f => match outbound_values f with [] => true | _ => false end) corpus = true.
Proof. vm_compute. reflexivity. Qed.

(** C5. No file of the corpus defines a run-time entry point or holds a
    top-level executable statement, and no value flows between files: no
    imported binding reaches a value position and no export carries a value. *)
Theorem no_entry_point_and_no_data_flow :
  forall f, In f corpus ->
    entry_points f = []
    /\ file_toplevel_code f = []
    /\ inbound_values f = []
    /\ outbound_values f = [].
Proof.
  intros f Hf. repeat split.
  - apply file_ambient_no_entry, in_corpus_ambient, Hf.
  - apply no_code_no_toplevel, in_corpus_no_code, Hf.
  - apply no_idents_no_inbound, no_positions_no_idents, in_corpus_no_value_positions, Hf.
  - pose proof (proj1 (forallb_forall _ corpus) corpus_no_outbound f Hf) as E.
    simpl in E. destruct (outbound_values f); [reflexivity | discriminate E].
Qed.

Lemma no_entry_point_and_no_data_flow_witness :
  In part_007 corpus
  /\ entry_points part_007 = []
  /\ file_toplevel_code part_007 = []
  /\ inbound_values part_007 = []
  /\ outbound_values part_007 = [].
Proof.
  assert (H : In part_007 corpus) by in_list.
  split; [exact H | exact (no_entry_point_and_no_data_flow part_007 H)].
Defined.

(** ** C6 *)

(** C6. [Decoration], [Pane], [Grammar] and [Project] are each declared once in
    the corpus, and each as an interface. *)
Theorem entities_are_interfaces :
  decls_named "Decoration" corpus
  = [{| d_path := "unnamed/part_002"; d_name := "Decoration"; d_kind := KInterface |}]
  /\ decls_named "Pane" corpus
     = [{| d_path := "unnamed/part_005"; d_name := "Pane"; d_kind := KInterface |}]
  /\ decls_named "Grammar" corpus
     = [{| d_path := "unnamed/part_009"; d_name := "Grammar"; d_kind := KInterface |}]
  /\ decls_named "Project" corpus
     = [{| d_path := "src/project.d.ts"; d_name := "Project"; d_kind := KInterface |}].
Proof. repeat split; vm_compute; reflexivity. Qed.

(** ** C7 *)

(** C7. No file of the corpus throws, constructs an error (or anything else),
    or holds any code that could fail at run time: the failures that [Task]'s
    documentation mentions belong to signatures without bodies. *)
Theorem no_error_producing_code :
  forall f, In f corpus ->
    file_throws f = []
    /\ file_constructions f = []
    /\ file_code f = [].
Proof.
  intros f Hf. repeat split.
  - apply no_code_no_throws, in_corpus_no_code, Hf.
  - apply no_positions_no_constructions, in_corpus_no_value_positions, Hf.
  - apply in_corpus_no_code, Hf.
Qed.

Lemma no_error_producing_code_witness :
  In command_registry_d_ts_doc2 corpus
  /\ file_throws command_registry_d_ts_doc2 = []
  /\ file_constructions command_registry_d_ts_doc2 = []
  /\ file_code command_registry_d_ts_doc2 = [].
Proof.
  assert (H : In command_registry_d_ts_doc2 corpus) by in_list.
  split; [exact H | exact (no_error_producing_code command_registry_d_ts_doc2 H)].
Defined.

(** ** C8 *)

Lemma corpus_subscription_shapes :
  forallb (fun m => implb (is_subscription m) (subscription_shape m)) corpus_methods = true.
Proof. vm_compute. reflexivity. Qed.

Lemma is_hook_In (m : Method) : is_hook m = true -> In (m_owner m, m_name m) hook_methods.
Proof.
  unfold is_hook. rewrite existsb_exists. intros [[o n] [Hin E]].
  simpl in E. apply andb_prop in E. destruct E as [Eo En].
  apply String.eqb_eq in Eo. apply String.eqb_eq in En. subst. exact Hin.
Qed.

(** C8, as stated, fails: [AutocompleteProvider.onDidInsertSuggestion] is named
    [onDid*] and is declared to return [void]. *)
Lemma onDidInsertSuggestion_returns_void :
  In onDidInsertSuggestion_hook corpus_methods
  /\ is_subscription onDidInsertSuggestion_hook = true
  /\ returns "Disposable" onDidInsertSuggestion_hook = false.
Proof.
  split; [|split; reflexivity].
  unfold corpus_methods. apply in_flat_map. exists part_010. split; [in_list|].
  vm_compute. in_list.
Qed.

(** C8, amended. Every method named [onDid*], [onWill*] or [observe*] that
    takes a [callback], and each of [Emitter]'s [on], [once] and [preempt], is
    declared to return [Disposable]; a method so named that takes no callback
    is one of the two optional hooks and is declared to return [void]. *)
Theorem subscriptions_return_disposable :
  forall m, In m corpus_methods -> is_subscription m = true ->
    (has_param "callback" m = true \/ emitter_subscription m = true ->
       returns "Disposable" m = true)
    /\ (has_param "callback" m = false /\ emitter_subscription m = false ->
          m_optional m = true /\ returns "void" m = true
          /\ In (m_owner m, m_name m) hook_methods).
Proof.
  intros m Hm Hs.
  pose proof (proj1 (forallb_forall _ _) corpus_subscription_shapes m Hm) as H.
  simpl in H. rewrite Hs in H. simpl in H. unfold subscription_shape in H.
  split.
  - intros Hc.
    assert (E : has_param "callback" m || emitter_subscription m = true).
    { destruct Hc as [-> | ->]; [reflexivity | apply orb_true_r]. }
    rewrite E in H. exact H.
  - intros [Hc He]. rewrite Hc, He in H. simpl in H.
    apply andb_prop in H. destruct H as [H Hh].
    apply andb_prop in H. destruct H as [Ho Hv].
    split; [exact Ho | split; [exact Hv | apply is_hook_In, Hh]].
Qed.

Lemma subscriptions_return_disposable_witness :
  In package_onDidDeactivate corpus_methods
  /\ is_subscription package_onDidDeactivate = true
  /\ returns "Disposable" package_onDidDeactivate = true.
Proof.
  assert (Hin : In package_onDidDeactivate corpus_methods).
  { unfold corpus_methods. apply in_flat_map. exists package_d_ts. split; [in_list|].
    vm_compute. in_list. }
  assert (Hs : is_subscription package_onDidDeactivate = true) by reflexivity.
  split; [exact Hin | split; [exact Hs|]].
  apply (proj1 (subscriptions_return_disposable package_onDidDeactivate Hin Hs)).
  left. reflexivity.
Defined.

(** ** C9 *)

(** C9. [Emitter] is declared to implement [DisposableLike]; its [dispose] is
    declared to return [boolean], while [DisposableLike.dispose],
    [Disposable.dispose] and every other [dispose] of the corpus are declared
    to return [void]. *)
Theorem emitter_dispose_returns_boolean :
  option_map class_implements (find_stmt (class_named "Emitter") corpus)
  = Some [TName "DisposableLike"]
  /\ map (fun m => (m_owner m, m_ret m)) (methods_named "dispose" corpus)
     = [("DisposableLike", Some (TKw "void"));
        ("Disposable", Some (TKw "void"));
        ("CompositeDisposable", Some (TKw "void"));
        ("Emitter", Some (TKw "boolean"));
        ("AutocompleteProvider", Some (TKw "void"))].
Proof. split; vm_compute; reflexivity. Qed.

(** ** C10 *)

Lemma notification_overloads :
  exists p1 p2,
    notification_ctors = [p1; p2]
    /\ overload_types p1 = plain_types
    /\ overload_types p2 = error_types
    /\ overload_options p1 = Some "NotificationOptions"
    /\ overload_options p2 = Some "ErrorNotificationOptions".
Proof.
  do 2 eexists. split; [vm_compute; reflexivity|]. repeat split.
Qed.

Lemma options_for_cases (s : string) :
  options_for s
  = ((if mem s plain_types then [Some "NotificationOptions"] else [])
     ++ (if mem s error_types then [Some "ErrorNotificationOptions"] else []))%list.
Proof.
  destruct notification_overloads as [p1 [p2 [E [T1 [T2 [O1 O2]]]]]].
  unfold options_for. rewrite E. unfold filter, accepts. rewrite T1, T2.
  destruct (mem s plain_types), (mem s error_types); simpl; rewrite ?O1, ?O2; reflexivity.
Qed.

Lemma accepted_cases (s : string) :
  existsb (accepts s) notification_ctors = mem s plain_types || mem s error_types.
Proof.
  destruct notification_overloads as [p1 [p2 [E [T1 [T2 _]]]]].
  rewrite E. unfold existsb, accepts. rewrite T1, T2. rewrite orb_false_r. reflexivity.
Qed.

(** C10. [Notification] has two constructor overloads whose [type] parameters
    are unions of string literals: five distinct strings in all, and no other
    string is accepted.  ["warning"], ["info"] and ["success"], and only they,
    come with [NotificationOptions]; ["fatal"] and ["error"], and only they,
    come with [ErrorNotificationOptions], which extends [NotificationOptions]
    by the optional field [stack] alone. *)
Theorem notification_constructor_partition :
  map overload_types notification_ctors = [plain_types; error_types]
  /\ NoDup (plain_types ++ error_types)%list
  /\ length (plain_types ++ error_types)%list = 5
  /\ (forall s, existsb (accepts s) notification_ctors = true
                <-> In s (plain_types ++ error_types)%list)
  /\ (forall s, options_for s = [Some "NotificationOptions"] <-> In s plain_types)
  /\ (forall s, options_for s = [Some "ErrorNotificationOptions"] <-> In s error_types)
  /\ option_map (fun i => (interface_extends i, interface_members i))
                (find_stmt (interface_named "ErrorNotificationOptions") corpus)
     = Some ([TName "NotificationOptions"],
             [prop_opt "stack" (TUnion [TKw "string"; TKw "undefined"])]).
Proof.
  split; [vm_compute; reflexivity|].
  split.
  { repeat (constructor; [simpl; intuition discriminate|]). constructor. }
  split; [reflexivity|].
  split.
  { intros s. rewrite accepted_cases. split.
    - intros H. apply orb_prop in H. apply in_or_app.
      destruct H as [H | H]; [left | right]; apply mem_In, H.
    - intros H. apply in_app_or in H.
      destruct H as [H | H]; apply In_mem in H; rewrite H;
        [reflexivity | apply orb_true_r]. }
  split.
  { intros s. rewrite options_for_cases. split.
    - destruct (mem s plain_types) eqn:P; destruct (mem s error_types) eqn:Q;
        intros H; simpl in H; try discriminate H. exact (mem_In _ _ P).
    - intros H. pose proof (In_mem _ _ H) as P. rewrite P.
      assert (Q : mem s error_types = false).
      { simpl in H. decompose [or] H; subst; try contradiction; reflexivity. }
      rewrite Q. reflexivity. }
  split.
  { intros s. rewrite options_for_cases. split.
    - destruct (mem s plain_types) eqn:P; destruct (mem s error_types) eqn:Q;
        intros H; simpl in H; try discriminate H. exact (mem_In _ _ Q).
    - intros H. pose proof (In_mem _ _ H) as Q. rewrite Q.
      assert (P : mem s plain_types = false).
      { simpl in H. decompose [or] H; subst; try contradiction; reflexivity. }
      rewrite P. reflexivity. }
  vm_compute. reflexivity.
Qed.

Lemma notification_constructor_partition_witness :
  options_for "info" = [Some "NotificationOptions"]
  /\ options_for "fatal" = [Some "ErrorNotificationOptions"].
Proof.
  destruct notification_constructor_partition as [_ [_ [_ [_ [Hp [He _]]]]]].
  split.
  - apply (proj2 (Hp "info")). simpl. tauto.
  - apply (proj2 (He "fatal")). simpl. tauto.
Defined.

(** * Further properties of the declared surface *)

(** [H : In x l] with [l] a list that evaluates: one case per element. *)
Ltac enumerate H tac :=
  vm_compute in H;
  repeat (destruct H as [H | H]; [ subst; tac | ]);
  try contradiction.

Lemma distinct_NoDup (l : list string) : distinct l = true -> NoDup l.
Proof.
  induction l as [|x r IH]; simpl; intros H; [constructor|].
  apply andb_prop in H. destruct H as [Hx Hr]. constructor.
  - intros Hin. apply In_mem in Hin. rewrite Hin in Hx. discriminate Hx.
  - apply IH, Hr.
Qed.

(** ** X1 *)

(** X1. The sixty declarations of the corpus that carry the [export] modifier
    have sixty different names: no name is exported by two declarations,
    whatever files they are in. *)
Theorem exported_names_distinct :
  NoDup (flat_map exported_names corpus)
  /\ length (flat_map exported_names corpus) = 60.
Proof. split; [apply distinct_NoDup|]; vm_compute; reflexivity. Qed.

(** ** X2 *)

(** X2. The package index (unnamed/part_007) names fifty-one modules in its
    re-exports and names none of them twice; the modules it imports from, for
    its global declarations, are among those it re-exports. *)
Theorem no_module_reexported_twice :
  NoDup (reexport_targets part_007)
  /\ length (reexport_targets part_007) = 51
  /\ forall t, In t (import_targets part_007) -> In t (reexport_targets part_007).
Proof.
  split; [apply distinct_NoDup; vm_compute; reflexivity|].
  split; [vm_compute; reflexivity|].
  intros t Ht. enumerate Ht ltac:(vm_compute; in_list).
Qed.

Lemma no_module_reexported_twice_witness :
  In "./src/atom-environment" (reexport_targets part_007).
Proof.
  apply (proj2 (proj2 no_module_reexported_twice)). vm_compute. in_list.
Defined.

(** ** X3 *)

Lemma corpus_outside_names :
  forallb (fun f => forallb (fun n => mem n outside_names) (unresolved f)) corpus = true.
Proof. vm_compute. reflexivity. Qed.

(** X3. A type name that a file uses without declaring it, importing it or
    binding it as a type parameter is one of the seventeen [outside_names]. *)
Theorem outside_names_closed :
  forall f, In f corpus -> forall n, In n (unresolved f) -> In n outside_names.
Proof.
  intros f Hf n Hn.
  pose proof (proj1 (forallb_forall _ corpus) corpus_outside_names f Hf) as Hall.
  simpl in Hall. apply mem_In. exact (proj1 (forallb_forall _ _) Hall n Hn).
Qed.

Lemma outside_names_closed_witness :
  In notification_d_ts corpus
  /\ In "MouseEvent" (unresolved notification_d_ts)
  /\ In "MouseEvent" outside_names.
Proof.
  assert (Hf : In notification_d_ts corpus) by in_list.
  assert (Hn : In "MouseEvent" (unresolved notification_d_ts)) by (vm_compute; in_list).
  split; [exact Hf | split; [exact Hn|]].
  exact (outside_names_closed notification_d_ts Hf "MouseEvent" Hn).
Defined.

(** ** X4 *)

Lemma corpus_import_complete : forallb import_complete corpus = true.
Proof. vm_compute. reflexivity. Qed.

(** X4. A file that uses a type declared at module level somewhere in the
    corpus declares it itself or imports it.  The one exception is
    unnamed/part_003, which uses [Disposable] and neither declares nor imports
    it. *)
Theorem imports_are_complete :
  (forall f, In f corpus ->
     forall n, In n (file_type_refs f) -> In n module_types ->
       bound_in f n = true \/ (sf_path f = "unnamed/part_003" /\ n = "Disposable"))
  /\ In "Disposable" (file_type_refs part_003)
  /\ In "Disposable" module_types
  /\ bound_in part_003 "Disposable" = false.
Proof.
  split.
  - intros f Hf n Hn Hm.
    pose proof (proj1 (forallb_forall _ corpus) corpus_import_complete f Hf) as Hall.
    unfold import_complete in Hall.
    pose proof (proj1 (forallb_forall _ _) Hall n Hn) as H. cbv beta in H.
    rewrite (In_mem _ _ Hm) in H. unfold implb in H.
    apply orb_prop in H. destruct H as [H | H]; [left; exact H | right].
    apply andb_prop in H. destruct H as [Hp Hd].
    split; apply String.eqb_eq; assumption.
  - repeat split; vm_compute; in_list.
Qed.

Lemma imports_are_complete_witness :
  In package_d_ts corpus
  /\ In "Disposable" (file_type_refs package_d_ts)
  /\ In "Disposable" module_types
  /\ bound_in package_d_ts "Disposable" = true.
Proof.
  assert (Hf : In package_d_ts corpus) by in_list.
  assert (Hn : In "Disposable" (file_type_refs package_d_ts)) by (vm_compute; in_list).
  assert (Hm : In "Disposable" module_types) by (vm_compute; in_list).
  split; [exact Hf | split; [exact Hn | split; [exact Hm|]]].
  destruct (proj1 imports_are_complete package_d_ts Hf "Disposable" Hn Hm) as [H | [H _]].
  - exact H.
  - vm_compute in H. discriminate H.
Defined.

(** ** X5 *)

(** X5. Each of [Emitter]'s [on], [once], [preempt] and [emit] comes in two
    overloads, keyed by [OptionalEmissions] and by [RequiredEmissions]; the
    value passed on has the type the key map gives the event, and it is
    optional exactly in the overload keyed by [OptionalEmissions]. *)
Theorem emitter_overloads_pair_up :
  (forall m, In m (members_of_class "Emitter") ->
     forall n tps ps r, m = CMethod false false n tps ps r None ->
       In n ["on"; "once"; "preempt"; "emit"] ->
       exists e o,
         keyed_by tps = Some e
         /\ value_param ps
            = Some (Prm "value" o false (Some (TIndexed (TName e) (TName "T"))))
         /\ In e ["OptionalEmissions"; "RequiredEmissions"]
         /\ o = String.eqb e "OptionalEmissions")
  /\ emitter_keys
     = [("on", "OptionalEmissions"); ("on", "RequiredEmissions");
        ("once", "OptionalEmissions"); ("once", "RequiredEmissions");
        ("preempt", "OptionalEmissions"); ("preempt", "RequiredEmissions");
        ("emit", "OptionalEmissions"); ("emit", "RequiredEmissions")].
Proof.
  split; [|vm_compute; reflexivity].
  intros m Hm.
  enumerate Hm ltac:(
    intros n tps ps r E Hn; try discriminate E; inversion E; subst;
    first [ do 2 eexists; split; [reflexivity | split; [reflexivity | split; [in_list | reflexivity]]]
          | simpl in Hn; intuition discriminate ]).
Qed.

Lemma emitter_overloads_pair_up_witness :
  exists e o,
    keyed_by [TP "T" (Some (TKeyof (TName "RequiredEmissions"))) None] = Some e
    /\ value_param [req "eventName" (TName "T");
                    req "value" (TIndexed (TName "RequiredEmissions") (TName "T"))]
       = Some (Prm "value" o false (Some (TIndexed (TName e) (TName "T"))))
    /\ In e ["OptionalEmissions"; "RequiredEmissions"]
    /\ o = String.eqb e "OptionalEmissions".
Proof.
  refine (proj1 emitter_overloads_pair_up
            (CMethod false false "emit"
               [TP "T" (Some (TKeyof (TName "RequiredEmissions"))) None]
               [req "eventName" (TName "T");
                req "value" (TIndexed (TName "RequiredEmissions") (TName "T"))]
               (Some (TKw "void")) None)
            _ "emit" _ _ (Some (TKw "void")) eq_refl _).
  - vm_compute. in_list.
  - in_list.
Defined.

(** ** X6 *)

(** X6. Every member of the interface [Grammar] is declared, with the same
    signature, by the class [WASMTreeSitterGrammar]; the one difference is the
    [tokenizeLine] overload that takes a rule stack, whose stack is
    [GrammarRule[]] in the interface and [any[]] in the class, all else
    equal. *)
Theorem grammar_members_in_wasm_grammar :
  forall m, In m (members_of_interface "Grammar") ->
    exists c, as_class_member m = Some c
      /\ (In c (members_of_class "WASMTreeSitterGrammar")
          \/ (m = tokenizeLine_with_stack
              /\ In tokenizeLine_with_any_stack (members_of_class "WASMTreeSitterGrammar")
              /\ method_shape tokenizeLine_with_any_stack = method_shape c)).
Proof.
  intros m Hm.
  enumerate Hm ltac:(
    eexists; split; [reflexivity|];
    first [ left; vm_compute; in_list
          | right; split; [reflexivity | split; [vm_compute; in_list | reflexivity]] ]).
Qed.

Lemma grammar_members_in_wasm_grammar_witness :
  In (ro_prop "scopeName" (TKw "string")) (members_of_interface "Grammar")
  /\ In (ro_field "scopeName" (TKw "string")) (members_of_class "WASMTreeSitterGrammar").
Proof.
  assert (H : In (ro_prop "scopeName" (TKw "string")) (members_of_interface "Grammar"))
    by (vm_compute; in_list).
  split; [exact H|].
  destruct (grammar_members_in_wasm_grammar _ H) as [c [E [Hc | [Hd _]]]].
  - injection E as <-. exact Hc.
  - discriminate Hd.
Defined.

(** ** X7 *)

(** X7. Of the eighteen methods of the interface [LanguageMode], the class
    [WASMTreeSitterLanguageMode] declares all but [bufferDidChange],
    [buildHighlightIterator] and [classNameForScopeId]. *)
Theorem language_mode_methods_declared :
  length (members_of_interface "LanguageMode") = 18
  /\ forall n, In n (map member_name (members_of_interface "LanguageMode")) ->
       mem n (map cmember_name (members_of_class "WASMTreeSitterLanguageMode"))
       = negb (mem n text_mate_only).
Proof.
  split; [vm_compute; reflexivity|].
  intros n Hn. enumerate Hn ltac:(vm_compute; reflexivity).
Qed.

Lemma language_mode_methods_declared_witness :
  mem "isRowCommented" (map cmember_name (members_of_class "WASMTreeSitterLanguageMode"))
  = true
  /\ mem "bufferDidChange" (map cmember_name (members_of_class "WASMTreeSitterLanguageMode"))
     = false.
Proof.
  split.
  - apply (proj2 language_mode_methods_declared "isRowCommented"). vm_compute. in_list.
  - apply (proj2 language_mode_methods_declared "bufferDidChange"). vm_compute. in_list.
Defined.

(** ** X8 *)

(** X8. Every decoration type that [DecorationLayerOptions] admits is admitted
    by [DecorationOptions]; [DecorationOptions] admits exactly two more,
    ["overlay"] and ["gutter"], which a layer decoration cannot have. *)
Theorem layer_decoration_types_are_decoration_types :
  (forall s, In s (decoration_types "DecorationLayerOptions") ->
             In s (decoration_types "DecorationOptions"))
  /\ (forall s, In s (decoration_types "DecorationOptions") <->
                In s (decoration_types "DecorationLayerOptions")
                \/ In s ["overlay"; "gutter"])
  /\ (forall s, In s ["overlay"; "gutter"] ->
                ~ In s (decoration_types "DecorationLayerOptions")).
Proof.
  split; [|split].
  - intros s Hs. enumerate Hs ltac:(vm_compute; in_list).
  - intros s. split.
    + intros Hs. enumerate Hs ltac:(first [left; vm_compute; in_list | right; in_list]).
    + intros [Hs | Hs]; enumerate Hs ltac:(vm_compute; in_list).
  - intros s Hs Hl. enumerate Hs ltac:(vm_compute in Hl; intuition discriminate).
Qed.

Lemma layer_decoration_types_are_decoration_types_witness :
  In "highlight" (decoration_types "DecorationOptions")
  /\ In "overlay" (decoration_types "DecorationOptions")
  /\ ~ In "gutter" (decoration_types "DecorationLayerOptions").
Proof.
  destruct layer_decoration_types_are_decoration_types as [Hsub [Hiff Hnot]].
  split; [|split].
  - apply Hsub. vm_compute. in_list.
  - apply (proj2 (Hiff "overlay")). right. in_list.
  - apply Hnot. in_list.
Defined.

(** ** X9 *)

(** X9. The four methods of [DisplayMarkerLayer] that create a marker return a
    [DisplayMarker] and take the same options: the same five invalidation
    strategies and [exclusive] in all four, [reversed] when a range is marked
    and only then, [clipDirection] when a screen position is given and only
    then. *)
Theorem marker_creation_options :
  forall m, In m corpus_methods -> creates_marker m = true ->
    returns "DisplayMarker" m = true
    /\ option_map string_literals (prop_type "invalidate" (options_members m))
       = Some invalidation_strategies
    /\ has_prop "exclusive" (options_members m) = true
    /\ has_prop "reversed" (options_members m)
       = mem (m_name m) ["markScreenRange"; "markBufferRange"]
    /\ has_prop "clipDirection" (options_members m) = String.prefix "markScreen" (m_name m).
Proof.
  intros m Hm Hc.
  assert (H : In m (filter creates_marker corpus_methods))
    by (apply filter_In; split; assumption).
  clear Hm Hc. enumerate H ltac:(repeat split; reflexivity).
Qed.

Lemma marker_creation_options_witness :
  length (filter creates_marker corpus_methods) = 4
  /\ forall m, In m (filter creates_marker corpus_methods) ->
       option_map string_literals (prop_type "invalidate" (options_members m))
       = Some invalidation_strategies.
Proof.
  split; [vm_compute; reflexivity|].
  intros m Hm. apply filter_In in Hm. destruct Hm as [Hm Hc].
  exact (proj1 (proj2 (marker_creation_options m Hm Hc))).
Defined.

(** ** X10 *)

(** X10. [WindowLoadSettings] and [Branding] are records of read-only
    properties: neither declares a method or a property that can be
    assigned. *)
Theorem settings_are_readonly :
  forall m, In m (members_of_interface "WindowLoadSettings" ++ members_of_interface "Branding") ->
    exists o n t, m = MProp true o n t.
Proof.
  intros m Hm. enumerate Hm ltac:(do 3 eexists; reflexivity).
Qed.

Lemma settings_are_readonly_witness :
  exists o n t, ro_prop "urlWeb" (TKw "string") = MProp true o n t.
Proof.
  apply settings_are_readonly. vm_compute. in_list.
Defined.

(** ** X11 *)

(** X11. Every member of [AbstractPaneItem] is a method, and all are optional
    except [getTitle] and [getElement]. *)
Theorem pane_item_requires_title_and_element :
  forall m, In m (members_of_interface "AbstractPaneItem") ->
    exists o n tps ps r,
      m = MMethod o n tps ps r /\ o = negb (mem n ["getTitle"; "getElement"]).
Proof.
  intros m Hm. enumerate Hm ltac:(do 5 eexists; split; reflexivity).
Qed.

Lemma pane_item_requires_title_and_element_witness :
  exists o n tps ps r,
    method_opt "getURI" [] (TKw "string") = MMethod o n tps ps r
    /\ o = negb (mem n ["getTitle"; "getElement"]).
Proof.
  apply pane_item_requires_title_and_element. vm_compute. in_list.
Defined.

(** ** X12 *)

(** X12. In every interface whose name ends in [Options], every member is an
    optional property whose type spells out [undefined], and every base is
    itself such an interface: the empty object is a value of each of them. *)
Theorem options_are_optional :
  forall e, In e corpus_interfaces -> named_options e = true ->
    (forall b, In b (snd (fst e)) -> exists bn, b = TName bn /\ ends_with "Options" bn = true)
    /\ (forall m, In m (snd e) ->
          exists ro n alts, m = MProp ro true n (TUnion alts) /\ In (TKw "undefined") alts).
Proof.
  intros e He Hn.
  assert (H : In e (filter named_options corpus_interfaces))
    by (apply filter_In; split; assumption).
  clear He Hn.
  enumerate H ltac:(
    split;
    [ let b := fresh "b" in let Hb := fresh "Hb" in
      intros b Hb; enumerate Hb ltac:(eexists; split; reflexivity)
    | let m := fresh "m" in let Hm := fresh "Hm" in
      intros m Hm; enumerate Hm ltac:(do 3 eexists; split; [reflexivity | in_list]) ]).
Qed.

Lemma options_are_optional_witness :
  map (fun e => fst (fst e)) (filter named_options corpus_interfaces)
  = ["NotificationOptions"; "ErrorNotificationOptions"; "SharedDecorationOptions";
     "DecorationLayerOptions"; "DecorationOptions"; "FindDisplayMarkerOptions"]
  /\ forall e, In e (filter named_options corpus_interfaces) ->
       forall m, In m (snd e) ->
         exists ro n alts, m = MProp ro true n (TUnion alts) /\ In (TKw "undefined") alts.
Proof.
  split; [vm_compute; reflexivity|].
  intros e He. apply filter_In in He. destruct He as [He Hn].
  exact (proj2 (options_are_optional e He Hn)).
Defined.

(** ** X13 *)

(** X13. In every interface whose name ends in [Event], every member the
    interface declares is a required property.  Such an interface extends
    nothing, except that [PaneItemOpenedEvent] extends [PaneItemObservedEvent],
    another of them, and [StyleElementObservedEvent] extends the DOM type
    [HTMLStyleElement], to which it adds its properties. *)
Theorem events_are_records :
  forall e, In e corpus_interfaces -> named_event e = true ->
    (forall m, In m (snd e) -> exists ro n t, m = MProp ro false n t)
    /\ (snd (fst e) = []
        \/ (fst (fst e) = "PaneItemOpenedEvent"
            /\ snd (fst e) = [TName "PaneItemObservedEvent"])
        \/ (fst (fst e) = "StyleElementObservedEvent"
            /\ snd (fst e) = [TName "HTMLStyleElement"])).
Proof.
  intros e He Hn.
  assert (H : In e (filter named_event corpus_interfaces))
    by (apply filter_In; split; assumption).
  clear He Hn.
  enumerate H ltac:(
    split;
    [ let m := fresh "m" in let Hm := fresh "Hm" in
      intros m Hm; enumerate Hm ltac:(do 3 eexists; reflexivity)
    | first [ left; reflexivity
            | right; left; split; reflexivity
            | right; right; split; reflexivity ] ]).
Qed.

Lemma events_are_records_witness :
  map (fun e => (fst (fst e), length (snd (fst e)))) (filter named_event corpus_interfaces)
  = [("StyleElementObservedEvent", 1); ("PaneListItemShiftedEvent", 0);
     ("PaneItemMovedEvent", 0); ("PaneItemObservedEvent", 0); ("PaneItemOpenedEvent", 1);
     ("SuggestionsRequestedEvent", 0); ("SuggestionInsertedEvent", 0)]
  /\ forall e, In e (filter named_event corpus_interfaces) ->
       (forall m, In m (snd e) -> exists ro n t, m = MProp ro false n t)
       /\ (snd (fst e) = []
           \/ (fst (fst e) = "PaneItemOpenedEvent"
               /\ snd (fst e) = [TName "PaneItemObservedEvent"])
           \/ (fst (fst e) = "StyleElementObservedEvent"
               /\ snd (fst e) = [TName "HTMLStyleElement"])).
Proof.
  split; [vm_compute; reflexivity|].
  intros e He. apply filter_In in He. destruct He as [He Hn].
  exact (events_are_records e He Hn).
Defined.

(** ** X14 *)

Lemma corpus_callbacks : forallb callback_check corpus_methods = true.
Proof. vm_compute. reflexivity. Qed.

(** X14. A parameter named [callback] is a required function type that returns
    [void] or [unknown] and takes at most two arguments, at most one when the
    method is a subscription by name.  The one exception is the [callback] of
    [AbstractPaneItem.onDidDestroy], which has no type annotation. *)
Theorem callbacks_return_nothing :
  forall m, In m corpus_methods -> has_param "callback" m = true ->
    (callback_ok 2 m = true
     /\ (subscription_name (m_name m) = true -> callback_ok 1 m = true))
    \/ (callback_untyped m = true
        /\ m_owner m = "AbstractPaneItem" /\ m_name m = "onDidDestroy").
Proof.
  intros m Hm Hc.
  pose proof (proj1 (forallb_forall _ _) corpus_callbacks m Hm) as H.
  unfold callback_check in H. rewrite Hc in H. unfold implb at 1 in H.
  apply orb_prop in H. destruct H as [H | H].
  - left. unfold callback_shape in H. apply andb_prop in H. destruct H as [H2 H1].
    split; [exact H2|]. intros Hs. rewrite Hs in H1. exact H1.
  - right. apply andb_prop in H. destruct H as [H Hn].
    apply andb_prop in H. destruct H as [Hu Ho].
    split; [exact Hu | split; apply String.eqb_eq; assumption].
Qed.

Lemma callbacks_return_nothing_witness :
  In package_onDidDeactivate corpus_methods
  /\ has_param "callback" package_onDidDeactivate = true
  /\ callback_ok 1 package_onDidDeactivate = true.
Proof.
  assert (Hin : In package_onDidDeactivate corpus_methods).
  { unfold corpus_methods. apply in_flat_map. exists package_d_ts. split; [in_list|].
    vm_compute. in_list. }
  assert (Hc : has_param "callback" package_onDidDeactivate = true) by reflexivity.
  split; [exact Hin | split; [exact Hc|]].
  destruct (callbacks_return_nothing package_onDidDeactivate Hin Hc) as [[_ H] | [H _]].
  - apply H. reflexivity.
  - vm_compute in H. discriminate H.
Defined.

(** ** X15 *)

Lemma corpus_results_declared : forallb declares_result corpus_methods = true.
Proof. vm_compute. reflexivity. Qed.

(** X15. Every method of the corpus declares its result type, and every
    parameter of every method carries a type annotation, except the [callback]
    of [AbstractPaneItem.onDidDestroy]. *)
Theorem signatures_are_annotated :
  forall m, In m corpus_methods ->
    (exists t, m_ret m = Some t)
    /\ (untyped_params m = []
        \/ (m_owner m = "AbstractPaneItem" /\ m_name m = "onDidDestroy"
            /\ untyped_params m = ["callback"])).
Proof.
  intros m Hm. split.
  - pose proof (proj1 (forallb_forall _ _) corpus_results_declared m Hm) as H.
    unfold declares_result in H. destruct (m_ret m) as [t|]; [exists t; reflexivity|].
    discriminate H.
  - destruct (has_untyped_param m) eqn:Hu.
    + right.
      assert (H : In m (filter has_untyped_param corpus_methods))
        by (apply filter_In; split; assumption).
      clear Hm Hu. enumerate H ltac:(repeat split; reflexivity).
    + left. unfold has_untyped_param in Hu.
      destruct (untyped_params m); [reflexivity | discriminate Hu].
Qed.

Lemma signatures_are_annotated_witness :
  In package_onDidDeactivate corpus_methods
  /\ (exists t, m_ret package_onDidDeactivate = Some t)
  /\ untyped_params package_onDidDeactivate = [].
Proof.
  assert (Hin : In package_onDidDeactivate corpus_methods).
  { unfold corpus_methods. apply in_flat_map. exists package_d_ts. split; [in_list|].
    vm_compute. in_list. }
  split; [exact Hin|].
  destruct (signatures_are_annotated package_onDidDeactivate Hin) as [Hr _].
  split; [exact Hr | reflexivity].
Defined.

(** ** X16 *)

(** X16. Each overload of [CommandRegistry.add] either registers one command,
    with parameters [target], [commandName], [listener], and returns a
    [Disposable], or registers a map of commands, with parameters [target],
    [commands], and returns a [CompositeDisposable]. *)
Theorem add_returns_by_arity :
  forall m, In m corpus_methods -> is_add_overload m = true ->
    (map param_name (m_params m) = ["target"; "commandName"; "listener"]
     /\ returns "Disposable" m = true)
    \/ (map param_name (m_params m) = ["target"; "commands"]
        /\ returns "CompositeDisposable" m = true).
Proof.
  intros m Hm Hc.
  assert (H : In m (filter is_add_overload corpus_methods))
    by (apply filter_In; split; assumption).
  clear Hm Hc.
  enumerate H ltac:(first [left; split; reflexivity | right; split; reflexivity]).
Qed.

Lemma add_returns_by_arity_witness :
  length (filter is_add_overload corpus_methods) = 6
  /\ forall m, In m (filter is_add_overload corpus_methods) ->
       returns "Disposable" m = true \/ returns "CompositeDisposable" m = true.
Proof.
  split; [vm_compute; reflexivity|].
  intros m Hm. apply filter_In in Hm. destruct Hm as [Hm Hc].
  destruct (add_returns_by_arity m Hm Hc) as [[_ H] | [_ H]]; [left | right]; exact H.
Defined.

(** ** X17 *)

(** X17. Every ambient module block is named [atom] followed by a path and
    holds a single [export *] from the same path under the package name or
    under [.]: [atom/linter] forwards to [linter], and so on. *)
Theorem ambient_modules_forward :
  forall e, In e corpus_ambient_modules ->
    exists rest target,
      fst e = "atom" ++ rest
      /\ snd e = [SExportStar target]
      /\ (target = "@pulsar-edit/types" ++ rest \/ target = "." ++ rest).
Proof.
  intros e He.
  enumerate He ltac:(
    do 2 eexists; split; [reflexivity | split; [reflexivity|]];
    first [left; reflexivity | right; reflexivity]).
Qed.

Lemma ambient_modules_forward_witness :
  exists rest target,
    "atom/linter" = "atom" ++ rest
    /\ [SExportStar "./linter"] = [SExportStar target]
    /\ (target = "@pulsar-edit/types" ++ rest \/ target = "." ++ rest).
Proof.
  apply (ambient_modules_forward ("atom/linter", [SExportStar "./linter"])).
  vm_compute. in_list.
Defined.

(** ** X18 *)

(** X18. Every method of [Config] that is generic in a key of [ConfigValues]
    takes that key first, as [keyPath: T]. *)
Theorem config_methods_take_the_key_first :
  forall m, In m (members_of_interface "Config") ->
    forall o n tps ps r, m = MMethod o n tps ps r ->
      keyed_by tps = Some "ConfigValues" ->
      exists others, ps = req "keyPath" (TName "T") :: others.
Proof.
  intros m Hm.
  enumerate Hm ltac:(
    intros o n tps ps r E Hk; inversion E; subst;
    first [ eexists; reflexivity | vm_compute in Hk; discriminate Hk ]).
Qed.

Lemma config_methods_take_the_key_first_witness :
  exists others,
    [req "keyPath" (TName "T");
     req "callback" (fn [req "value" (TIndexed (TName "ConfigValues") (TName "T"))] (TKw "void"))]
    = req "keyPath" (TName "T") :: others.
Proof.
  refine (config_methods_take_the_key_first
            (gmethod "observe" [TP "T" (Some (TKeyof (TName "ConfigValues"))) None]
               [req "keyPath" (TName "T");
                req "callback"
                  (fn [req "value" (TIndexed (TName "ConfigValues") (TName "T"))] (TKw "void"))]
               (TName "Disposable"))
            _ false "observe" _ _ _ eq_refl eq_refl).
  vm_compute. in_list.
Defined.

(** ** X19 *)

(** X19. Every method whose name asks a question -- [is], [was] or [should]
    followed by a capital -- is declared to return [boolean]; there are
    nineteen such methods, in ten declarations. *)
Theorem predicates_return_boolean :
  (forall m, In m corpus_methods -> asks m = true -> returns "boolean" m = true)
  /\ length (filter asks corpus_methods) = 19
  /\ predicate_owners
     = ["Disposable"; "LanguageMode"; "LayerDecoration"; "Notification"; "Package";
        "Decoration"; "WASMTreeSitterLanguageMode"; "AbstractPaneItem"; "Pane";
        "DisplayMarkerLayer"].
Proof.
  split; [|split; vm_compute; reflexivity].
  intros m Hm Hc.
  assert (H : In m (filter asks corpus_methods)) by (apply filter_In; split; assumption).
  clear Hm Hc. enumerate H ltac:(reflexivity).
Qed.

Lemma predicates_return_boolean_witness :
  length predicate_owners = 10
  /\ forall m, In m (filter asks corpus_methods) -> returns "boolean" m = true.
Proof.
  destruct predicates_return_boolean as [Hall [_ Ho]].
  split; [rewrite Ho; reflexivity|].
  intros m Hm. apply filter_In in Hm. destruct Hm as [Hm Hc].
  exact (Hall m Hm Hc).
Defined.

(** ** X20 *)

Lemma async_counterpart_sound (m a : Method) :
  async_counterpart m = Some a ->
  In a corpus_methods /\ m_owner a = m_owner m /\ m_name a ++ "Sync" = m_name m.
Proof.
  unfold async_counterpart. intros H. apply find_some in H. destruct H as [Hin H].
  apply andb_prop in H. destruct H as [Ho Hn].
  split; [exact Hin | split; apply String.eqb_eq; assumption].
Qed.

Lemma sync_counterpart_shape :
  forall m, In m (filter is_sync corpus_methods) ->
    exists a,
      async_counterpart m = Some a
      /\ ((m_params a = m_params m
           /\ exists r, m_ret a = Some (TRef "Promise" [r])
                        /\ (m_ret m = Some r \/ m_ret m = Some (TUnion [r; TKw "null"])))
          \/ (exists cb, m_params a = (m_params m ++ [cb])%list
                         /\ param_name cb = "callback"
                         /\ returns "void" a = true)).
Proof.
  intros m H.
  enumerate H ltac:(
    eexists; split; [vm_compute; reflexivity|];
    first [ left; split; [reflexivity|]; eexists; split; [reflexivity|];
            first [left; reflexivity | right; reflexivity]
          | right; eexists; split; [reflexivity | split; reflexivity] ]).
Qed.

(** X20. Every method named [...Sync] has, in the same declaration, a
    counterpart without the suffix.  Either the counterpart takes the same
    parameters and returns a [Promise] of what the [Sync] method returns (which
    may add [null]), or it takes one more parameter, a [callback], and returns
    [void]. *)
Theorem sync_methods_have_async_counterparts :
  forall m, In m corpus_methods -> is_sync m = true ->
    exists a,
      async_counterpart m = Some a
      /\ In a corpus_methods
      /\ m_owner a = m_owner m
      /\ m_name a ++ "Sync" = m_name m
      /\ ((m_params a = m_params m
           /\ exists r, m_ret a = Some (TRef "Promise" [r])
                        /\ (m_ret m = Some r \/ m_ret m = Some (TUnion [r; TKw "null"])))
          \/ (exists cb, m_params a = (m_params m ++ [cb])%list
                         /\ param_name cb = "callback"
                         /\ returns "void" a = true)).
Proof.
  intros m Hm Hc.
  assert (H : In m (filter is_sync corpus_methods)) by (apply filter_In; split; assumption).
  destruct (sync_counterpart_shape m H) as [a [Ha Hs]].
  destruct (async_counterpart_sound m a Ha) as [Hin [Ho Hn]].
  exists a. repeat split; assumption.
Qed.

Lemma sync_methods_have_async_counterparts_witness :
  map m_name (filter is_sync corpus_methods)
  = ["readGrammarSync"; "loadGrammarSync"; "getLanguageSync"; "getQuerySync";
     "createQuerySync"]
  /\ forall m, In m (filter is_sync corpus_methods) ->
       exists a, async_counterpart m = Some a /\ m_name a ++ "Sync" = m_name m.
Proof.
  split; [vm_compute; reflexivity|].
  intros m Hm. apply filter_In in Hm. destruct Hm as [Hm Hc].
  destruct (sync_methods_have_async_counterparts m Hm Hc) as [a [Ha [_ [_ [Hn _]]]]].
  exists a. split; [exact Ha | exact Hn].
Defined.
